(** * Car KPI tool chain: collector, report exporter and dashboard

    A shallow embedding of the data-processing code of the three scripts
    [DataSnatcherICEEV.py] (collector), [toExcel.py] (report exporter) and
    [streamlit_dashboard.py] (dashboard), with the properties proved about
    them.

    Conventions of the embedding:
    - Python [int] is [Z]; Python [float] is an IEEE 754 binary64 value,
      a [spec_float] of the Standard Library with [prec = 53] and
      [emax = 1024];
    - Python [str] is [string]; a character is its code point, below 256;
    - a [dict] keyed by strings that is only read and updated by key is a
      [gmap string _]; a decoded JSON document keeps its keys in order as
      an association list;
    - a raised exception is the [Raise] case of [result]; printing and
      logging that no claim reads is left out, what is read (the exporter's
      log, the collector's API calls and file writes) is an explicit trace. *)

From Stdlib Require Import ZArith QArith Qabs String Ascii List Lia.
From Stdlib Require Import Floats.SpecFloat.
From stdpp Require Import gmap strings list fin_maps.

Set Warnings "-register-all".

Local Open Scope string_scope.
Local Open Scope list_scope.
Local Open Scope Z_scope.

(** ** Exceptions *)

Inductive exn :=
  | KeyError | TypeError | ValueError | OverflowError
  | ZeroDivisionError | IndexError | AttributeError | StatisticsError
  | FileNotFoundError | JSONDecodeError
  | PermissionError | UnicodeDecodeError.

#[global] Instance exn_eq_dec : EqDecision exn.
Proof. solve_decision. Defined.

Inductive result (A : Type) :=
  | Ok (a : A)
  | Raise (e : exn).
Arguments Ok {A} a.
Arguments Raise {A} e.

#[global] Instance result_ret : MRet result := @Ok.
#[global] Instance result_bind : MBind result := fun A B f m =>
  match m with Ok a => f a | Raise e => Raise e end.
#[global] Instance result_fmap : FMap result := fun A B f m =>
  match m with Ok a => Ok (f a) | Raise e => Raise e end.

Definition is_Ok {A} (m : result A) : Prop :=
  match m with Ok _ => True | Raise _ => False end.

(** [try: body except (e1, e2, ...): handler]. *)
Definition try_except {A} (body : result A) (caught : list exn) (handler : result A)
  : result A :=
  match body with
  | Ok a => Ok a
  | Raise e => if decide (e ∈ caught) then handler else Raise e
  end.

(** [mapM] for [result], left to right, stopping at the first exception. *)
Fixpoint mapR {A B} (f : A -> result B) (l : list A) : result (list B) :=
  match l with
  | [] => Ok []
  | x :: l' => y ← f x; ys ← mapR f l'; Ok (y :: ys)
  end.

(** ** Python numbers *)

Module PyNum.

Abbreviation float := spec_float.
Abbreviation prec := 53%Z.
Abbreviation emax := 1024%Z.

Definition Fadd : float -> float -> float := SFadd prec emax.
Definition Fdiv : float -> float -> float := SFdiv prec emax.

(** The values a cell of the KPI matrix holds. *)
Inductive pyval :=
  | PyNone
  | PyInt (z : Z)
  | PyFloat (f : float).

#[global] Instance float_eq_dec : EqDecision float.
Proof. solve_decision. Defined.
#[global] Instance pyval_eq_dec : EqDecision pyval.
Proof. solve_decision. Defined.

(** *** Exact values *)

(** The real number (or infinity, or NaN) a Python number denotes. *)
Inductive xreal :=
  | XNaN
  | XInf (neg : bool)
  | XFin (q : Q).

Definition pow2Q (e : Z) : Q :=
  match e with
  | Z0 => 1%Q
  | Zpos p => inject_Z (2 ^ Zpos p)
  | Zneg p => (1 # (2 ^ p))%Q
  end.

Definition float_exact (f : float) : xreal :=
  match f with
  | S754_zero _ => XFin 0%Q
  | S754_infinity s => XInf s
  | S754_nan => XNaN
  | S754_finite s m e => XFin (inject_Z (cond_Zopp s (Zpos m)) * pow2Q e)%Q
  end.

Definition exact (v : pyval) : result xreal :=
  match v with
  | PyNone => Raise TypeError
  | PyInt z => Ok (XFin (inject_Z z))
  | PyFloat f => Ok (float_exact f)
  end.

(** Equality of denoted values ([0.5] and [2/4] are the same number). *)
Definition xeq (a b : xreal) : Prop :=
  match a, b with
  | XNaN, XNaN => True
  | XInf s, XInf s' => s = s'
  | XFin q, XFin q' => (q == q')%Q
  | _, _ => False
  end.

(** Mathematical comparison; [None] when a NaN is involved. *)
Definition xcompare (a b : xreal) : option comparison :=
  match a, b with
  | XNaN, _ | _, XNaN => None
  | XInf s, XInf s' =>
      Some (match s, s' with
            | true, false => Lt | false, true => Gt | _, _ => Eq end)
  | XInf s, XFin _ => Some (if s then Lt else Gt)
  | XFin _, XInf s => Some (if s then Gt else Lt)
  | XFin q, XFin q' => Some (q ?= q')%Q
  end.

(** Python's [a > b] and [a < b] on numbers: ints and floats compare by
    value, exactly; any comparison with NaN is false. *)
Definition xgt (a b : xreal) : bool :=
  match xcompare a b with Some Gt => true | _ => false end.
Definition xlt (a b : xreal) : bool :=
  match xcompare a b with Some Lt => true | _ => false end.

Definition xle (a b : xreal) : bool :=
  match xcompare a b with Some (Lt | Eq) => true | _ => false end.

Definition py_gt (a b : pyval) : result bool :=
  x ← exact a; y ← exact b; Ok (xgt x y).
Definition py_lt (a b : pyval) : result bool :=
  x ← exact a; y ← exact b; Ok (xlt x y).

(** *** Rounding to binary64 *)

(** The double nearest to [n / d] (ties to even), with sign [s]:
    the quotient with its rounding position, then IEEE rounding. *)
Definition div_round (s : bool) (n d : positive) : float :=
  let '(mz, ez, lz) := SFdiv_core_binary prec emax (Zpos n) 0 (Zpos d) 0 in
  binary_round_aux prec emax s mz ez lz.

(** The double nearest to a rational; [szero] is the sign of a zero result. *)
Definition Q_round (szero : bool) (q : Q) : float :=
  match Qnum q with
  | Z0 => S754_zero szero
  | Zpos n => div_round false n (Qden q)
  | Zneg n => div_round true n (Qden q)
  end.

Definition is_finite (f : float) : bool :=
  match f with
  | S754_zero _ | S754_finite _ _ _ => true
  | _ => false
  end.

(** [float(z)] for an int [z]: nearest double, [OverflowError] beyond the
    range. *)
Definition float_of_int (z : Z) : result float :=
  let f := binary_normalize prec emax z 0 false in
  if is_finite f then Ok f else Raise OverflowError.

(** [a / b] on ints: the correctly rounded quotient. *)
Definition int_truediv (a b : Z) : result float :=
  match b, a with
  | Z0, _ => Raise ZeroDivisionError
  | _, Z0 => Ok (S754_zero (b <? 0))
  | _, _ =>
      let f := div_round (xorb (a <? 0) (b <? 0)) (Z.to_pos (Z.abs a)) (Z.to_pos (Z.abs b)) in
      if is_finite f then Ok f else Raise OverflowError
  end.

Definition float_is_zero (f : float) : bool :=
  match f with S754_zero _ => true | _ => false end.

(** [a / b] on floats. *)
Definition float_truediv (a b : float) : result float :=
  if float_is_zero b then Raise ZeroDivisionError else Ok (Fdiv a b).

Definition as_float (v : pyval) : result float :=
  match v with
  | PyNone => Raise TypeError
  | PyInt z => float_of_int z
  | PyFloat f => Ok f
  end.

(** Python's [a / b]. *)
Definition py_truediv (a b : pyval) : result pyval :=
  match a, b with
  | PyInt x, PyInt y => PyFloat <$> int_truediv x y
  | _, _ => x ← as_float a; y ← as_float b; PyFloat <$> float_truediv x y
  end.

(** [a / b] for a float [a] and an int [b]. *)
Definition float_div_int (a : float) (b : Z) : result float :=
  y ← float_of_int b; float_truediv a y.

(** Python's [a + b]: no addition with [None], whatever the other
    operand. *)
Definition py_add (a b : pyval) : result pyval :=
  match a, b with
  | PyNone, _ | _, PyNone => Raise TypeError
  | PyInt x, PyInt y => Ok (PyInt (x + y))
  | _, _ => x ← as_float a; y ← as_float b; Ok (PyFloat (Fadd x y))
  end.

(** The builtin [sum]: [0 + v1 + v2 + ...], one addition after the other
    from the left. On ints the sum is exact. On floats each addition
    rounds, as CPython does up to version 3.11; from 3.12 on the builtin
    carries a compensation term through the float additions, and the last
    bits of a sum of floats can differ from what is computed here. *)
Fixpoint sum_from (acc : pyval) (l : list pyval) : result pyval :=
  match l with
  | [] => Ok acc
  | v :: l' => acc' ← py_add acc v; sum_from acc' l'
  end.
Definition py_sum (l : list pyval) : result pyval := sum_from (PyInt 0) l.

(** [x.is_integer()]: finite and without fractional part. *)
Definition float_is_integer (f : float) : bool :=
  match f with
  | S754_zero _ => true
  | S754_finite _ m e => (0 <=? e) || (Zpos m mod 2 ^ (- e) =? 0)
  | _ => false
  end.

(** [int(x)]: truncation toward zero. *)
Definition int_of_float (f : float) : result Z :=
  match f with
  | S754_zero _ => Ok 0
  | S754_finite s m e => Ok (cond_Zopp s (Z.shiftl (Zpos m) e))
  | S754_infinity _ => Raise OverflowError
  | S754_nan => Raise ValueError
  end.

(** Nearest integer to a non-negative rational, ties to even. *)
Definition Q_nearest_even (q : Q) : Z :=
  let n := Qnum q in
  let d := Zpos (Qden q) in
  let fl := n / d in
  match (2 * (n mod d) ?= d) with
  | Lt => fl
  | Gt => fl + 1
  | Eq => if Z.even fl then fl else fl + 1
  end.

Definition float_sign (f : float) : bool :=
  match f with
  | S754_zero s | S754_infinity s | S754_finite s _ _ => s
  | S754_nan => false
  end.

(** [round(x, 2)] on a float, as CPython computes it: the exact value
    rounded to two decimals (ties to even), read back as the nearest
    double; infinities and NaN round to themselves. *)
Definition float_round2 (f : float) : float :=
  match float_exact f with
  | XFin q =>
      let n := Q_nearest_even (Qabs q * 100)%Q in
      match n with
      | Zpos p => div_round (float_sign f) p 100
      | _ => S754_zero (float_sign f)
      end
  | _ => f
  end.

(** [round(v, 2)]: an int is returned as it is. *)
Definition py_round2 (v : pyval) : result pyval :=
  match v with
  | PyNone => Raise TypeError
  | PyInt z => Ok (PyInt z)
  | PyFloat f => Ok (PyFloat (float_round2 f))
  end.

(** A whole number. *)
Definition whole (q : Q) : Prop := exists z : Z, (q == inject_Z z)%Q.

(** [float(1000)], the divisor of [extract_value]. *)
Definition float_1000 : float := S754_finite false 8796093022208000 (-43).

(** *** [statistics.mean] *)

Definition is_float (v : pyval) : bool :=
  match v with PyFloat _ => true | _ => false end.

Definition is_nonfinite (v : pyval) : bool :=
  match v with PyFloat f => negb (is_finite f) | _ => false end.

Definition xfinite (x : xreal) : bool :=
  match x with XFin _ => true | _ => false end.

Fixpoint Qsum (l : list Q) : Q :=
  match l with
  | [] => 0%Q
  | q :: l' => (q + Qsum l')%Q
  end.

(** The arithmetic mean of rationals. *)
Definition Qmean (l : list Q) : Q :=
  (Qsum l / inject_Z (Z.of_nat (length l)))%Q.

Definition xfin_part (l : list xreal) : list Q :=
  omap (fun x => match x with XFin q => Some q | _ => None end) l.

(** [float(Fraction)], that is numerator / denominator on ints. *)
Definition float_of_Q (q : Q) : result float :=
  let q := Qred q in int_truediv (Qnum q) (Zpos (Qden q)).

(** [statistics.mean(data)]: the data is summed exactly as fractions and
    divided by the count; the quotient is converted once, to [int] when
    all the data is [int] and the mean is whole, to [float] otherwise.
    Infinities and NaN are summed apart, as floats, and win. *)
Definition statistics_mean (data : list pyval) : result pyval :=
  xs ← mapR exact data;
  match data with
  | [] => Raise StatisticsError
  | _ =>
      let n := Z.of_nat (length data) in
      if forallb xfinite xs then
        let m := Qred (Qmean (xfin_part xs)) in
        if existsb is_float data then PyFloat <$> float_of_Q m
        else if Zpos (Qden m) =? 1 then Ok (PyInt (Qnum m))
        else PyFloat <$> float_of_Q m
      else
        total ← py_sum (filter (fun v => is_nonfinite v = true) data);
        py_truediv total (PyInt n)
  end.

(** [avg] is the arithmetic mean of the numbers [qs] as Python holds it:
    an int of that value, or the double nearest to it. *)
Definition is_mean_of (avg : pyval) (qs : list Q) : Prop :=
  match avg with
  | PyNone => False
  | PyInt z => (inject_Z z == Qmean qs)%Q
  | PyFloat f => f = Q_round false (Qred (Qmean qs))
  end.

(** *** Rounding to two decimals, as a relation *)

(** [k] is the whole number nearest to [q], the even one of the two when
    [q] lies halfway. *)
Definition nearest_even (q : Q) (k : Z) : Prop :=
  (Qabs (inject_Z k - q) < 1 # 2)%Q \/
  ((Qabs (inject_Z k - q) == 1 # 2)%Q /\ Z.even k = true).




End PyNum.

(** ** Python strings *)

Module PyStr.

Definition code (c : ascii) : N := N_of_ascii c.

(** A decimal digit, what [\d] matches among the code points of a string. *)
Definition is_digit (c : ascii) : bool :=
  ((48 <=? code c) && (code c <=? 57))%N.

Definition digit_value (c : ascii) : N := (code c - 48)%N.

Definition is_dot (c : ascii) : bool := (code c =? 46)%N.

(** White space in the sense of [str.strip()] and [str.isspace()]. *)
Definition is_space (c : ascii) : bool :=
  (((9 <=? code c) && (code c <=? 13)) || ((28 <=? code c) && (code c <=? 32))
   || (code c =? 133) || (code c =? 160))%N.

Fixpoint lstrip (s : string) : string :=
  match s with
  | "" => ""
  | String c r => if is_space c then lstrip r else s
  end.

Fixpoint rstrip (s : string) : string :=
  match s with
  | "" => ""
  | String c r =>
      match rstrip r with
      | "" => if is_space c then "" else String c ""
      | r' => String c r'
      end
  end.

(** [s.strip()]. *)
Definition strip (s : string) : string := rstrip (lstrip s).

(** [s.split('\n')]. *)
Fixpoint split_lines (s : string) : list string :=
  match s with
  | "" => [""]
  | String c r =>
      if (code c =? 10)%N then "" :: split_lines r
      else match split_lines r with
           | h :: t => String c h :: t
           | [] => [String c ""]
           end
  end.

Fixpoint filter_chars (p : ascii -> bool) (s : string) : string :=
  match s with
  | "" => ""
  | String c r => if p c then String c (filter_chars p r) else filter_chars p r
  end.

(** [re.sub(r'[^\d.]', '', s)]: keep the digits and the decimal points. *)
Definition numeric_residue (s : string) : string :=
  filter_chars (fun c => is_digit c || is_dot c) s.

(** Scanner of [float(s)] on a string of digits and points: the digits
    read so far as a number, the count of digits after the point, the
    count of digits in all. More than one point, or no digit, is not a
    number. *)
Fixpoint scan_decimal (s : string) (seen_dot : bool) (mant : N) (frac ndig : nat)
  : option (N * nat) :=
  match s with
  | "" => if (ndig =? 0)%nat then None else Some (mant, frac)
  | String c r =>
      if is_digit c then
        scan_decimal r seen_dot (10 * mant + digit_value c)%N
          (if seen_dot then S frac else frac) (S ndig)
      else if is_dot c then
        if seen_dot then None else scan_decimal r true mant frac ndig
      else None
  end.

Fixpoint pow10 (k : nat) : positive :=
  match k with
  | O => 1
  | S k' => 10 * pow10 k'
  end.

Definition count_dots (s : string) : nat :=
  String.length (filter_chars is_dot s).

(** [float(s)] for [s] made of digits and decimal points, as
    [numeric_residue] leaves it: the decimal [mant / 10^frac] rounded to
    the nearest double, [ValueError] when [s] is not a decimal. *)
Definition float_of_numeric (s : string) : result PyNum.float :=
  match scan_decimal s false 0 0 0 with
  | None => Raise ValueError
  | Some (mant, frac) =>
      Ok (PyNum.Q_round false (Z.of_N mant # pow10 frac))
  end.

End PyStr.

(** ** Decoded JSON documents *)

Module Json.
Import PyNum.

(** What [json.load] and [response.json()] return: [None], [bool], [int],
    [float], [str], [list], or a [dict] with string keys, kept in the
    order of the document. *)
Inductive json :=
  | JNull
  | JBool (b : bool)
  | JInt (z : Z)
  | JFloat (f : float)
  | JStr (s : string)
  | JArr (items : list json)
  | JObj (fields : list (string * json)).

(** [d.get(k)] on the fields of a dict. *)
Fixpoint jget (k : string) (fields : list (string * json)) : option json :=
  match fields with
  | [] => None
  | (k', v) :: rest => if decide (k' = k) then Some v else jget k rest
  end.

(** Truth value of an object, as [if x:] and [not x] take it. *)
Definition truthy (x : json) : bool :=
  match x with
  | JNull => false
  | JBool b => b
  | JInt z => negb (z =? 0)
  | JFloat f => negb (float_is_zero f)
  | JStr s => negb (String.eqb s "")
  | JArr items => negb (Nat.eqb (length items) 0)
  | JObj fields => negb (Nat.eqb (length fields) 0)
  end.

Fixpoint is_infix (needle s : string) : bool :=
  String.prefix needle s ||
  match s with
  | "" => false
  | String _ r => is_infix needle r
  end.

Definition is_JStr (k : string) (x : json) : bool :=
  match x with JStr s => String.eqb s k | _ => false end.

(** [k in x] for a string [k]. *)
Definition contains (k : string) (x : json) : result bool :=
  match x with
  | JObj fields => Ok (bool_decide (is_Some (jget k fields)))
  | JArr items => Ok (existsb (is_JStr k) items)
  | JStr s => Ok (is_infix k s)
  | _ => Raise TypeError
  end.

(** [x[k]] for a string [k]. *)
Definition getitem (x : json) (k : string) : result json :=
  match x with
  | JObj fields =>
      match jget k fields with
      | Some v => Ok v
      | None => Raise KeyError
      end
  | _ => Raise TypeError
  end.

(** [x[0]]. *)
Definition getitem0 (x : json) : result json :=
  match x with
  | JArr (v :: _) => Ok v
  | JArr [] => Raise IndexError
  | JStr (String c _) => Ok (JStr (String c ""))
  | JStr "" => Raise IndexError
  | JObj _ => Raise KeyError
  | _ => Raise TypeError
  end.

(** [len(x)]. *)
Definition len (x : json) : result nat :=
  match x with
  | JArr items => Ok (length items)
  | JStr s => Ok (String.length s)
  | JObj fields => Ok (length fields)
  | _ => Raise TypeError
  end.

(** [isinstance(x, list)]. *)
Definition is_list (x : json) : bool :=
  match x with JArr _ => true | _ => false end.

(** A Python list of strings. *)
Definition str_list (l : list string) : json := JArr (JStr <$> l).

End Json.

(** ** The KPI value matrix *)

Module Matrix.
Import PyNum.

(** [values[car][kpi]]. *)
Definition cell (d : gmap string (gmap string pyval)) (car kpi : string) : result pyval :=
  match d !! car with
  | None => Raise KeyError
  | Some row =>
      match row !! kpi with
      | None => Raise KeyError
      | Some v => Ok v
      end
  end.

(** [values[car].get(kpi, 0)]. *)
Definition cell_or_zero (d : gmap string (gmap string pyval)) (kpi car : string)
  : result pyval :=
  match d !! car with
  | None => Raise KeyError
  | Some row => Ok (default (PyInt 0) (row !! kpi))
  end.

End Matrix.

(** ** The collector, [DataSnatcherICEEV.py] *)

Module Collector.
Import PyNum PyStr Json Matrix.

(** *** [extract_value] *)

(** [extract_value(content)]. The [try] block covers the conversion, the
    comparison, the division and the return; only [ValueError] is caught. *)
Definition extract_value (content : string) : result pyval :=
  let content := strip content in
  let numeric_str := numeric_residue content in
  if decide (numeric_str = "") then Ok (PyInt 0)
  else
    try_except
      (value ← float_of_numeric numeric_str;
       large ← py_gt (PyFloat value) (PyInt 1000);
       value ← (if large : bool then float_div_int value 1000 else Ok value);
       if float_is_integer value then PyInt <$> int_of_float value
       else Ok (PyFloat value))
      [ValueError]
      (Ok (PyInt 0)).

(** *** Step 1: the catalog *)

Definition input_filename : string := "car_kpi_data.json".

(** A file as [open] and [json.load] see it: a file that cannot be
    opened (no permission; a directory fails alike, with
    [IsADirectoryError], which no handler of the three scripts tells
    apart), bytes that are not text, text that is not JSON, or a document,
    held as the value it decodes to. The encoding of a value as text and
    its decoding belong to the [json] module and are not modelled: what is
    dumped is what loads. *)
Inductive file_content :=
  | Unreadable
  | NotText
  | NotJSON
  | Doc (v : json).

(** What the script does to the outside, in order. *)
Inductive event :=
  | EvQuery (prompt : string)
  | EvWrite (filename : string) (data : json).

(** [json.load(open(filename))]. *)
Definition json_load (fs : gmap string file_content) (filename : string) : result json :=
  match fs !! filename with
  | None => Raise FileNotFoundError
  | Some Unreadable => Raise PermissionError
  | Some NotText => Raise UnicodeDecodeError
  | Some NotJSON => Raise JSONDecodeError
  | Some (Doc v) => Ok v
  end.

(** [json.dump(data, open(filename, "w"))]: the file now decodes to [data]. *)
Definition json_dump (fs : gmap string file_content) (filename : string) (data : json)
  : gmap string file_content :=
  <[filename := Doc data]> fs.

(** The body of the [try] of step 1. *)
Definition load_catalog (fs : gmap string file_content) : result (json * json) :=
  data ← json_load fs input_filename;
  kpi_list ← getitem data "top_5_KPIs";
  has_new ← contains "top_cars_US_2024" data;
  car_list ←
    (if has_new : bool then getitem data "top_cars_US_2024"
     else
       has_old ← contains "top_bought_cars_US" data;
       if has_old : bool then getitem data "top_bought_cars_US"
       else Raise KeyError);
  n ← len car_list;
  if negb (Nat.eqb n 20) then Raise KeyError
  else Ok (kpi_list, car_list).

Definition prompt_cars : string :=
  "List the 10 most bought Internal Combustion Engine (ICE) cars and the 10 most bought Electric Vehicles (EV) in the US for 2024 as a simple list of names with specific model tiers (e.g., 'Toyota Camry LE', 'Tesla Model 3 Long Range'), one per line, no numbers or extra text.".

Definition all_kpis : list string :=
  [ "Fuel Efficiency (MPG)"; "Acceleration (0-60 mph)"; "Range (miles)";
    "Maintenance Cost"; "Cost Over Ownership"; "Passenger Capacity";
    "Cargo Space (cu ft)"; "Towing Capacity (lbs)"; "Horsepower" ].

Definition excluded_kpis : list string :=
  [ "Reliability Rating"; "Safety Rating"; "Resale Value" ].

Definition available_kpis : list string :=
  filter (fun kpi => kpi ∉ excluded_kpis) all_kpis.

(** [random.sample(population, k)]: [k] draws without replacement; the
    random source is the list [draws], one number per draw, each taken
    modulo the size of what is left. *)
Fixpoint sample {A} (population : list A) (k : nat) (draws : list nat) : list A :=
  match k with
  | O => []
  | S k' =>
      let i := (hd O draws `mod` length population)%nat in
      match population !! i with
      | Some x => x :: sample (delete i population) k' (tl draws)
      | None => []
      end
  end.

Definition random_sample {A} (population : list A) (k : nat) (draws : list nat)
  : result (list A) :=
  if (length population <? k)%nat then Raise ValueError
  else Ok (sample population k draws).

(** How step 1 ends: the script goes on to step 2 with the two lists, or
    [sys.exit(code)], or an exception nobody catches. *)
Inductive outcome :=
  | Continue (kpi_list car_list : json)
  | Exit (code : Z)
  | Uncaught (e : exn).

Record run := {
  out : outcome;
  files : gmap string file_content;
  trace : list event
}.

(** The car names of a response: its first choice's content, stripped,
    one name per line, blank lines dropped. *)
Definition cars_of_response (response_cars : json) : result (list string) :=
  choices ← getitem response_cars "choices";
  first ← getitem0 choices;
  message ← getitem first "message";
  content ← getitem message "content";
  match content with
  | JStr text =>
      let car_list := split_lines (strip text) in
      Ok (strip <$> filter (fun car => strip car ≠ "") car_list)
  | _ => Raise AttributeError
  end.

(** [response and "choices" in response and len(response["choices"]) > 0],
    where [None] stands for a failed call. *)
Definition has_choices (response : option json) : result bool :=
  match response with
  | None => Ok false
  | Some r =>
      if negb (truthy r) then Ok false
      else
        has ← contains "choices" r;
        if negb has then Ok false
        else choices ← getitem r "choices"; n ← len choices; Ok (0 <? n)%nat
  end.

(** The catalog as it is written: [{"top_cars_US_2024": ..., "top_5_KPIs": ...}]. *)
Definition catalog (kpi_list car_list : list string) : json :=
  JObj [("top_cars_US_2024", str_list car_list); ("top_5_KPIs", str_list kpi_list)].

(** The [except] branch of step 1: fetch the cars, draw the KPIs, write
    the catalog. [api] answers a prompt, [draws] is the random source. *)
Definition regenerate (api : string -> option json) (draws : list nat)
    (fs : gmap string file_content) : run :=
  let response_cars := api prompt_cars in
  let asked := [EvQuery prompt_cars] in
  let stop o := {| out := o; files := fs; trace := asked |} in
  match has_choices response_cars with
  | Raise e => stop (Uncaught e)
  | Ok false => stop (Exit 1)
  | Ok true =>
      match from_option cars_of_response (Raise TypeError) response_cars with
      | Raise e => stop (Uncaught e)
      | Ok car_list =>
          if negb (Nat.eqb (length car_list) 20) then stop (Exit 1)
          else
            match random_sample available_kpis 5 draws with
            | Raise e => stop (Uncaught e)
            | Ok kpi_list =>
                let data := catalog kpi_list car_list in
                {| out := Continue (str_list kpi_list) (str_list car_list);
                   files := json_dump fs input_filename data;
                   trace := asked ++ [EvWrite input_filename data] |}
            end
      end
  end.

(** Step 1. *)
Definition step1 (api : string -> option json) (draws : list nat)
    (fs : gmap string file_content) : run :=
  match load_catalog fs with
  | Ok (kpi_list, car_list) =>
      {| out := Continue kpi_list car_list; files := fs; trace := [] |}
  | Raise e =>
      if decide (e ∈ [FileNotFoundError; JSONDecodeError; KeyError])
      then regenerate api draws fs
      else {| out := Uncaught e; files := fs; trace := [] |}
  end.

(** The car list of a catalog document: under the current key, or else
    under the former one. *)
Definition selected_car_list (fields : list (string * json)) : option json :=
  match jget "top_cars_US_2024" fields with
  | Some car_list => Some car_list
  | None => jget "top_bought_cars_US" fields
  end.

Definition is_write (e : event) : bool :=
  match e with EvWrite _ _ => true | EvQuery _ => false end.

(** *** Step 3: the averages *)

(** [[d[car][kpi] for car in car_list if d[car][kpi] is not None]]. *)
Fixpoint present_values (d : gmap string (gmap string pyval)) (kpi : string)
    (car_list : list string) : result (list pyval) :=
  match car_list with
  | [] => Ok []
  | car :: rest =>
      c ← cell d car kpi;
      if decide (c = PyNone) then present_values d kpi rest
      else v ← cell d car kpi; vs ← present_values d kpi rest; Ok (v :: vs)
  end.

(** The values of a KPI along the list of cars, and those of them that
    are present. *)
Definition column (d : gmap string (gmap string pyval)) (kpi : string)
    (car_list : list string) : list pyval :=
  omap (fun car => row ← d !! car; row !! kpi) car_list.

Definition present (vs : list pyval) : list pyval :=
  filter (fun v => v <> PyNone) vs.

(** [avg_value] of one round of the loop of step 3. *)
Definition average_value (car_list : list string) (d : gmap string (gmap string pyval))
    (kpi : string) : result pyval :=
  kpi_values ← present_values d kpi car_list;
  if decide (kpi_values = []) then Ok (PyInt 0) else statistics_mean kpi_values.

(** One round of the loop of step 3. *)
Definition average_kpi (car_list : list string) (d : gmap string (gmap string pyval))
    (kpi : string) : result (gmap string (gmap string pyval)) :=
  avg_value ← average_value car_list d kpi;
  match d !! "Average" with
  | None => Raise KeyError
  | Some row => Ok (<["Average" := <[kpi := avg_value]> row]> d)
  end.

Fixpoint average_loop (car_list kpi_list : list string)
    (d : gmap string (gmap string pyval)) : result (gmap string (gmap string pyval)) :=
  match kpi_list with
  | [] => Ok d
  | kpi :: rest => d' ← average_kpi car_list d kpi; average_loop car_list rest d'
  end.

(** Step 3: [car_kpi_data["Average"] = {}], then the loop over the KPIs. *)
Definition step3 (car_list kpi_list : list string) (d : gmap string (gmap string pyval))
  : result (gmap string (gmap string pyval)) :=
  average_loop car_list kpi_list (<["Average" := ∅]> d).

End Collector.

(** ** The report exporter, [toExcel.py] *)

Module Exporter.
Import PyNum Json Matrix.

Inductive level := INFO | WARNING | ERROR.

(** The messages of the validation and of [main], by what they say. *)
Inductive message :=
  | MissingRequiredKeys
  | KpiListEmptyOrNotList
  | CarListEmptyOrNotList
  | MissingDataForCar (car : json)
  | MissingKpiForCar (kpi car : json)
  | ValidationPassed
  | CannotProceedWithoutFiles
  | ValidationFailed.

(** [d.get(k)] on a dict with string keys, for any object [k] as key: a
    list or a dict cannot be hashed, anything else but a string is not
    there. *)
Definition key_lookup {V} (k : json) (d : gmap string V) : result (option V) :=
  match k with
  | JStr s => Ok (d !! s)
  | JArr _ | JObj _ => Raise TypeError
  | _ => Ok None
  end.

(** The inner loop of the validation: one warning per KPI the row lacks. *)
Fixpoint check_kpis (row : gmap string pyval) (car : json) (kpis : list json)
  : result (list (level * message)) :=
  match kpis with
  | [] => Ok []
  | kpi :: rest =>
      found ← key_lookup kpi row;
      ws ← check_kpis row car rest;
      Ok (match found with
          | None => (WARNING, MissingKpiForCar kpi car) :: ws
          | Some _ => ws
          end)
  end.

(** The loop over the cars: the first car without a row ends it. *)
Fixpoint check_cars (values_data : gmap string (gmap string pyval)) (kpis cars : list json)
  : result (list (level * message) * bool) :=
  match cars with
  | [] => Ok ([], true)
  | car :: rest =>
      found ← key_lookup car values_data;
      match found with
      | None => Ok ([(ERROR, MissingDataForCar car)], false)
      | Some row =>
          ws ← check_kpis row car kpis;
          '(records, ok) ← check_cars values_data kpis rest;
          Ok (ws ++ records, ok)
      end
  end.

(** [validate_json_data(kpi_data, values_data)], with what it logs. *)
Definition validate_json_data (kpi_data : list (string * json))
    (values_data : gmap string (gmap string pyval))
  : result (list (level * message) * bool) :=
  match jget "top_5_KPIs" kpi_data, jget "top_cars_US_2024" kpi_data with
  | Some kpis, Some cars =>
      match kpis with
      | JArr ((_ :: _) as kpi_items) =>
          match cars with
          | JArr ((_ :: _) as car_items) =>
              '(records, ok) ← check_cars values_data kpi_items car_items;
              Ok (if ok : bool then (records ++ [(INFO, ValidationPassed)], true)
                  else (records, false))
          | _ => Ok ([(ERROR, CarListEmptyOrNotList)], false)
          end
      | _ => Ok ([(ERROR, KpiListEmptyOrNotList)], false)
      end
  | _, _ => Ok ([(ERROR, MissingRequiredKeys)], false)
  end.

(** The warnings a row earns: one per listed KPI it lacks, in order. *)
Definition warnings_for (row : gmap string pyval) (car : string) (kpis : list string)
  : list (level * message) :=
  (fun kpi => (WARNING, MissingKpiForCar (JStr kpi) (JStr car)))
    <$> filter (fun kpi => row !! kpi = None) kpis.

(** [[values[car].get(kpi, 0) for car in cars]]. *)
Definition kpi_values (values : gmap string (gmap string pyval)) (kpi : string)
    (cars : list string) : result (list pyval) :=
  mapR (cell_or_zero values kpi) cars.

(** The body of the loop of [calculate_averages] for one KPI. *)
Definition average_of (kpi_values : list pyval) : result pyval :=
  if decide (kpi_values = []) then Ok (PyInt 0)
  else
    total ← py_sum kpi_values;
    avg ← py_truediv total (PyInt (Z.of_nat (length kpi_values)));
    py_round2 avg.

Fixpoint averages_loop (cars kpis : list string) (values : gmap string (gmap string pyval))
    (averages : gmap string pyval) : result (gmap string pyval) :=
  match kpis with
  | [] => Ok averages
  | kpi :: rest =>
      vs ← kpi_values values kpi cars;
      avg ← average_of vs;
      averages_loop cars rest values (<[kpi := avg]> averages)
  end.

(** [calculate_averages(cars, kpis, values)]. *)
Definition calculate_averages (cars kpis : list string)
    (values : gmap string (gmap string pyval)) : result (gmap string pyval) :=
  averages_loop cars kpis values ∅.


(** How far [main] gets before the report is built: it returns a code, or
    it reaches step 3 with the validated data. *)
Inductive progress :=
  | Return (code : Z)
  | ReachesStep3 (kpi_data : list (string * json))
                 (values : gmap string (gmap string pyval)).

(** Steps 1 and 2 of [main]; the arguments are what the two calls of
    [load_json_file] return, [None] for a file that did not load. *)
Definition main (car_kpi_data : option (list (string * json)))
    (car_kpi_values : option (gmap string (gmap string pyval)))
  : result (list (level * message) * progress) :=
  match car_kpi_data, car_kpi_values with
  | Some kpi_data, Some values =>
      if negb (truthy (JObj kpi_data)) || bool_decide (values = ∅)
      then Ok ([(ERROR, CannotProceedWithoutFiles)], Return 1)
      else
        '(records, ok) ← validate_json_data kpi_data values;
        if ok : bool then Ok (records, ReachesStep3 kpi_data values)
        else Ok (records ++ [(ERROR, ValidationFailed)], Return 1)
  | _, _ => Ok ([(ERROR, CannotProceedWithoutFiles)], Return 1)
  end.

(** [sys.exit(main())]: the exit code of the process when [main] returns. *)
Definition exit_code (p : progress) : option Z :=
  match p with
  | Return code => Some code
  | ReachesStep3 _ _ => None
  end.

End Exporter.

(** ** The dashboard, [streamlit_dashboard.py] *)

Module Dashboard.
Import PyNum Json Matrix.

(** The car has a value of its own for the KPI. *)
Definition has_entry (values_data : gmap string (gmap string pyval)) (car kpi : string)
  : Prop :=
  exists row v, values_data !! car = Some row /\ row !! kpi = Some v.

(** The scan of [max(cars, key=...)] and [min(cars, key=...)] after the
    first element: a later element replaces the best one only when it is
    strictly [better]. *)
Fixpoint scan_best (better : pyval -> pyval -> result bool) (key : string -> result pyval)
    (best : string) (best_val : pyval) (rest : list string) : result string :=
  match rest with
  | [] => Ok best
  | x :: rest' =>
      v ← key x;
      b ← better v best_val;
      if b : bool then scan_best better key x v rest'
      else scan_best better key best best_val rest'
  end.

Definition select_best (better : pyval -> pyval -> result bool)
    (key : string -> result pyval) (cars : list string) : result string :=
  match cars with
  | [] => Raise ValueError
  | x :: rest => v ← key x; scan_best better key x v rest
  end.

(** [max(cars, key=lambda x: values_data[x].get(kpi, 0))]. *)
Definition top_car (values_data : gmap string (gmap string pyval)) (cars : list string)
    (kpi : string) : result string :=
  select_best py_gt (cell_or_zero values_data kpi) cars.

(** [min(cars, key=lambda x: values_data[x].get(kpi, 0))]. *)
Definition bottom_car (values_data : gmap string (gmap string pyval)) (cars : list string)
    (kpi : string) : result string :=
  select_best py_lt (cell_or_zero values_data kpi) cars.

(** One line of "Top Performers": the car and [values_data[top_car][kpi]]. *)
Definition top_line (values_data : gmap string (gmap string pyval)) (cars : list string)
    (kpi : string) : result (string * pyval) :=
  car ← top_car values_data cars kpi;
  v ← cell values_data car kpi;
  Ok (car, v).

(** One line of "Areas for Improvement". *)
Definition bottom_line (values_data : gmap string (gmap string pyval)) (cars : list string)
    (kpi : string) : result (string * pyval) :=
  car ← bottom_car values_data cars kpi;
  v ← cell values_data car kpi;
  Ok (car, v).

(** The "Key Insights" section: both columns, over [kpis[:3]]. *)
Definition key_insights (values_data : gmap string (gmap string pyval))
    (cars kpis : list string)
  : result (list (string * pyval) * list (string * pyval)) :=
  tops ← mapR (top_line values_data cars) (take 3 kpis);
  bottoms ← mapR (bottom_line values_data cars) (take 3 kpis);
  Ok (tops, bottoms).

End Dashboard.

(** ** Sample data *)

Module Examples.
Import PyNum PyStr Json Matrix Collector.

Definition ice_cars : list string :=
  [ "Toyota Camry LE"; "Honda Civic LX"; "Toyota RAV4 XLE"; "Honda CR-V EX";
    "Ford F-150 XLT"; "Chevrolet Silverado LT"; "Ram 1500 Big Horn";
    "Nissan Rogue SV"; "Toyota Corolla LE"; "Jeep Grand Cherokee Laredo" ].

Definition ev_cars : list string :=
  [ "Tesla Model 3 Long Range"; "Tesla Model Y Long Range"; "Ford Mustang Mach-E Premium";
    "Hyundai Ioniq 5 SEL"; "Chevrolet Bolt EUV LT"; "Rivian R1T Adventure";
    "Volkswagen ID.4 Pro"; "Kia EV6 Wind"; "Nissan Ariya Engage"; "BMW i4 eDrive40" ].

Definition twenty_cars : list string := ice_cars ++ ev_cars.
Definition nineteen_cars : list string := tail twenty_cars.

Definition five_kpis : list string :=
  [ "Horsepower"; "Range (miles)"; "Cost Over Ownership";
    "Passenger Capacity"; "Maintenance Cost" ].

Definition newline : string := String (ascii_of_N 10) "".

(** The answer the prompt for the cars asks for: one name per line. *)
Definition cars_response (names : list string) : json :=
  JObj [("choices",
         JArr [JObj [("message",
                      JObj [("role", JStr "assistant");
                            ("content", JStr (String.concat newline names))])]])].

Definition no_files : gmap string file_content := ∅.

Definition stale_files : gmap string file_content :=
  {[ input_filename := Doc (catalog five_kpis nineteen_cars) ]}.

Definition good_files : gmap string file_content :=
  {[ input_filename := Doc (catalog five_kpis twenty_cars) ]}.

(** A matrix of two cars, as step 2 may leave it, and matrices with gaps. *)
Definition two_cars : list string := ["Toyota Camry LE"; "Tesla Model 3 Long Range"].
Definition two_kpis : list string := ["Horsepower"; "Range (miles)"].

Definition camry_row : gmap string pyval :=
  {[ "Horsepower" := PyInt 203; "Range (miles)" := PyNone ]}.
Definition tesla_row : gmap string pyval :=
  {[ "Horsepower" := PyInt 394; "Range (miles)" := PyNone ]}.
Definition example_matrix : gmap string (gmap string pyval) :=
  {[ "Toyota Camry LE" := camry_row; "Tesla Model 3 Long Range" := tesla_row ]}.

Definition camry_gap : gmap string pyval := {[ "Horsepower" := PyInt 203 ]}.
Definition tesla_full : gmap string pyval :=
  {[ "Horsepower" := PyInt 394; "Range (miles)" := PyInt 341 ]}.
Definition gap_values : gmap string (gmap string pyval) :=
  {[ "Toyota Camry LE" := camry_gap; "Tesla Model 3 Long Range" := tesla_full;
     "Average" := {[ "Horsepower" := PyInt 7 ]} ]}.
Definition tesla_only : gmap string (gmap string pyval) :=
  {[ "Tesla Model 3 Long Range" := tesla_full ]}.

Definition two_catalog : list (string * json) :=
  [("top_cars_US_2024", str_list two_cars); ("top_5_KPIs", str_list two_kpis)].

End Examples.

(** ** The collector: querying the API and filling the matrix *)

Module Fill.
Import PyNum PyStr Json Matrix Collector.

(** What [requests.post] answers: a status and a body, [None] when the
    body is not JSON. *)
Record http_reply := {
  status_code : Z;
  body : option json
}.

(** [query_x_api(prompt)], over what the endpoint answers to a prompt:
    the decoded body of a reply 200, [None] for a body that does not
    decode and for any other status. *)
Definition query_x_api (post : string -> http_reply) (prompt : string) : option json :=
  let response := post prompt in
  if status_code response =? 200 then body response else None.

(** [response["choices"][0]["message"]["content"]]. *)
Definition content_of (response : json) : result json :=
  choices ← getitem response "choices";
  first ← getitem0 choices;
  message ← getitem first "message";
  getitem message "content".

(** [extract_content(response)]. *)
Definition extract_content (response : option json) : result pyval :=
  ok ← has_choices response;
  if ok : bool then
    match response with
    | Some r =>
        content ← content_of r;
        match content with
        | JStr text => extract_value (strip text)
        | _ => Raise AttributeError
        end
    | None => Ok (PyInt 0)
    end
  else Ok (PyInt 0).

(** The prompt of step 2 for a car and a KPI. *)
Definition kpi_prompt (car kpi : string) : string :=
  if decide (kpi = "Cost Over Ownership") then
    String.append "Provide the 5-year total cost of ownership in thousands of dollars for the "
      (String.append car " in the US for 2024 as a single integer value (e.g., 25 for $25,000, no units, no text, just the number).")
  else
    String.append "Provide the "
      (String.append kpi
         (String.append " for the "
            (String.append car " in the US for 2024 as a single integer value (no units, no text, just the number)."))).

(** The state of step 2: the matrix, the number of calls made, and the
    prompts sent, in order. *)
Record filling := {
  data : gmap string (gmap string pyval);
  calls : nat;
  prompts : list string
}.

(** The inner loop of step 2, over the KPIs of one car. [api n prompt] is
    what [query_x_api] returns at the call number [n]. *)
Fixpoint fill_row (api : nat -> string -> option json) (car : string)
    (kpi_list : list string) (st : filling) : result filling :=
  match kpi_list with
  | [] => Ok st
  | kpi :: rest =>
      let prompt := kpi_prompt car kpi in
      let response := api (calls st) prompt in
      value ← extract_content response;
      match data st !! car with
      | None => Raise KeyError
      | Some row =>
          fill_row api car rest
            {| data := <[car := <[kpi := value]> row]> (data st);
               calls := S (calls st);
               prompts := prompts st ++ [prompt] |}
      end
  end.

(** The outer loop of step 2: [car_kpi_data[car] = {}], then the KPIs. *)
Fixpoint fill (api : nat -> string -> option json) (car_list kpi_list : list string)
    (st : filling) : result filling :=
  match car_list with
  | [] => Ok st
  | car :: rest =>
      st' ← fill_row api car kpi_list
              {| data := <[car := ∅]> (data st);
                 calls := calls st; prompts := prompts st |};
      fill api rest kpi_list st'
  end.

(** Step 2, from [car_kpi_data = {}]. *)
Definition step2 (api : nat -> string -> option json) (car_list kpi_list : list string)
  : result filling :=
  fill api car_list kpi_list {| data := ∅; calls := 0; prompts := [] |}.

(** Steps 2 and 3 in a row: the matrix with its averages. *)
Definition step2_3 (api : nat -> string -> option json) (car_list kpi_list : list string)
  : result (gmap string (gmap string pyval)) :=
  st ← step2 api car_list kpi_list;
  step3 car_list kpi_list (data st).

(** The prompts of step 2: for each car, one per KPI. *)
Definition all_prompts (car_list kpi_list : list string) : list string :=
  car ← car_list; kpi_prompt car <$> kpi_list.

End Fill.

(** ** The exporter: the table, the chart sheets and the dashboard sheet *)

Module Report.
Import PyNum PyStr Json Matrix Exporter.

(** A cell of the table: a car name or a value. *)
Inductive cellv :=
  | CStr (s : string)
  | CVal (v : pyval).

(** [d[k] = v] on a dict, which keeps the order of first insertion. *)
Fixpoint dict_set {V} (k : string) (v : V) (d : list (string * V)) : list (string * V) :=
  match d with
  | [] => [(k, v)]
  | (k', v') :: rest =>
      if decide (k' = k) then (k, v) :: rest else (k', v') :: dict_set k v rest
  end.

(** The column of a KPI: the value of each car, 0 for a KPI its row
    lacks, then [averages[kpi]]. *)
Definition kpi_column (cars : list string) (kpi : string)
    (values : gmap string (gmap string pyval)) (averages : gmap string pyval)
  : result (list cellv) :=
  vs ← kpi_values values kpi cars;
  match averages !! kpi with
  | None => Raise KeyError
  | Some avg => Ok (CVal <$> (vs ++ [avg]))
  end.

Fixpoint add_columns (cars kpis : list string)
    (values : gmap string (gmap string pyval)) (averages : gmap string pyval)
    (table_data : list (string * list cellv)) : result (list (string * list cellv)) :=
  match kpis with
  | [] => Ok table_data
  | kpi :: rest =>
      col ← kpi_column cars kpi values averages;
      add_columns cars rest values averages (dict_set kpi col table_data)
  end.

(** [table_data] as [create_dataframe] builds it. *)
Definition table_data (cars kpis : list string)
    (values : gmap string (gmap string pyval)) (averages : gmap string pyval)
  : result (list (string * list cellv)) :=
  add_columns cars kpis values averages [("Car", CStr <$> (cars ++ ["Average"]))].

(** What is read of a data frame: the labels of its columns and the
    number of its rows. *)
Record frame := {
  frame_columns : list string;
  frame_rows : nat
}.

(** [pd.DataFrame(table_data)]: the columns in the order of the dict;
    columns of different lengths are refused. How pandas stores the cells
    it is handed (a column of ints closed by a float becomes a column of
    floats) belongs to pandas and is not modelled. *)
Definition DataFrame (table_data : list (string * list cellv)) : result frame :=
  match table_data with
  | [] => Ok {| frame_columns := []; frame_rows := 0 |}
  | (_, first) :: rest =>
      if forallb (fun col => Nat.eqb (length col.2) (length first)) rest
      then Ok {| frame_columns := table_data.*1; frame_rows := length first |}
      else Raise ValueError
  end.

(** [create_dataframe(cars, kpis, values, averages)]. *)
Definition create_dataframe (cars kpis : list string)
    (values : gmap string (gmap string pyval)) (averages : gmap string pyval)
  : result frame :=
  t ← table_data cars kpis values averages;
  DataFrame t.

(** Steps 4 and 5 of [main]. *)
Definition report_table (cars kpis : list string)
    (values : gmap string (gmap string pyval)) : result frame :=
  average_values ← calculate_averages cars kpis values;
  create_dataframe cars kpis values average_values.

(** What a column of the table is made of: the name of a KPI, the
    values of the cars and the average of the KPI. *)
Definition column_of (cars : list string) (values : gmap string (gmap string pyval))
    (averages : gmap string pyval) (kpi : string) (col : string * list cellv) : Prop :=
  col.1 = kpi /\
  exists vs avg,
    kpi_values values kpi cars = Ok vs /\ averages !! kpi = Some avg /\
    col.2 = CVal <$> (vs ++ [avg]).

(** *** Chart sheets *)

Definition MAIN_SHEET_NAME : string := "Car KPIs".
Definition DASHBOARD_SHEET_NAME : string := "Dashboard".

Definition CHART_COLORS : list string :=
  ["4472C4"; "5B9BD5"; "ED7D31"; "70AD47"; "FFC000"; "7030A0"; "C00000"].

(** [s.replace(old, new)] for single characters. *)
Fixpoint replace_char (old new : ascii) (s : string) : string :=
  match s with
  | "" => ""
  | String c r =>
      String (if Ascii.eqb c old then new else c) (replace_char old new r)
  end.

(** [kpi.replace(' ', '_')[:31]], the name of the sheet of a KPI. *)
Definition sheet_name (kpi : string) : string :=
  String.substring 0 31 (replace_char " " "_" kpi).

(** A string without a space. *)
Definition no_space (s : string) : Prop :=
  Forall (fun c => c <> " "%char) (list_ascii_of_string s).

(** [Reference(ws_data, min_col, min_row, max_row)]. *)
Record reference := {
  min_col : Z;
  min_row : Z;
  max_row : Z
}.

(** What a bar chart is given: where it goes, what it shows, its colour. *)
Record bar_chart := {
  chart_title : string;
  x_axis_title : option string;
  y_axis_title : option string;
  height : Z;
  width : Z;
  categories : reference;
  chart_values : reference;
  fill_color : string
}.

(** [CHART_COLORS[i % len(CHART_COLORS)]]. *)
Definition chart_color (i : Z) : string :=
  nth (Z.to_nat (i mod Z.of_nat (length CHART_COLORS))) CHART_COLORS "".

(** What one round of the loop of [create_excel_charts] puts on the
    sheet it has just created, at index [i]: the heading and the chart. *)
Definition detail_chart (max_row : Z) (i : Z) (kpi : string)
  : string * bar_chart :=
  (String.append kpi " Performance Comparison",
   {| chart_title := String.append kpi " by Car Model (2024)";
      x_axis_title := Some "Car Model";
      y_axis_title := Some kpi;
      height := 15;
      width := 25;
      categories := {| min_col := 1; min_row := 2; max_row := max_row |};
      chart_values := {| min_col := i; min_row := 2; max_row := max_row |};
      fill_color := chart_color i |}).

(** The headings and charts that the rounds of the loop of
    [create_excel_charts(wb, kpis, include_average)] build, in the order of
    the KPIs; [ws_max_row] is [ws_data.max_row]. Which sheets the workbook
    holds in the end is not modelled: a round removes the sheet that
    already bears its name, [create_dashboard] removes a sheet named
    ["Dashboard"], and the workbook has its own rules for titles. *)
Definition detail_charts (ws_max_row : Z) (include_average : bool) (kpis : list string)
  : list (string * bar_chart) :=
  let max_row := if include_average then ws_max_row else ws_max_row - 1 in
  imap (fun k kpi => detail_chart max_row (Z.of_nat k + 2) kpi) kpis.

(** *** The dashboard sheet *)

Definition chart_height : Z := 10.
Definition chart_width : Z := 15.
Definition charts_per_row : Z := 2.

Definition row_pos (i : Z) : Z := 4 + (i / charts_per_row) * (chart_height + 2).
Definition col_pos (i : Z) : Z := 1 + (i mod charts_per_row) * (chart_width + 1).

(** The search of the column of a KPI in the header row, from column
    [col] on. *)
Fixpoint find_kpi_col (header : list string) (kpi : string) (col : Z) : option Z :=
  match header with
  | [] => None
  | h :: rest => if decide (h = kpi) then Some col else find_kpi_col rest kpi (col + 1)
  end.

(** The small chart of the KPI at index [i] with its anchor (column and
    row), or nothing when no column bears the name of the KPI. [header]
    is the first row of the data sheet. *)
Definition mini_chart (header : list string) (ws_max_row : Z) (i : Z) (kpi : string)
  : option (Z * Z * bar_chart) :=
  let max_row := ws_max_row - 1 in
  match find_kpi_col header kpi 1 with
  | None => None
  | Some kpi_col =>
      Some (col_pos i, row_pos i,
            {| chart_title := kpi;
               x_axis_title := None;
               y_axis_title := None;
               height := chart_height;
               width := chart_width;
               categories := {| min_col := 1; min_row := 2; max_row := max_row |};
               chart_values := {| min_col := kpi_col; min_row := 2; max_row := max_row |};
               fill_color := chart_color i |})
  end.

Definition mini_charts (header : list string) (ws_max_row : Z) (kpis : list string)
  : list (option (Z * Z * bar_chart)) :=
  imap (fun i kpi => mini_chart header ws_max_row (Z.of_nat i) kpi) kpis.

(** The row of the "SUMMARY INSIGHTS" line, for [n] KPIs. *)
Definition summary_row (n : Z) : Z :=
  4 + ((n - 1) / charts_per_row + 1) * (chart_height + 2) + 2.

Definition link_row (n : Z) : Z := summary_row n + 2.

End Report.

(** ** The dashboard: loading, metrics, comparison and trend *)

Module View.
Import PyNum PyStr Json Matrix Collector Exporter Dashboard.

Definition kpi_data_file : string := "car_kpi_data.json".
Definition kpi_values_file : string := "car_kpi_values_2024.json".
Definition historical_data_file : string := "car_historical_data.json".

(** The body of the outer [try] of [load_data]; the inner [try] forgives
    a missing historical file, and nothing else. *)
Definition load_files (fs : gmap string file_content)
  : result (json * json * option json) :=
  kpi_data ← json_load fs kpi_data_file;
  values_data ← json_load fs kpi_values_file;
  historical_data ←
    try_except (Some <$> json_load fs historical_data_file)
               [FileNotFoundError] (Ok None);
  Ok (kpi_data, values_data, historical_data).

(** [load_data()]: what it returns, and the exception it reports with
    [st.error], if any. [except Exception] catches whatever the body
    raises. *)
Definition load_data (fs : gmap string file_content)
  : json * json * option json * option exn :=
  match load_files fs with
  | Ok r => (r, None)
  | Raise e => ((JObj [], JObj [], None), Some e)
  end.

(** The guard of [main]: [not kpi_data or not values_data] ends it. *)
Definition main_goes_on (fs : gmap string file_content) : bool :=
  let '(kpi_data, values_data, _, _) := load_data fs in
  negb (negb (truthy kpi_data) || negb (truthy values_data)).

(** Python's [a - b]. *)
Definition Fsub : float -> float -> float := SFsub prec emax.

Definition py_sub (a b : pyval) : result pyval :=
  match a, b with
  | PyNone, _ | _, PyNone => Raise TypeError
  | PyInt x, PyInt y => Ok (PyInt (x - y))
  | _, _ => x ← as_float a; y ← as_float b; Ok (PyFloat (Fsub x y))
  end.

(** The builtin [max] on a list: a later value replaces the greatest so
    far only when it is strictly greater. *)
Fixpoint max_from (best : pyval) (rest : list pyval) : result pyval :=
  match rest with
  | [] => Ok best
  | v :: rest' =>
      b ← py_gt v best;
      if b : bool then max_from v rest' else max_from best rest'
  end.

Definition py_max (l : list pyval) : result pyval :=
  match l with
  | [] => Raise ValueError
  | v :: rest => max_from v rest
  end.

(** [[(car, values_data[car][kpi]) for car in cars if kpi in values_data[car]]]:
    the rows of the comparison chart. *)
Fixpoint comparison_rows (values_data : gmap string (gmap string pyval))
    (cars : list string) (kpi : string) : result (list (string * pyval)) :=
  match cars with
  | [] => Ok []
  | car :: rest =>
      match values_data !! car with
      | None => Raise KeyError
      | Some row =>
          match row !! kpi with
          | None => comparison_rows values_data rest kpi
          | Some v => rows ← comparison_rows values_data rest kpi; Ok ((car, v) :: rows)
          end
      end
  end.

(** [[values_data[car][kpi] for car in cars if kpi in values_data[car]]]. *)
Definition present_cells (values_data : gmap string (gmap string pyval))
    (cars : list string) (kpi : string) : result (list pyval) :=
  rows ← comparison_rows values_data cars kpi; Ok (rows.*2).

(** The body of the loop of [create_performance_metrics] for one KPI:
    nothing when no car has the KPI, else the two numbers the metric
    shows with one decimal, the average and how far the best is above
    it. *)
Definition metric (values_data : gmap string (gmap string pyval))
    (cars : list string) (kpi : string) : result (option (pyval * pyval)) :=
  values ← present_cells values_data cars kpi;
  if decide (values = []) then Ok None
  else
    total ← py_sum values;
    avg_value ← py_truediv total (PyInt (Z.of_nat (length values)));
    best ← py_max values;
    delta ← py_sub best avg_value;
    Ok (Some (avg_value, delta)).

(** The traces of the trend chart: for each car of the list that the
    history has with the KPI, the years and the values of the car. *)
Fixpoint trend_traces (historical_data : json) (cars : list string) (selected_kpi : string)
  : result (list (string * json * json)) :=
  match cars with
  | [] => Ok []
  | car :: rest =>
      history ← getitem historical_data "cars";
      known ← contains car history;
      shown ←
        (if known : bool then
           row ← getitem history car;
           contains selected_kpi row
         else Ok false);
      if shown : bool then
        x ← getitem historical_data "years";
        history ← getitem historical_data "cars";
        row ← getitem history car;
        y ← getitem row selected_kpi;
        traces ← trend_traces historical_data rest selected_kpi;
        Ok ((car, x, y) :: traces)
      else trend_traces historical_data rest selected_kpi
  end.

(** [create_trend_analysis]: nothing without a history that has the
    years and the cars. *)
Definition create_trend_analysis (historical_data : option json) (cars : list string)
    (selected_kpi : string) : result (option (list (string * json * json))) :=
  match historical_data with
  | None => Ok None
  | Some h =>
      if negb (truthy h) then Ok None
      else
        has_years ← contains "years" h;
        if negb has_years then Ok None
        else
          has_cars ← contains "cars" h;
          if negb has_cars then Ok None
          else Some <$> trend_traces h cars selected_kpi
  end.

End View.

(** ** More sample data *)

Module Samples.
Import PyNum PyStr Json Matrix Collector Fill View Examples.

(** An endpoint that answers every prompt with the same text. *)
Definition reply_with (text : string) : json := cars_response [text].

Definition steady_api (text : string) : nat -> string -> option json :=
  fun _ _ => Some (reply_with text).

(** An endpoint that is down every other call. *)
Definition flaky_api : nat -> string -> option json :=
  fun n _ => if Nat.even n then Some (reply_with "About 35,000 dollars") else None.

(** The two files the dashboard needs, without the historical one. *)
Definition camry_values : json :=
  JObj [("Toyota Camry LE", JObj [("Horsepower", JInt 203)])].

Definition dashboard_files : gmap string file_content :=
  {[ kpi_data_file := Doc (JObj two_catalog); kpi_values_file := Doc camry_values ]}.

End Samples.


(** * Properties *)

Import PyNum PyStr Json Matrix Collector Exporter Dashboard Examples.

(** ** The definitions on sample inputs *)

Example strip_sample : strip "  14.5 mpg  " = "14.5 mpg".
Proof. reflexivity. Qed.

Example residue_sample : numeric_residue "$1,234.50 approx." = "1234.50.".
Proof. reflexivity. Qed.

Example split_lines_sample :
  split_lines (String.concat newline ["a"; ""; "b"]) = ["a"; ""; "b"].
Proof. reflexivity. Qed.

Example float_of_numeric_samples :
  float_of_numeric "14.5" = Ok (S754_finite false 8162774324609024 (-49)) /\
  float_of_numeric ".5" = Ok (S754_finite false 4503599627370496 (-53)) /\
  float_of_numeric "25." = Ok (S754_finite false 7036874417766400 (-48)) /\
  float_of_numeric "." = Raise ValueError /\
  float_of_numeric "1.2.3" = Raise ValueError.
Proof. repeat split; reflexivity. Qed.

(** [round(2.675, 2)] is [2.67] and [round(1.005, 2)] is [1.0]: the
    doubles are below the decimals they are written as. *)
Example float_round2_samples :
  float_round2 (div_round false 2675 1000) = div_round false 267 100 /\
  float_round2 (div_round false 1005 1000) = div_round false 1 1.
Proof. split; reflexivity. Qed.

Example statistics_mean_samples :
  statistics_mean [PyInt 1; PyInt 3] = Ok (PyInt 2) /\
  statistics_mean [PyInt 1; PyInt 2] = Ok (PyFloat (div_round false 3 2)) /\
  statistics_mean [PyInt 1; PyFloat (div_round false 5 2)]
  = Ok (PyFloat (div_round false 7 4)) /\
  statistics_mean [] = Raise StatisticsError /\
  statistics_mean [PyInt 1; PyNone] = Raise TypeError.
Proof. repeat split; reflexivity. Qed.

Example extract_value_samples :
  extract_value "1000" = Ok (PyInt 1000) /\
  extract_value "1000.5" = Ok (PyFloat (div_round false 10005 10000)) /\
  extract_value "About 35,000 dollars" = Ok (PyInt 35) /\
  extract_value "3.5 seconds." = Ok (PyInt 0).
Proof. repeat split; reflexivity. Qed.

Example cars_of_response_sample :
  cars_of_response (cars_response twenty_cars) = Ok twenty_cars.
Proof. reflexivity. Qed.

Example calculate_averages_sample :
  calculate_averages two_cars two_kpis gap_values
  = Ok {[ "Horsepower" := PyFloat (div_round false 597 2);
          "Range (miles)" := PyFloat (div_round false 341 2) ]}.
Proof. vm_compute. reflexivity. Qed.

(** ** Numbers *)

Lemma cond_Zopp_mul s a b : cond_Zopp s (a * b) = cond_Zopp s a * b.
Proof. destruct s; simpl; lia. Qed.

Lemma pos_pow_Z (p : positive) : Zpos (2 ^ p) = 2 ^ Zpos p.
Proof. apply Pos2Z.inj_pow. Qed.

(** [int(x)] of a float without fractional part denotes the same number. *)
Lemma int_of_float_exact (f : float) :
  float_is_integer f = true ->
  exists z, int_of_float f = Ok z /\ xeq (XFin (inject_Z z)) (float_exact f).
Proof.
  destruct f as [s | s | | s m e]; simpl; try discriminate.
  - intros _. exists 0. split; [reflexivity | simpl; reflexivity].
  - intros H. eexists. split; [reflexivity |]. simpl.
    destruct e as [| p | p]; simpl pow2Q.
    + rewrite Z.shiftl_0_r, Qmult_1_r. reflexivity.
    + rewrite Z.shiftl_mul_pow2 by lia.
      rewrite cond_Zopp_mul, inject_Z_mult. reflexivity.
    + simpl in H. apply Z.eqb_eq in H.
      change (Z.shiftl (Zpos m) (Zneg p)) with (Z.shiftr (Zpos m) (Zpos p)).
      rewrite Z.shiftr_div_pow2 by lia.
      change (- Z.neg p) with (Z.pos p) in H.
      unfold Qeq, Qmult, inject_Z; simpl Qnum; simpl Qden.
      rewrite Pos.mul_1_l, pos_pow_Z.
      assert (Hm : Zpos m = 2 ^ Zpos p * (Zpos m / 2 ^ Zpos p)).
      { apply Z.div_exact; [lia | exact H]. }
      destruct s; simpl cond_Zopp; lia.
Qed.

(** [x.is_integer()] says that the number is whole. *)
Lemma float_is_integer_whole (f : float) (q : Q) :
  float_exact f = XFin q -> (float_is_integer f = true <-> whole q).
Proof.
  intros Hq. split.
  - intros H. destruct (int_of_float_exact f H) as (z & _ & Hz).
    rewrite Hq in Hz. simpl in Hz. exists z. symmetry. exact Hz.
  - intros [z Hz]. destruct f as [s | s | | s m e]; simpl in *; try discriminate; auto.
    injection Hq as <-.
    destruct e as [| p | p]; simpl; auto.
    apply Z.eqb_eq.
    change (- Z.neg p) with (Z.pos p).
    unfold Qeq, Qmult, inject_Z, pow2Q in Hz; simpl Qnum in Hz; simpl Qden in Hz.
    rewrite Pos.mul_1_l, pos_pow_Z in Hz.
    assert (Hm : Zpos m = cond_Zopp s z * 2 ^ Zpos p).
    { destruct s; simpl cond_Zopp in *; lia. }
    rewrite Hm. apply Z.mod_mul. lia.
Qed.

(** ** Strings *)

Lemma space_not_numeric (c : ascii) :
  is_space c = true -> is_digit c || is_dot c = false.
Proof.
  destruct c as [[] [] [] [] [] [] [] []]; vm_compute; congruence.
Qed.

Lemma filter_chars_lstrip p s :
  (forall c, is_space c = true -> p c = false) ->
  filter_chars p (lstrip s) = filter_chars p s.
Proof.
  intros Hp. induction s as [| c r IH]; simpl; [reflexivity |].
  destruct (is_space c) eqn:Hc; [| reflexivity].
  rewrite (Hp c Hc). exact IH.
Qed.

Lemma filter_chars_rstrip p s :
  (forall c, is_space c = true -> p c = false) ->
  filter_chars p (rstrip s) = filter_chars p s.
Proof.
  intros Hp. induction s as [| c r IH]; simpl; [reflexivity |].
  destruct (rstrip r) as [| c' r'] eqn:Hr.
  - simpl in IH. destruct (is_space c) eqn:Hc.
    + rewrite (Hp c Hc). exact IH.
    + simpl. rewrite <- IH. reflexivity.
  - simpl filter_chars at 1. rewrite <- IH. reflexivity.
Qed.

(** Stripping white space does not change what [re.sub] leaves. *)
Lemma numeric_residue_strip (s : string) :
  numeric_residue (strip s) = numeric_residue s.
Proof.
  unfold numeric_residue, strip.
  rewrite filter_chars_rstrip, filter_chars_lstrip; auto using space_not_numeric.
Qed.

Lemma filter_chars_none p s :
  Forall (fun c => p c = false) (list_ascii_of_string s) -> filter_chars p s = "".
Proof.
  induction s as [| c r IH]; simpl; [reflexivity |].
  intros H. inversion H as [| ? ? Hc Hr]; subst. rewrite Hc. auto.
Qed.

(** A second decimal point is not accepted. *)
Lemma scan_decimal_dots (s : string) seen mant frac ndig :
((if seen : bool then 1 else 2) <= count_dots s)%nat ->
  scan_decimal (numeric_residue s) seen mant frac ndig = None.
Proof.
  unfold count_dots, numeric_residue.
  revert seen mant frac ndig.
  induction s as [| c r IH]; intros seen mant frac ndig; simpl.
  - destruct seen; lia.
  - destruct (is_digit c) eqn:Hd; simpl.
    + assert (is_dot c = false) as ->.
      { revert Hd. destruct c as [[] [] [] [] [] [] [] []]; vm_compute; congruence. }
      rewrite Hd. intros H. apply IH. exact H.
    + destruct (is_dot c) eqn:Hdot; simpl.
      * rewrite Hd, Hdot. destruct seen; [reflexivity |].
        intros H. apply IH. lia.
      * intros H. apply IH. exact H.
Qed.

(** ** [extract_value] *)

Lemma py_gt_float_int (v : float) (z : Z) :
  py_gt (PyFloat v) (PyInt z) = Ok (xgt (float_exact v) (XFin (inject_Z z))).
Proof. reflexivity. Qed.

Lemma float_div_int_1000 (v : float) :
  float_div_int v 1000 = Ok (Fdiv v float_1000).
Proof. reflexivity. Qed.

(** Dividing a float by an int is Python's [/] on the two. *)
Lemma py_truediv_float_int (v : float) (z : Z) :
  py_truediv (PyFloat v) (PyInt z) = PyFloat <$> float_div_int v z.
Proof.
  unfold py_truediv, float_div_int, as_float. cbn [mbind result_bind].
  destruct (float_of_int z); reflexivity.
Qed.

Lemma float_of_numeric_empty : float_of_numeric "" = Raise ValueError.
Proof. reflexivity. Qed.

(** What [extract_value] returns once the residue has parsed to [v]: [v],
    or [v / 1000] when [v > 1000], as an int when that has no fractional
    part. *)
Lemma extract_value_parsed (content : string) (v : float) :
  float_of_numeric (numeric_residue content) = Ok v ->
  let w := if xgt (float_exact v) (XFin (inject_Z 1000)) then Fdiv v float_1000 else v in
  exists r, extract_value content = Ok r /\
    (float_is_integer w = true ->
       exists z, r = PyInt z /\ xeq (XFin (inject_Z z)) (float_exact w)) /\
    (float_is_integer w = false -> r = PyFloat w).
Proof.
  intros Hv w. unfold extract_value.
  rewrite numeric_residue_strip.
  destruct (decide (numeric_residue content = "")) as [He | _].
  { rewrite He, float_of_numeric_empty in Hv. discriminate. }
  rewrite Hv. cbn [mbind result_bind].
  rewrite py_gt_float_int. cbn [mbind result_bind].
  assert (Hw : (if xgt (float_exact v) (XFin (inject_Z 1000))
                then float_div_int v 1000 else Ok v) = Ok w).
  { unfold w. destruct (xgt _ _); [apply float_div_int_1000 | reflexivity]. }
  rewrite Hw. cbn [mbind result_bind].
  destruct (float_is_integer w) eqn:Hi.
  - destruct (int_of_float_exact w Hi) as (z & Hz & Hx).
    rewrite Hz. cbn. exists (PyInt z). split; [reflexivity |].
    split; [| discriminate]. intros _. exists z. auto.
  - cbn. exists (PyFloat w). split; [reflexivity |].
    split; [discriminate | reflexivity].
Qed.

(** [extract_value] returns on every content, and never [None]. *)
Lemma extract_value_total (content : string) :
  exists r, extract_value content = Ok r /\ r <> PyNone.
Proof.
  destruct (float_of_numeric (numeric_residue content)) as [v | e] eqn:Hv.
  - destruct (extract_value_parsed content v Hv) as (r & Hr & Hint & Hfl).
    exists r. split; [exact Hr |].
    destruct (float_is_integer _) in Hint, Hfl.
    + destruct (Hint eq_refl) as (z & -> & _). discriminate.
    + rewrite (Hfl eq_refl). discriminate.
  - exists (PyInt 0). split; [| discriminate].
    unfold extract_value. rewrite numeric_residue_strip.
    destruct (decide (numeric_residue content = "")); [reflexivity |].
    rewrite Hv. unfold float_of_numeric in Hv.
    destruct (scan_decimal _ _ _ _ _) as [[mant frac] |]; [discriminate |].
    injection Hv as <-. reflexivity.
Qed.

Lemma xle_not_xgt (a b : xreal) : xle a b = true -> xgt a b = false.
Proof. unfold xle, xgt. destruct (xcompare a b) as [[] |]; congruence. Qed.

(** C1. Content whose residue parses to a number of value at most 1000
    gives that number back: an int of the same value when the number is
    whole, the float itself otherwise. Content ["14.5 mpg"] gives [14.5],
    the double of value 29/2. *)
Theorem extract_value_at_most_1000 :
  (forall (content : string) (v : float) (q : Q),
     float_of_numeric (numeric_residue content) = Ok v ->
     xeq (float_exact v) (XFin q) ->
     xle (XFin q) (XFin (inject_Z 1000)) = true ->
     exists r, extract_value content = Ok r /\
       (whole q -> exists z, r = PyInt z /\ (inject_Z z == q)%Q) /\
       (~ whole q -> r = PyFloat v)) /\
  extract_value "14.5 mpg" = Ok (PyFloat (S754_finite false 8162774324609024 (-49))) /\
  xeq (float_exact (S754_finite false 8162774324609024 (-49))) (XFin (29 # 2)).
Proof.
  split; [| split; [reflexivity | reflexivity]].
  intros content v q Hv Hq Hle.
  destruct (extract_value_parsed content v Hv) as (r & Hr & Hint & Hfl).
  destruct (float_exact v) as [| | q0] eqn:Hq0; simpl in Hq; try contradiction.
  assert (Hgt : xgt (XFin q0) (XFin (inject_Z 1000)) = false).
  { apply xle_not_xgt. unfold xle, xcompare in *. rewrite Hq. exact Hle. }
  rewrite Hgt in Hint, Hfl.
  assert (Hwhole : float_is_integer v = true <-> whole q).
  { rewrite (float_is_integer_whole v q0 Hq0). unfold whole.
    split; intros [z Hz]; exists z; rewrite <- Hz; [symmetry |]; exact Hq. }
  exists r. split; [exact Hr |]. split.
  - intros Hw. apply Hwhole in Hw.
    destruct (Hint Hw) as (z & -> & Hz). exists z. split; [reflexivity |].
    rewrite Hq0 in Hz. simpl in Hz. rewrite Hz. exact Hq.
  - intros Hw. apply Hfl.
    destruct (float_is_integer v) eqn:Hi; [| reflexivity].
    exfalso. apply Hw. apply Hwhole. reflexivity.
Qed.

Lemma extract_value_at_most_1000_witness :
  exists r, extract_value "0.5 L" = Ok r /\
    (whole (1 # 2) -> exists z, r = PyInt z /\ (inject_Z z == 1 # 2)%Q) /\
    (~ whole (1 # 2) -> r = PyFloat (S754_finite false 4503599627370496 (-53))).
Proof.
  apply (proj1 extract_value_at_most_1000 "0.5 L"
           (S754_finite false 4503599627370496 (-53)) (1 # 2));
    reflexivity.
Defined.

(** C2. Content whose residue parses to a number above 1000 gives that
    number divided by 1000 (the float division by [float(1000)]): an int of
    the same value when the quotient has no fractional part, the quotient
    itself otherwise. Content ["25000"] gives the int [25]. *)
Theorem extract_value_above_1000 :
  (forall (content : string) (v : float),
     float_of_numeric (numeric_residue content) = Ok v ->
     xgt (float_exact v) (XFin (inject_Z 1000)) = true ->
     exists r, extract_value content = Ok r /\
       (float_is_integer (Fdiv v float_1000) = true ->
          exists z, r = PyInt z /\
            xeq (XFin (inject_Z z)) (float_exact (Fdiv v float_1000))) /\
       (float_is_integer (Fdiv v float_1000) = false ->
          r = PyFloat (Fdiv v float_1000))) /\
  extract_value "25000" = Ok (PyInt 25).
Proof.
  split; [| reflexivity].
  intros content v Hv Hgt.
  destruct (extract_value_parsed content v Hv) as (r & Hr & Hint & Hfl).
  rewrite Hgt in Hint, Hfl. exists r. auto.
Qed.

Lemma extract_value_above_1000_witness :
  exists r, extract_value "$1500.5" = Ok r /\
    (float_is_integer (Fdiv (S754_finite false 6599268789911552 (-42)) float_1000) = true ->
       exists z, r = PyInt z /\
         xeq (XFin (inject_Z z))
             (float_exact (Fdiv (S754_finite false 6599268789911552 (-42)) float_1000))) /\
    (float_is_integer (Fdiv (S754_finite false 6599268789911552 (-42)) float_1000) = false ->
       r = PyFloat (Fdiv (S754_finite false 6599268789911552 (-42)) float_1000)).
Proof.
  apply (proj1 extract_value_above_1000 "$1500.5"
           (S754_finite false 6599268789911552 (-42)));
    reflexivity.
Defined.

(** C3. Content without any digit or decimal point gives 0, and so does
    content whose residue [float] rejects, as when it holds two decimal
    points or more. Content ["N/A"] gives 0. *)
Theorem extract_value_not_a_number :
  (forall content : string,
     Forall (fun c => is_digit c = false /\ is_dot c = false)
            (list_ascii_of_string content) ->
     extract_value content = Ok (PyInt 0)) /\
  (forall content : string,
     float_of_numeric (numeric_residue content) = Raise ValueError ->
     extract_value content = Ok (PyInt 0)) /\
  (forall content : string,
     (2 <= count_dots content)%nat ->
     float_of_numeric (numeric_residue content) = Raise ValueError) /\
  extract_value "N/A" = Ok (PyInt 0).
Proof.
  split; [| split; [| split; [| reflexivity]]].
  - intros content H. unfold extract_value.
    rewrite numeric_residue_strip.
    assert (He : numeric_residue content = "").
    { apply filter_chars_none.
      eapply Forall_impl; [exact H |]. intros c [-> ->]. reflexivity. }
    rewrite He. reflexivity.
  - intros content H. unfold extract_value.
    rewrite numeric_residue_strip.
    destruct (decide (numeric_residue content = "")); [reflexivity |].
    rewrite H. reflexivity.
  - intros content H. unfold float_of_numeric.
    rewrite scan_decimal_dots; [reflexivity | exact H].
Qed.

Lemma extract_value_not_a_number_witness :
  extract_value "n.a." = Ok (PyInt 0) /\ extract_value "--" = Ok (PyInt 0).
Proof.
  split.
  - apply (proj1 (proj2 extract_value_not_a_number) "n.a.").
    apply (proj1 (proj2 (proj2 extract_value_not_a_number)) "n.a."). vm_compute. lia.
  - apply (proj1 extract_value_not_a_number "--"). repeat constructor.
Defined.

(** ** Step 3 of the collector *)

Lemma is_Ok_inv {A} (m : result A) : is_Ok m -> exists a, m = Ok a.
Proof. destruct m; simpl; [eauto | contradiction]. Qed.

Lemma mapR_Ok_Forall2 {A B} (f : A -> result B) l ys :
  mapR f l = Ok ys <-> Forall2 (fun x y => f x = Ok y) l ys.
Proof.
  revert ys. induction l as [| x l IH]; intros ys; simpl.
  - split; [intros [= <-]; constructor | intros H; inversion H; reflexivity].
  - destruct (f x) as [y | e] eqn:Hx; simpl.
    + destruct (mapR f l) as [ys' | e] eqn:Hl; simpl.
      * split.
        -- intros [= <-]. constructor; [exact Hx | apply IH; reflexivity].
        -- intros H. inversion H as [| ? y0 ? ys0 Hy Hys]; subst.
           apply IH in Hys. congruence.
      * split; [discriminate |].
        intros H. inversion H as [| ? y0 ? ys0 Hy Hys]; subst.
        apply IH in Hys. discriminate.
    + split; [discriminate |].
      intros H. inversion H as [| ? y0 ? ys0 Hy Hys]; subst. congruence.
Qed.

(** The comprehension of step 3 keeps the cells that are not [None]. *)
Lemma present_values_filter d kpi car_list vs :
  mapR (fun car => cell d car kpi) car_list = Ok vs ->
  present_values d kpi car_list = Ok (filter (fun v => v <> PyNone) vs).
Proof.
  revert vs. induction car_list as [| car rest IH]; intros vs; simpl.
  - intros [= <-]. reflexivity.
  - destruct (cell d car kpi) as [v | e]; simpl; [| discriminate].
    destruct (mapR _ rest) as [vs' | e]; simpl; [| discriminate].
    intros [= <-]. rewrite (IH vs' eq_refl).
    rewrite filter_cons. destruct (decide (v = PyNone)) as [-> | Hv].
    + destruct (decide (PyNone <> PyNone)); [congruence | reflexivity].
    + destruct (decide (v <> PyNone)); [reflexivity | contradiction].
Qed.

Lemma cell_agree d1 d2 car kpi :
  d1 !! car = d2 !! car -> cell d1 car kpi = cell d2 car kpi.
Proof. unfold cell. intros ->. reflexivity. Qed.

Lemma present_values_agree d1 d2 kpi car_list :
  (forall car, car ∈ car_list -> d1 !! car = d2 !! car) ->
  present_values d1 kpi car_list = present_values d2 kpi car_list.
Proof.
  induction car_list as [| car rest IH]; intros H; simpl; [reflexivity |].
  rewrite (cell_agree d1 d2 car kpi) by (apply H; left).
  rewrite IH by (intros c Hc; apply H; right; exact Hc). reflexivity.
Qed.

Lemma average_value_agree d1 d2 kpi car_list :
  (forall car, car ∈ car_list -> d1 !! car = d2 !! car) ->
  average_value car_list d1 kpi = average_value car_list d2 kpi.
Proof.
  intros H. unfold average_value. rewrite (present_values_agree d1 d2); auto.
Qed.

(** The loop of step 3 only touches the ["Average"] row, where it leaves
    the average of every KPI it went through. *)
Lemma average_loop_spec car_list kpi_list :
  "Average" ∉ car_list ->
  forall (d d0 : gmap string (gmap string pyval)) (row : gmap string pyval),
    (forall car, car ∈ car_list -> d0 !! car = d !! car) ->
    d0 !! "Average" = Some row ->
    Forall (fun kpi => is_Ok (average_value car_list d kpi)) kpi_list ->
    exists row',
      average_loop car_list kpi_list d0 = Ok (<["Average" := row']> d0) /\
      forall kpi,
        (kpi ∈ kpi_list ->
           exists avg, average_value car_list d kpi = Ok avg /\ row' !! kpi = Some avg) /\
        (kpi ∉ kpi_list -> row' !! kpi = row !! kpi).
Proof.
  intros Hav. induction kpi_list as [| k rest IH]; intros d d0 row Hag Hrow Hok.
  - exists row. split.
    + rewrite (insert_id d0 "Average" row Hrow). reflexivity.
    + intros kpi. split; [intros H; inversion H | reflexivity].
  - inversion Hok as [| ? ? Hk Hrest]; subst.
    apply is_Ok_inv in Hk as [avg Havg].
    simpl. unfold average_kpi.
    rewrite (average_value_agree d0 d) by exact Hag.
    rewrite Havg. cbn [mbind result_bind]. rewrite Hrow. cbn [mbind result_bind].
    destruct (IH d (<["Average" := <[k := avg]> row]> d0) (<[k := avg]> row))
      as (row' & Hloop & Hrow'); [| apply lookup_insert_eq | exact Hrest |].
    { intros car Hc. rewrite lookup_insert_ne; [auto |].
      intros Heq. subst car. contradiction. }
    exists row'. split.
    + rewrite Hloop, insert_insert_eq. reflexivity.
    + intros kpi. split.
      * intros Hin. destruct (decide (kpi ∈ rest)) as [Hr | Hr].
        -- apply Hrow'. exact Hr.
        -- apply elem_of_cons in Hin as [-> | Hin]; [| contradiction].
           exists avg. split; [exact Havg |].
           rewrite (proj2 (Hrow' k) Hr). apply lookup_insert_eq.
      * intros Hnin. apply not_elem_of_cons in Hnin as [Hne Hnr].
        rewrite (proj2 (Hrow' kpi) Hnr). apply lookup_insert_ne. congruence.
Qed.

Lemma int_truediv_pos (a : Z) (d : positive) :
  int_truediv a (Zpos d) =
  if is_finite (Q_round false (a # d)) then Ok (Q_round false (a # d))
  else Raise OverflowError.
Proof. destruct a; reflexivity. Qed.

Lemma float_of_Q_Qred (q : Q) (f : float) :
  float_of_Q (Qred q) = Ok f -> f = Q_round false (Qred q).
Proof.
  unfold float_of_Q.
  replace (Qred (Qred q)) with (Qred q) by (symmetry; apply Qred_complete, Qred_correct).
  destruct (Qred q) as [a d]. simpl Qnum; simpl Qden.
  rewrite int_truediv_pos. destruct (is_finite _); congruence.
Qed.

Lemma forallb_xfinite qs : forallb xfinite (XFin <$> qs) = true.
Proof. induction qs; simpl; auto. Qed.

Lemma xfin_part_XFin qs : xfin_part (XFin <$> qs) = qs.
Proof.
  unfold xfin_part. induction qs as [| q qs IH]; [reflexivity |].
  cbn. f_equal. exact IH.
Qed.

(** On numbers of exact values [qs], what [statistics.mean] returns holds
    their arithmetic mean. *)
Lemma statistics_mean_is_mean (data : list pyval) (qs : list Q) (avg : pyval) :
  mapR exact data = Ok (XFin <$> qs) ->
  statistics_mean data = Ok avg ->
  is_mean_of avg qs.
Proof.
  intros Hx. unfold statistics_mean. rewrite Hx. cbn [mbind result_bind].
  destruct data as [| v data']; [discriminate |].
  rewrite forallb_xfinite, xfin_part_XFin.
  set (m := Qred (Qmean qs)).
  assert (Hfl : forall f, float_of_Q m = Ok f -> is_mean_of (PyFloat f) qs).
  { intros f Hf. apply float_of_Q_Qred in Hf. exact Hf. }
  assert (Hcase : forall r, PyFloat <$> float_of_Q m = Ok r -> is_mean_of r qs).
  { intros r. destruct (float_of_Q m) as [f | e] eqn:Hf; cbn; [| discriminate].
    intros [= <-]. apply Hfl. reflexivity. }
  destruct (existsb is_float (v :: data')); [apply Hcase |].
  destruct (Zpos (Qden m) =? 1) eqn:Hden; [| apply Hcase].
  intros [= <-]. simpl. apply Z.eqb_eq in Hden.
  rewrite <- (Qred_correct (Qmean qs)). fold m.
  destruct m as [a d]. simpl in *. injection Hden as ->. reflexivity.
Qed.

Lemma present_values_cells d kpi car_list p :
  present_values d kpi car_list = Ok p ->
  exists vs, mapR (fun car => cell d car kpi) car_list = Ok vs.
Proof.
  revert p. induction car_list as [| car rest IH]; intros p; simpl; [eauto |].
  destruct (cell d car kpi) as [v | e]; cbn [mbind result_bind]; [| discriminate].
  destruct (present_values d kpi rest) as [p' | e] eqn:Hp.
  - destruct (IH p' eq_refl) as [vs ->]. eauto.
  - destruct (decide (v = PyNone)); discriminate.
Qed.

Lemma cell_Ok_lookup d car kpi v :
  cell d car kpi = Ok v <-> (row ← d !! car; row !! kpi) = Some v.
Proof.
  unfold cell. destruct (d !! car) as [row |]; simpl; [| split; discriminate].
  destruct (row !! kpi); split; congruence.
Qed.

(** On a filled matrix the cells of a KPI are its column. *)
Lemma cells_column d kpi car_list :
  Forall (fun car => is_Ok (cell d car kpi)) car_list ->
  mapR (fun car => cell d car kpi) car_list = Ok (column d kpi car_list).
Proof.
  unfold column. induction 1 as [| car rest Hc _ IH]; [reflexivity |].
  apply is_Ok_inv in Hc as [v Hv]. cbn [mapR omap list_omap].
  rewrite Hv, IH. apply cell_Ok_lookup in Hv. rewrite Hv. reflexivity.
Qed.

Lemma filter_all_present (vs : list pyval) :
  Forall (fun v => v <> PyNone) vs -> present vs = vs.
Proof.
  unfold present. induction 1 as [| v l Hv Hl IH]; [reflexivity |].
  rewrite filter_cons. destruct (decide (v <> PyNone)); [| contradiction].
  rewrite IH. reflexivity.
Qed.

(** C4. On a matrix filled for every car and KPI of the lists (no car
    bearing the reserved name ["Average"]), step 3 goes through whenever
    the mean of the present values of each KPI is defined, leaves the rows
    of the cars as they were, and stores under ["Average"] one value per
    KPI: when the N values of the KPI are all present, their arithmetic
    mean (an int of that value or the double nearest to it), and 0 when no
    value is present. *)
Theorem step3_average (car_list kpi_list : list string)
    (d : gmap string (gmap string pyval)) :
  "Average" ∉ car_list ->
  Forall (fun car => Forall (fun kpi => is_Ok (cell d car kpi)) kpi_list) car_list ->
  Forall (fun kpi => present (column d kpi car_list) = [] \/
                     is_Ok (statistics_mean (present (column d kpi car_list))))
         kpi_list ->
  exists d', step3 car_list kpi_list d = Ok d' /\
    (forall car, car <> "Average" -> d' !! car = d !! car) /\
    forall kpi, kpi ∈ kpi_list ->
      length (column d kpi car_list) = length car_list /\
      exists avg,
        cell d' "Average" kpi = Ok avg /\
        (car_list <> [] -> Forall (fun v => v <> PyNone) (column d kpi car_list) ->
           statistics_mean (column d kpi car_list) = Ok avg /\
           forall qs, mapR exact (column d kpi car_list) = Ok (XFin <$> qs) ->
             length qs = length car_list /\ is_mean_of avg qs) /\
        (present (column d kpi car_list) = [] -> avg = PyInt 0).
Proof.
  intros Hav Hfilled Hmean. unfold step3.
  assert (Hcells : forall kpi, kpi ∈ kpi_list ->
            mapR (fun car => cell d car kpi) car_list = Ok (column d kpi car_list)).
  { intros kpi Hk. apply cells_column.
    eapply Forall_impl; [exact Hfilled |]. intros car Hc. cbv beta in Hc.
    rewrite Forall_forall in Hc. apply Hc, Hk. }
  assert (Hvalue : forall kpi, kpi ∈ kpi_list ->
            average_value car_list d kpi =
            if decide (present (column d kpi car_list) = []) then Ok (PyInt 0)
            else statistics_mean (present (column d kpi car_list))).
  { intros kpi Hk. unfold average_value.
    rewrite (present_values_filter _ _ _ _ (Hcells kpi Hk)). reflexivity. }
  assert (Hok : Forall (fun kpi => is_Ok (average_value car_list d kpi)) kpi_list).
  { apply Forall_forall. intros kpi Hk. rewrite (Hvalue kpi Hk).
    rewrite Forall_forall in Hmean.
    destruct (decide (present (column d kpi car_list) = [])); [exact I |].
    destruct (Hmean kpi Hk); [contradiction | assumption]. }
  destruct (average_loop_spec car_list kpi_list Hav d (<["Average" := ∅]> d) ∅)
    as (row' & Hloop & Hrow'); [| apply lookup_insert_eq | exact Hok |].
  { intros car Hc. apply lookup_insert_ne. intros Heq. subst car. contradiction. }
  eexists. split; [exact Hloop |]. split.
  { intros car Hc. rewrite !lookup_insert_ne by congruence. reflexivity. }
  intros kpi Hk. destruct (proj1 (Hrow' kpi) Hk) as (avg & Havg & Hlook).
  rewrite (Hvalue kpi Hk) in Havg.
  assert (Hlen : length (column d kpi car_list) = length car_list).
  { pose proof (Hcells kpi Hk) as Hc. apply mapR_Ok_Forall2 in Hc.
    symmetry. eapply Forall2_length. exact Hc. }
  split; [exact Hlen |]. exists avg. split.
  { unfold cell. rewrite lookup_insert_eq, Hlook. reflexivity. }
  split.
  - intros Hne Hall. rewrite (filter_all_present _ Hall) in Havg.
    destruct (decide (column d kpi car_list = [])) as [Hnil | _].
    { rewrite Hnil in Hlen. destruct car_list; [contradiction | discriminate]. }
    split; [exact Havg |].
    intros qs Hqs. split.
    + apply mapR_Ok_Forall2 in Hqs. apply Forall2_length in Hqs.
      rewrite length_fmap in Hqs. congruence.
    + eapply statistics_mean_is_mean; eauto.
  - intros Hnone. rewrite Hnone in Havg.
    destruct (decide ([] = [])); [congruence | contradiction].
Qed.

Lemma step3_average_witness :
  exists d', step3 two_cars two_kpis example_matrix = Ok d' /\
    (forall car, car <> "Average" -> d' !! car = example_matrix !! car) /\
    forall kpi, kpi ∈ two_kpis ->
      length (column example_matrix kpi two_cars) = length two_cars /\
      exists avg,
        cell d' "Average" kpi = Ok avg /\
        (two_cars <> [] ->
         Forall (fun v => v <> PyNone) (column example_matrix kpi two_cars) ->
           statistics_mean (column example_matrix kpi two_cars) = Ok avg /\
           forall qs, mapR exact (column example_matrix kpi two_cars) = Ok (XFin <$> qs) ->
             length qs = length two_cars /\ is_mean_of avg qs) /\
        (present (column example_matrix kpi two_cars) = [] -> avg = PyInt 0).
Proof.
  apply (step3_average two_cars two_kpis example_matrix).
  - apply (bool_decide_unpack _). vm_compute. exact I.
  - repeat constructor.
  - constructor; [right; exact I |].
    constructor; [left; reflexivity | constructor].
Defined.

(** ** The exporter's averages *)



Lemma cell_or_zero_row values kpi car row :
  values !! car = Some row ->
  cell_or_zero values kpi car = Ok (default (PyInt 0) (row !! kpi)).
Proof. unfold cell_or_zero. intros ->. reflexivity. Qed.

(** The loop of [calculate_averages]: it goes through exactly when the
    average of every KPI does, and leaves each average under its KPI. *)
Lemma averages_loop_spec cars kpis values (avg_of : string -> result pyval) :
  (forall kpi, (vs ← kpi_values values kpi cars; average_of vs) = avg_of kpi) ->
  forall acc,
    (Forall (fun kpi => is_Ok (avg_of kpi)) kpis ->
     exists averages,
       averages_loop cars kpis values acc = Ok averages /\
       forall kpi,
         (kpi ∈ kpis -> exists r, avg_of kpi = Ok r /\ averages !! kpi = Some r) /\
         (kpi ∉ kpis -> averages !! kpi = acc !! kpi)) /\
    (is_Ok (averages_loop cars kpis values acc) ->
     Forall (fun kpi => is_Ok (avg_of kpi)) kpis).
Proof.
  intros Havg. induction kpis as [| k rest IH]; intros acc.
  - split; [| constructor]. intros _. exists acc. split; [reflexivity |].
    intros kpi. split; [intros H; inversion H | reflexivity].
  - assert (Hstep : averages_loop cars (k :: rest) values acc =
                    r ← avg_of k; averages_loop cars rest values (<[k := r]> acc)).
    { simpl. rewrite <- Havg.
      destruct (kpi_values values k cars); reflexivity. }
    rewrite Hstep. split.
    + intros Hok. inversion Hok as [| ? ? Hk Hrest]; subst.
      destruct (avg_of k) as [r | e] eqn:Hr; [| contradiction].
      cbn [mbind result_bind].
      destruct (proj1 (IH (<[k := r]> acc)) Hrest) as (averages & Hloop & Hav).
      exists averages. split; [exact Hloop |].
      intros kpi. split.
      * intros Hin. destruct (decide (kpi ∈ rest)) as [Hr' | Hr'].
        -- apply Hav. exact Hr'.
        -- apply elem_of_cons in Hin as [-> | Hin]; [| contradiction].
           exists r. split; [exact Hr |].
           rewrite (proj2 (Hav k) Hr'). apply lookup_insert_eq.
      * intros Hnin. apply not_elem_of_cons in Hnin as [Hne Hnr].
        rewrite (proj2 (Hav kpi) Hnr). apply lookup_insert_ne. congruence.
    + destruct (avg_of k) as [r | e] eqn:Hr; cbn [mbind result_bind]; [| contradiction].
      intros Hok. constructor; [rewrite Hr; exact I |].
      apply (proj2 (IH (<[k := r]> acc))). exact Hok.
Qed.

Lemma kpi_values_length values kpi cars vs :
  kpi_values values kpi cars = Ok vs -> length vs = length cars.
Proof.
  unfold kpi_values. intros H. apply mapR_Ok_Forall2 in H.
  symmetry. eapply Forall2_length, H.
Qed.

(** What [calculate_averages] returns has every KPI of the list, and the
    values of each KPI were read to get there. *)
Lemma calculate_averages_keys cars kpis values averages :
  calculate_averages cars kpis values = Ok averages ->
  forall kpi, kpi ∈ kpis ->
    exists vs avg,
      kpi_values values kpi cars = Ok vs /\ average_of vs = Ok avg /\
      averages !! kpi = Some avg.
Proof.
  intros Hres kpi Hk.
  pose proof (averages_loop_spec cars kpis values
                (fun kpi => vs ← kpi_values values kpi cars; average_of vs)
                (fun _ => eq_refl) ∅) as [Htot Hinv].
  unfold calculate_averages in Hres.
  destruct (Htot (Hinv ltac:(rewrite Hres; exact I))) as (averages' & Hloop & Hav).
  rewrite Hres in Hloop. injection Hloop as <-.
  destruct (proj1 (Hav kpi) Hk) as (avg & Havg & Hlook).
  destruct (kpi_values values kpi cars) as [vs |]; [| discriminate].
  exists vs, avg. auto.
Qed.

(** *** The arithmetic of one average *)


(** The relation names one number: the rounding is determined. *)
Lemma nearest_even_unique (q : Q) (k1 k2 : Z) :
  nearest_even q k1 -> nearest_even q k2 -> k1 = k2.
Proof.
  destruct q as [n d]. unfold nearest_even.
  assert (Habs : forall k : Z,
            Qabs (inject_Z k - (n # d))%Q = Qmake (Z.abs (k * Zpos d - n)) d).
  { intros k. unfold Qminus, Qplus, Qopp, inject_Z, Qabs. cbn [Qnum Qden].
    f_equal. lia. }
  rewrite !Habs. unfold Qlt, Qeq. cbn [Qnum Qden].
  assert (Hstep : forall a b : Z, a < b -> a * Zpos d + Zpos d <= b * Zpos d) by nia.
  assert (Hadj : forall a b : Z, a < b ->
            Z.abs (a * Zpos d - n) * 2 = 1 * Zpos d -> Z.even a = true ->
            Z.abs (b * Zpos d - n) * 2 = 1 * Zpos d -> Z.even b = true -> False).
  { intros a b Hab Ha Hea Hb Heb. specialize (Hstep a b Hab).
    assert (b = a + 1) by nia. subst b.
    rewrite Z.even_add, Hea in Heb. discriminate. }
  intros H1 H2.
  destruct (Z.lt_trichotomy k1 k2) as [Hlt | [Heq | Hgt]]; [| exact Heq |]; exfalso.
  - specialize (Hstep k1 k2 Hlt).
    destruct H1 as [H1 | [H1 He1]], H2 as [H2 | [H2 He2]]; try lia.
    eapply (Hadj k1 k2); eassumption.
  - specialize (Hstep k2 k1 Hgt).
    destruct H1 as [H1 | [H1 He1]], H2 as [H2 | [H2 He2]]; try lia.
    eapply (Hadj k2 k1); eassumption.
Qed.










(** ** The exporter's validation *)

Lemma check_kpis_strings row car kpis :
  check_kpis row (JStr car) (JStr <$> kpis) = Ok (warnings_for row car kpis).
Proof.
  unfold warnings_for. induction kpis as [| kpi rest IH]; [reflexivity |].
  rewrite fmap_cons. cbn [check_kpis key_lookup mbind result_bind].
  rewrite IH. cbn [mbind result_bind]. rewrite filter_cons.
  destruct (row !! kpi) as [v |] eqn:Hk.
  - destruct (decide (Some v = None)); [discriminate | reflexivity].
  - destruct (decide (None = None)); [reflexivity | contradiction].
Qed.

(** With a row for every car the loop ends well, with nothing but the
    warnings of the rows. *)
Lemma check_cars_present values kpis cars rows :
  Forall2 (fun car row => values !! car = Some row) cars rows ->
  check_cars values (JStr <$> kpis) (JStr <$> cars)
  = Ok (concat (zip_with (fun car row => warnings_for row car kpis) cars rows), true).
Proof.
  induction 1 as [| car row cars rows Hrow _ IH]; [reflexivity |].
  rewrite fmap_cons. cbn [check_cars key_lookup mbind result_bind].
  rewrite Hrow, check_kpis_strings, IH. reflexivity.
Qed.

(** A car without a row ends the loop with an error. *)
Lemma check_cars_missing values kpis cars car :
  car ∈ cars -> values !! car = None ->
  exists records car',
    check_cars values (JStr <$> kpis) (JStr <$> cars)
    = Ok (records ++ [(ERROR, MissingDataForCar (JStr car'))], false) /\
    car' ∈ cars /\ values !! car' = None /\
    Forall (fun r => r.1 = WARNING) records.
Proof.
  intros Hin Hnone. induction cars as [| c rest IH]; [inversion Hin |].
  rewrite fmap_cons. cbn [check_cars key_lookup mbind result_bind].
  destruct (values !! c) as [row |] eqn:Hc.
  - apply elem_of_cons in Hin as [-> | Hin]; [congruence |].
    destruct (IH Hin) as (records & car' & Hrec & Hin' & Hnone' & Hw).
    rewrite check_kpis_strings, Hrec. cbn [mbind result_bind].
    exists (warnings_for row c kpis ++ records), car'.
    rewrite <- app_assoc. split; [reflexivity |].
    split; [right; exact Hin' |]. split; [exact Hnone' |].
    apply Forall_app. split; [| exact Hw].
    unfold warnings_for. apply Forall_fmap, Forall_forall. reflexivity.
  - exists [], c. split; [reflexivity |]. split; [left |]. auto.
Qed.

Lemma jget_Some_truthy k (fields : list (string * json)) v :
  jget k fields = Some v -> truthy (JObj fields) = true.
Proof. destruct fields; [discriminate | reflexivity]. Qed.

(** C8. A declared car without any row in the value matrix fails the
    validation, and [main] returns 1, the exit code. When every declared
    car has a row, a KPI that a row lacks only earns a warning: the log
    holds these warnings and the final information, the validation
    passes, [main] goes on to step 3 with the data, and the lacking value
    is read as 0. *)
Theorem validation_missing_car_or_kpi
    (kpi_data : list (string * json)) (values : gmap string (gmap string pyval))
    (kpis cars : list string) :
  jget "top_5_KPIs" kpi_data = Some (str_list kpis) ->
  jget "top_cars_US_2024" kpi_data = Some (str_list cars) ->
  (forall car, car ∈ cars -> values !! car = None ->
     (exists records, validate_json_data kpi_data values = Ok (records, false)) /\
     (exists records, main (Some kpi_data) (Some values) = Ok (records, Return 1)) /\
     exit_code (Return 1) = Some 1) /\
  (forall rows,
     kpis <> [] -> cars <> [] ->
     Forall2 (fun car row => values !! car = Some row) cars rows ->
     let records :=
       concat (zip_with (fun car row => warnings_for row car kpis) cars rows)
       ++ [(INFO, ValidationPassed)] in
     validate_json_data kpi_data values = Ok (records, true) /\
     main (Some kpi_data) (Some values) = Ok (records, ReachesStep3 kpi_data values) /\
     Forall (fun r => r.1 <> ERROR) records /\
     (forall car row kpi,
        values !! car = Some row -> car ∈ cars -> kpi ∈ kpis -> row !! kpi = None ->
        (WARNING, MissingKpiForCar (JStr kpi) (JStr car)) ∈ records /\
        cell_or_zero values kpi car = Ok (PyInt 0))).
Proof.
  intros Hk Hc. split.
  - intros car Hin Hnone.
    assert (Hv : exists records, validate_json_data kpi_data values = Ok (records, false)).
    { unfold validate_json_data. rewrite Hk, Hc. unfold str_list.
      destruct kpis as [| k kpis']; [eexists; reflexivity |].
      destruct cars as [| c cars']; [inversion Hin |].
      destruct (check_cars_missing values (k :: kpis') (c :: cars') car Hin Hnone)
        as (records & car' & Hrec & _).
      rewrite !fmap_cons in Hrec. rewrite !fmap_cons. cbv beta iota.
      rewrite Hrec. eexists. reflexivity. }
    split; [exact Hv |]. split; [| reflexivity].
    destruct Hv as [records Hv]. unfold main.
    rewrite (jget_Some_truthy _ _ _ Hk). cbn [negb orb].
    destruct (bool_decide (values = ∅)); [eexists; reflexivity |].
    rewrite Hv. eexists. reflexivity.
  - intros rows Hkn Hcn Hrows records.
    assert (Hv : validate_json_data kpi_data values = Ok (records, true)).
    { unfold validate_json_data. rewrite Hk, Hc. unfold str_list.
      destruct kpis as [| k kpis']; [contradiction |].
      destruct cars as [| c cars']; [contradiction |].
      pose proof (check_cars_present values (k :: kpis') (c :: cars') rows Hrows) as Hrec.
      rewrite !fmap_cons in Hrec. rewrite !fmap_cons. cbv beta iota.
      rewrite Hrec. reflexivity. }
    split; [exact Hv |]. split; [| split].
    + unfold main. rewrite (jget_Some_truthy _ _ _ Hk). cbn [negb orb].
      destruct (bool_decide (values = ∅)) eqn:He.
      * apply bool_decide_eq_true in He. subst values.
        destruct Hrows as [| car row ? ? Hrow _]; [contradiction |].
        rewrite lookup_empty in Hrow. discriminate.
      * rewrite Hv. reflexivity.
    + unfold records. apply Forall_app. split.
      * apply Forall_concat, Forall_forall. intros ws Hws.
        apply elem_of_lookup_zip_with in Hws as (i & car & row & -> & _ & _).
        unfold warnings_for. apply Forall_fmap, Forall_forall. intros kpi _. discriminate.
      * repeat constructor. discriminate.
    + intros car row kpi Hrow Hin Hkin Hmiss. split.
      * unfold records. apply elem_of_app. left.
        apply list_elem_of_lookup in Hin as [i Hi].
        destruct (Forall2_lookup_l _ _ _ _ _ Hrows Hi) as (row' & Hi' & Hrow').
        assert (row' = row) as -> by congruence.
        apply list_elem_of_In, in_concat.
        exists (warnings_for row car kpis). split; apply list_elem_of_In.
        -- apply elem_of_lookup_zip_with. exists i, car, row. auto.
        -- unfold warnings_for. apply list_elem_of_fmap. exists kpi.
           split; [reflexivity |]. apply list_elem_of_filter. auto.
      * unfold cell_or_zero. rewrite Hrow, Hmiss. reflexivity.
Qed.

Lemma validation_missing_car_or_kpi_witness :
  (exists records,
     main (Some two_catalog) (Some tesla_only) = Ok (records, Return 1)) /\
  validate_json_data two_catalog gap_values
  = Ok ([(WARNING, MissingKpiForCar (JStr "Range (miles)") (JStr "Toyota Camry LE"));
         (INFO, ValidationPassed)], true).
Proof.
  split.
  - apply (proj1 (validation_missing_car_or_kpi two_catalog tesla_only two_kpis two_cars
                    eq_refl eq_refl) "Toyota Camry LE").
    + left.
    + reflexivity.
  - apply (proj2 (validation_missing_car_or_kpi two_catalog gap_values two_kpis two_cars
                    eq_refl eq_refl) [camry_gap; tesla_full]).
    + discriminate.
    + discriminate.
    + repeat constructor.
Defined.

(** ** Step 1 of the collector *)

Lemma load_catalog_absent fs :
  fs !! input_filename = None -> load_catalog fs = Raise FileNotFoundError.
Proof. unfold load_catalog, json_load. intros ->. reflexivity. Qed.

Lemma load_catalog_invalid fs :
  fs !! input_filename = Some NotJSON -> load_catalog fs = Raise JSONDecodeError.
Proof. unfold load_catalog, json_load. intros ->. reflexivity. Qed.

(** The [try] block on a document that is an object. *)
Lemma load_catalog_object fs fields :
  fs !! input_filename = Some (Doc (JObj fields)) ->
  load_catalog fs =
  match jget "top_5_KPIs" fields, selected_car_list fields with
  | Some kpi_list, Some car_list =>
      n ← len car_list;
      if negb (Nat.eqb n 20) then Raise KeyError else Ok (kpi_list, car_list)
  | _, _ => Raise KeyError
  end.
Proof.
  unfold load_catalog, json_load, selected_car_list. intros ->.
  cbn [mbind result_bind getitem contains].
  destruct (jget "top_5_KPIs" fields) as [kpi_list |]; [| reflexivity].
  cbn [mbind result_bind].
  destruct (jget "top_cars_US_2024" fields) as [c |].
  - rewrite bool_decide_eq_true_2 by eauto. reflexivity.
  - rewrite bool_decide_eq_false_2 by (intros [? ?]; discriminate).
    cbn [mbind result_bind].
    destruct (jget "top_bought_cars_US" fields) as [c |].
    + rewrite bool_decide_eq_true_2 by eauto. reflexivity.
    + rewrite bool_decide_eq_false_2 by (intros [? ?]; discriminate). reflexivity.
Qed.

Lemma step1_regenerates api draws fs e :
  load_catalog fs = Raise e ->
  e ∈ [FileNotFoundError; JSONDecodeError; KeyError] ->
  step1 api draws fs = regenerate api draws fs.
Proof.
  intros Hl He. unfold step1. rewrite Hl.
  destruct (decide (e ∈ [FileNotFoundError; JSONDecodeError; KeyError]));
    [reflexivity | contradiction].
Qed.

(** *** [random.sample] *)

Lemma sample_spec {A} (k : nat) :
  forall (population : list A) (draws : list nat),
    (k <= length population)%nat ->
    length (sample population k draws) = k /\
    (forall x, x ∈ sample population k draws -> x ∈ population) /\
    (NoDup population -> NoDup (sample population k draws)).
Proof.
  induction k as [| k IH]; intros population draws Hk.
  - simpl. split; [reflexivity |]. split; [intros x H; inversion H | constructor].
  - cbn [sample].
    set (i := (hd O draws `mod` length population)%nat).
    assert (Hi : (i < length population)%nat).
    { apply Nat.mod_upper_bound. lia. }
    destruct (lookup_lt_is_Some_2 population i Hi) as [x Hx].
    rewrite Hx.
    pose proof (take_drop_middle population i x Hx) as Hmid.
    assert (Hdel : delete i population = take i population ++ drop (S i) population).
    { apply delete_take_drop. }
    destruct (IH (delete i population) (tl draws)) as (Hlen & Hsub & Hnd).
    { rewrite length_delete by eauto. lia. }
    split; [simpl; lia |]. split.
    + intros y Hy. apply elem_of_cons in Hy as [-> | Hy].
      * eapply list_elem_of_lookup_2. exact Hx.
      * apply Hsub in Hy. rewrite Hdel in Hy. rewrite <- Hmid.
        apply elem_of_app in Hy as [Hy | Hy]; apply elem_of_app; [left | right]; auto.
        right. exact Hy.
    + intros Hpop. rewrite <- Hmid in Hpop.
      apply NoDup_app in Hpop as (Hn1 & Hn2 & Hn3).
      apply NoDup_cons in Hn3 as (Hx3 & Hn3).
      constructor.
      * intros Hin. apply Hsub in Hin. rewrite Hdel in Hin.
        apply elem_of_app in Hin as [Hin | Hin]; [| contradiction].
        apply (Hn2 x Hin). left.
      * apply Hnd. rewrite Hdel. apply NoDup_app. split; [exact Hn1 |].
        split; [| exact Hn3]. intros y Hy Hy'. apply (Hn2 y Hy). right. exact Hy'.
Qed.

Lemma available_kpis_all : available_kpis = all_kpis.
Proof. reflexivity. Qed.

Lemma available_kpis_NoDup : NoDup available_kpis.
Proof. apply (bool_decide_unpack _). vm_compute. exact I. Qed.

(** The KPIs drawn at regeneration: five different ones, out of the pool
    of nine, none of the banned three. *)
Lemma random_sample_kpis (draws : list nat) :
  exists kpi_list,
    random_sample available_kpis 5 draws = Ok kpi_list /\
    length kpi_list = 5%nat /\ NoDup kpi_list /\
    forall kpi, kpi ∈ kpi_list -> kpi ∈ all_kpis /\ kpi ∉ excluded_kpis.
Proof.
  destruct (sample_spec 5 available_kpis draws) as (Hlen & Hsub & Hnd).
  { rewrite available_kpis_all. simpl. lia. }
  exists (sample available_kpis 5 draws). split; [reflexivity |].
  split; [exact Hlen |]. split; [exact (Hnd available_kpis_NoDup) |].
  intros kpi Hk. apply Hsub in Hk. unfold available_kpis in Hk.
  apply list_elem_of_filter in Hk as [Hex Hall]. auto.
Qed.

(** *** The regeneration branch *)

Lemma regenerate_success api draws fs r car_list :
  api prompt_cars = Some r ->
  has_choices (Some r) = Ok true ->
  cars_of_response r = Ok car_list ->
  length car_list = 20%nat ->
  let kpi_list := sample available_kpis 5 draws in
  regenerate api draws fs =
  {| out := Continue (str_list kpi_list) (str_list car_list);
     files := json_dump fs input_filename (catalog kpi_list car_list);
     trace := [EvQuery prompt_cars; EvWrite input_filename (catalog kpi_list car_list)] |}.
Proof.
  intros Hr Hc Hcars Hlen kpi_list. unfold regenerate.
  rewrite Hr, Hc. cbn [from_option]. rewrite Hcars, Hlen. reflexivity.
Qed.

(** The regeneration ends in one of two ways: the catalog written and the
    script going on, or nothing written at all. *)
Lemma regenerate_cases api draws fs :
  (exists kpi_list car_list,
     length kpi_list = 5%nat /\ length car_list = 20%nat /\
     regenerate api draws fs =
     {| out := Continue (str_list kpi_list) (str_list car_list);
        files := json_dump fs input_filename (catalog kpi_list car_list);
        trace := [EvQuery prompt_cars;
                  EvWrite input_filename (catalog kpi_list car_list)] |}) \/
  (exists o,
     (forall k c, o <> Continue k c) /\
     regenerate api draws fs =
     {| out := o; files := fs; trace := [EvQuery prompt_cars] |}).
Proof.
  unfold regenerate.
  destruct (has_choices (api prompt_cars)) as [[] | e];
    [| right; eexists; split; [| reflexivity]; discriminate ..].
  destruct (from_option cars_of_response (Raise TypeError) (api prompt_cars))
    as [car_list | e]; [| right; eexists; split; [| reflexivity]; discriminate].
  destruct (Nat.eqb (length car_list) 20) eqn:Hlen; cbn [negb];
    [| right; eexists; split; [| reflexivity]; discriminate].
  apply Nat.eqb_eq in Hlen.
  destruct (random_sample_kpis draws) as (kpi_list & Hs & Hl & _).
  rewrite Hs. left. exists kpi_list, car_list. auto.
Qed.

(** *** Writing the catalog and loading it again *)

Lemma load_catalog_written fs kpi_list car_list :
  length car_list = 20%nat ->
  load_catalog (json_dump fs input_filename (catalog kpi_list car_list))
  = Ok (str_list kpi_list, str_list car_list).
Proof.
  intros Hlen.
  rewrite (load_catalog_object _ [("top_cars_US_2024", str_list car_list);
                                  ("top_5_KPIs", str_list kpi_list)]).
  - change (jget "top_5_KPIs" _) with (Some (str_list kpi_list)).
    change (selected_car_list _) with (Some (str_list car_list)).
    cbn [str_list len mbind result_bind]. rewrite length_fmap, Hlen. reflexivity.
  - unfold json_dump, catalog. apply lookup_insert_eq.
Qed.

Lemma step1_uncaught api draws fs e :
  load_catalog fs = Raise e ->
  e ∉ [FileNotFoundError; JSONDecodeError; KeyError] ->
  step1 api draws fs = {| out := Uncaught e; files := fs; trace := [] |}.
Proof.
  intros Hl He. unfold step1. rewrite Hl.
  destruct (decide (e ∈ [FileNotFoundError; JSONDecodeError; KeyError]));
    [contradiction | reflexivity].
Qed.

Lemma load_catalog_not_object fs d :
  fs !! input_filename = Some (Doc d) -> (forall fields, d <> JObj fields) ->
  load_catalog fs = Raise TypeError.
Proof.
  unfold load_catalog, json_load. intros -> Hd.
  destruct d; try reflexivity. exfalso. eapply Hd. reflexivity.
Qed.

(** C6. As amended: the regeneration branch runs when the catalog file is
    absent, is not JSON, or holds an object that lacks the KPI list, lacks
    a car list under either key, or has a car list of a length other than
    20 (19 cars, say): it first asks the API for the cars and, given 20 of
    them, draws 5 different KPIs from the pool of 9, none of the 3 banned,
    and writes the new catalog. An object with a KPI list and a car list
    of length 20 is used as it is: nothing is asked and nothing is
    written. A file that cannot be opened or is not text, a document that
    is not an object, and a car list without a length are not handled: the
    script ends on the exception, and nothing is asked or written. *)
Theorem step1_load_or_regenerate (api : string -> option json) (draws : list nat)
    (fs : gmap string file_content) :
  ((fs !! input_filename = None \/
    fs !! input_filename = Some NotJSON \/
    (exists fields,
       fs !! input_filename = Some (Doc (JObj fields)) /\
       (jget "top_5_KPIs" fields = None \/
        selected_car_list fields = None \/
        exists car_list n,
          selected_car_list fields = Some car_list /\
          len car_list = Ok n /\ n <> 20%nat))) ->
   step1 api draws fs = regenerate api draws fs /\
   (exists rest, trace (regenerate api draws fs) = EvQuery prompt_cars :: rest) /\
   (forall r car_list,
      api prompt_cars = Some r ->
      has_choices (Some r) = Ok true ->
      cars_of_response r = Ok car_list ->
      length car_list = 20%nat ->
      exists kpi_list,
        length kpi_list = 5%nat /\ NoDup kpi_list /\
        (forall kpi, kpi ∈ kpi_list -> kpi ∈ all_kpis /\ kpi ∉ excluded_kpis) /\
        length all_kpis = 9%nat /\ length excluded_kpis = 3%nat /\
        regenerate api draws fs =
        {| out := Continue (str_list kpi_list) (str_list car_list);
           files := <[input_filename := Doc (catalog kpi_list car_list)]> fs;
           trace := [EvQuery prompt_cars;
                     EvWrite input_filename (catalog kpi_list car_list)] |})) /\
  (forall fields kpi_list car_list,
     fs !! input_filename = Some (Doc (JObj fields)) ->
     jget "top_5_KPIs" fields = Some kpi_list ->
     selected_car_list fields = Some car_list ->
     len car_list = Ok 20%nat ->
     step1 api draws fs =
     {| out := Continue kpi_list car_list; files := fs; trace := [] |}) /\
  (fs !! input_filename = Some Unreadable ->
   step1 api draws fs = {| out := Uncaught PermissionError; files := fs; trace := [] |}) /\
  (fs !! input_filename = Some NotText ->
   step1 api draws fs
   = {| out := Uncaught UnicodeDecodeError; files := fs; trace := [] |}) /\
  (forall d,
     fs !! input_filename = Some (Doc d) ->
     (forall fields, d <> JObj fields) \/
     (exists fields kpi_list car_list,
        d = JObj fields /\ jget "top_5_KPIs" fields = Some kpi_list /\
        selected_car_list fields = Some car_list /\
        len car_list = Raise TypeError) ->
     step1 api draws fs = {| out := Uncaught TypeError; files := fs; trace := [] |}).
Proof.
  assert (Hnot : forall e, e = PermissionError \/ e = UnicodeDecodeError \/ e = TypeError ->
                           e ∉ [FileNotFoundError; JSONDecodeError; KeyError]).
  { intros e [-> | [-> | ->]]; apply (bool_decide_unpack _); vm_compute; exact I. }
  split; [| split; [| split; [| split]]].
  - intros Hcase. split; [| split].
    + destruct Hcase as [Habs | [Hinv | (fields & Hdoc & Hcars)]].
      * eapply step1_regenerates; [apply load_catalog_absent, Habs |].
        apply (bool_decide_unpack _). vm_compute. exact I.
      * eapply step1_regenerates; [apply load_catalog_invalid, Hinv |].
        apply (bool_decide_unpack _). vm_compute. exact I.
      * apply (step1_regenerates _ _ _ KeyError);
          [| apply (bool_decide_unpack _); vm_compute; exact I].
        rewrite (load_catalog_object fs fields Hdoc).
        destruct Hcars as [-> | Hcars]; [reflexivity |].
        destruct (jget "top_5_KPIs" fields); [| reflexivity].
        destruct Hcars as [-> | (car_list & n & -> & -> & Hlen)]; [reflexivity |].
        cbn [mbind result_bind].
        apply Nat.eqb_neq in Hlen. rewrite Hlen. reflexivity.
    + destruct (regenerate_cases api draws fs)
        as [(k & c & _ & _ & ->) | (o & _ & ->)]; eexists; reflexivity.
    + intros r car_list Hr Hc Hcars Hlen.
      destruct (random_sample_kpis draws) as (kpi_list & Hs & Hl & Hnd & Hpool).
      injection Hs as Hs.
      exists kpi_list. split; [exact Hl |]. split; [exact Hnd |].
      split; [exact Hpool |]. split; [reflexivity |]. split; [reflexivity |].
      rewrite <- Hs. apply (regenerate_success api draws fs r car_list); assumption.
  - intros fields kpi_list car_list Hdoc Hk Hsel Hlen.
    unfold step1. rewrite (load_catalog_object fs fields Hdoc), Hk, Hsel, Hlen.
    reflexivity.
  - intros Hf. apply step1_uncaught; [| apply Hnot; auto].
    unfold load_catalog, json_load. rewrite Hf. reflexivity.
  - intros Hf. apply step1_uncaught; [| apply Hnot; auto].
    unfold load_catalog, json_load. rewrite Hf. reflexivity.
  - intros d Hdoc Hcase. apply step1_uncaught; [| apply Hnot; auto].
    destruct Hcase as [Hd | (fields & kpi_list & car_list & -> & Hk & Hsel & Hlen)].
    + apply (load_catalog_not_object fs d Hdoc Hd).
    + rewrite (load_catalog_object fs fields Hdoc), Hk, Hsel, Hlen. reflexivity.
Qed.

Lemma step1_load_or_regenerate_witness :
  step1 (fun _ => Some (cars_response twenty_cars)) [3; 1; 4; 1; 5]%nat stale_files
  = regenerate (fun _ => Some (cars_response twenty_cars)) [3; 1; 4; 1; 5]%nat stale_files /\
  step1 (fun _ => None) [] good_files
  = {| out := Continue (str_list five_kpis) (str_list twenty_cars);
       files := good_files; trace := [] |}.
Proof.
  split.
  - apply (proj1 (step1_load_or_regenerate
                    (fun _ => Some (cars_response twenty_cars)) [3; 1; 4; 1; 5]%nat
                    stale_files)).
    right. right.
    exists [("top_cars_US_2024", str_list nineteen_cars); ("top_5_KPIs", str_list five_kpis)].
    split; [reflexivity |]. right. right.
    exists (str_list nineteen_cars), 19%nat.
    split; [reflexivity |]. split; [reflexivity | discriminate].
  - apply (proj1 (proj2 (step1_load_or_regenerate (fun _ => None) [] good_files))
             [("top_cars_US_2024", str_list twenty_cars); ("top_5_KPIs", str_list five_kpis)]
             (str_list five_kpis) (str_list twenty_cars)); reflexivity.
Defined.

(** Where the claim as first stated fails. A file that loads with exactly
    20 cars but without a KPI list is not used as it is: the cars are
    fetched anew and the file is written again. And three files that the
    claim sends to the regeneration end the script instead, nothing
    fetched: one that cannot be opened, one whose document is a list (so
    without any key), one whose car list is a number. *)
Lemma step1_load_or_regenerate_counterexample :
  let api := fun _ : string => Some (cars_response twenty_cars) in
  let draws := [3; 1; 4; 1; 5]%nat in
  let only_cars := JObj [("top_cars_US_2024", str_list twenty_cars)] in
  let unsized := JObj [("top_cars_US_2024", JInt 20); ("top_5_KPIs", str_list five_kpis)] in
  (json_load {[ input_filename := Doc only_cars ]} input_filename = Ok only_cars /\
   (car_list ← getitem only_cars "top_cars_US_2024"; len car_list) = Ok 20%nat /\
   exists kpi_list,
     trace (step1 api draws {[ input_filename := Doc only_cars ]})
     = [EvQuery prompt_cars; EvWrite input_filename (catalog kpi_list twenty_cars)] /\
     files (step1 api draws {[ input_filename := Doc only_cars ]})
     = {[ input_filename := Doc (catalog kpi_list twenty_cars) ]}) /\
  step1 api draws {[ input_filename := Unreadable ]}
  = {| out := Uncaught PermissionError;
       files := {[ input_filename := Unreadable ]}; trace := [] |} /\
  step1 api draws {[ input_filename := Doc (JArr []) ]}
  = {| out := Uncaught TypeError;
       files := {[ input_filename := Doc (JArr []) ]}; trace := [] |} /\
  step1 api draws {[ input_filename := Doc unsized ]}
  = {| out := Uncaught TypeError;
       files := {[ input_filename := Doc unsized ]}; trace := [] |}.
Proof.
  cbv zeta. split; [| split; [| split]]; try reflexivity.
  split; [reflexivity |]. split; [reflexivity |].
  rewrite (step1_regenerates _ _ _ KeyError);
    [| reflexivity | apply (bool_decide_unpack _); vm_compute; exact I].
  rewrite (regenerate_success _ _ _ (cars_response twenty_cars) twenty_cars);
    [| reflexivity ..].
  eexists. split; [reflexivity |].
  cbn [files]. unfold json_dump. apply insert_singleton_eq.
Qed.

(** C7. When the call for the car list fails (no response, a response
    without choices or with none) or the cleaned list of cars does not
    count 20 names, the regeneration exits with code 1, which is not 0,
    after the API call and nothing else: the files are as they were. More
    generally, unless the script goes on to step 2, nothing is written. *)
Theorem regenerate_failure_exits (api : string -> option json) (draws : list nat)
    (fs : gmap string file_content) :
  ((api prompt_cars = None \/
    (exists fields,
       api prompt_cars = Some (JObj fields) /\
       (jget "choices" fields = None \/ jget "choices" fields = Some (JArr []))) \/
    (exists r car_list,
       api prompt_cars = Some r /\ has_choices (Some r) = Ok true /\
       cars_of_response r = Ok car_list /\ length car_list <> 20%nat)) ->
   regenerate api draws fs =
   {| out := Exit 1; files := fs; trace := [EvQuery prompt_cars] |} /\ 1 <> 0) /\
  ((forall k c, out (regenerate api draws fs) <> Continue k c) ->
   files (regenerate api draws fs) = fs /\
   existsb is_write (trace (regenerate api draws fs)) = false).
Proof.
  split.
  - intros Hcase. split; [| discriminate]. unfold regenerate.
    destruct Hcase as [-> | [(fields & -> & Hch) | (r & car_list & -> & -> & Hcars & Hlen)]].
    + reflexivity.
    + assert (Hh : has_choices (Some (JObj fields)) = Ok false).
      { unfold has_choices. destruct (truthy (JObj fields)); [| reflexivity].
        cbn [negb contains mbind result_bind getitem].
        destruct Hch as [-> | ->]; reflexivity. }
      rewrite Hh. reflexivity.
    + cbn [from_option]. rewrite Hcars.
      apply Nat.eqb_neq in Hlen. rewrite Hlen. reflexivity.
  - intros Hout.
    destruct (regenerate_cases api draws fs)
      as [(k & c & _ & _ & Hreg) | (o & _ & Hreg)]; rewrite Hreg in Hout |- *.
    + exfalso. apply (Hout _ _ eq_refl).
    + split; reflexivity.
Qed.

Lemma regenerate_failure_exits_witness :
  regenerate (fun _ => None) [] no_files
  = {| out := Exit 1; files := no_files; trace := [EvQuery prompt_cars] |} /\
  files (regenerate (fun _ => Some (cars_response nineteen_cars)) [] stale_files)
  = stale_files.
Proof.
  split.
  - apply (proj1 (regenerate_failure_exits (fun _ => None) [] no_files)).
    left. reflexivity.
  - apply (proj2 (regenerate_failure_exits
                    (fun _ => Some (cars_response nineteen_cars)) [] stale_files)).
    intros k c. vm_compute. discriminate.
Defined.

(** C9. A catalog written by the collector, 20 cars and its KPI list
    under the two keys, loads back as it was written: the load step gives
    the same two lists, and asks and writes nothing. So every run of
    step 1 that goes on to step 2 leaves a catalog file from which any
    later run starts with the same lists. *)
Theorem catalog_round_trip (api : string -> option json) (draws : list nat)
    (fs : gmap string file_content) (kpi_list car_list : list string) :
  length car_list = 20%nat ->
  load_catalog (json_dump fs input_filename (catalog kpi_list car_list))
  = Ok (str_list kpi_list, str_list car_list) /\
  step1 api draws (json_dump fs input_filename (catalog kpi_list car_list))
  = {| out := Continue (str_list kpi_list) (str_list car_list);
       files := json_dump fs input_filename (catalog kpi_list car_list);
       trace := [] |} /\
  (forall api0 draws0 fs0 k c,
     out (step1 api0 draws0 fs0) = Continue k c ->
     step1 api draws (files (step1 api0 draws0 fs0))
     = {| out := Continue k c; files := files (step1 api0 draws0 fs0); trace := [] |}).
Proof.
  intros Hlen.
  assert (Hstep : forall fs1 ks cs, length cs = 20%nat ->
            step1 api draws (json_dump fs1 input_filename (catalog ks cs))
            = {| out := Continue (str_list ks) (str_list cs);
                 files := json_dump fs1 input_filename (catalog ks cs);
                 trace := [] |}).
  { intros fs1 ks cs Hcs. unfold step1.
    rewrite (load_catalog_written fs1 ks cs Hcs). reflexivity. }
  split; [apply load_catalog_written, Hlen |]. split; [apply Hstep, Hlen |].
  intros api0 draws0 fs0 k c. unfold step1 at 1 3 4.
  destruct (load_catalog fs0) as [[k0 c0] | e] eqn:Hload.
  - cbn [out files]. intros [= -> ->]. unfold step1. rewrite Hload. reflexivity.
  - destruct (decide (e ∈ [FileNotFoundError; JSONDecodeError; KeyError])).
    + destruct (regenerate_cases api0 draws0 fs0)
        as [(ks & cs & _ & Hcs & ->) | (o & Ho & ->)]; cbn [out files].
      * intros [= <- <-]. apply Hstep, Hcs.
      * intros Heq. exfalso. apply (Ho _ _ Heq).
    + cbn [out]. discriminate.
Qed.

Lemma catalog_round_trip_witness :
  load_catalog (json_dump stale_files input_filename (catalog five_kpis twenty_cars))
  = Ok (str_list five_kpis, str_list twenty_cars).
Proof.
  apply (catalog_round_trip (fun _ => None) [] stale_files five_kpis twenty_cars).
  reflexivity.
Defined.

(** ** The dashboard's Key Insights *)

Lemma xgt_irrefl a : xgt a a = false.
Proof.
  unfold xgt, xcompare. destruct a as [| [] | q]; try reflexivity.
  rewrite (proj1 (Qeq_alt q q)); [reflexivity | apply Qeq_refl].
Qed.

Lemma xlt_irrefl a : xlt a a = false.
Proof.
  unfold xlt, xcompare. destruct a as [| [] | q]; try reflexivity.
  rewrite (proj1 (Qeq_alt q q)); [reflexivity | apply Qeq_refl].
Qed.

Lemma xgt_trans a b c : xgt a b = true -> xgt b c = true -> xgt a c = true.
Proof.
  unfold xgt, xcompare.
  destruct a as [| sa | qa], b as [| sb | qb], c as [| sc | qc];
    try destruct sa; try destruct sb; try destruct sc; try congruence.
  destruct (qa ?= qb)%Q eqn:Hab; try discriminate.
  destruct (qb ?= qc)%Q eqn:Hbc; try discriminate.
  intros _ _. apply Qgt_alt in Hab, Hbc.
  rewrite (proj1 (Qgt_alt qa qc)); [reflexivity |].
  eapply Qlt_trans; eauto.
Qed.

Lemma xlt_trans a b c : xlt a b = true -> xlt b c = true -> xlt a c = true.
Proof.
  unfold xlt, xcompare.
  destruct a as [| sa | qa], b as [| sb | qb], c as [| sc | qc];
    try destruct sa; try destruct sb; try destruct sc; try congruence.
  destruct (qa ?= qb)%Q eqn:Hab; try discriminate.
  destruct (qb ?= qc)%Q eqn:Hbc; try discriminate.
  intros _ _. apply Qlt_alt in Hab, Hbc.
  rewrite (proj1 (Qlt_alt qa qc)); [reflexivity |].
  eapply Qlt_trans; eauto.
Qed.

Section Extremum.

Variable rel : xreal -> xreal -> bool.
Hypothesis rel_irrefl : forall a, rel a a = false.
Hypothesis rel_trans : forall a b c, rel a b = true -> rel b c = true -> rel a c = true.
Variable key : string -> result pyval.

Let better (a b : pyval) : result bool := x ← exact a; y ← exact b; Ok (rel x y).

(** [c] has a key, a number, that is not better than [xt]. *)
Let not_better (xt : xreal) (c : string) : Prop :=
  exists v x, key c = Ok v /\ exact v = Ok x /\ rel x xt = false.

Let has_number (c : string) : Prop :=
  exists v x, key c = Ok v /\ exact v = Ok x.

(** The scan keeps a car that none of the cars seen is better than. *)
Lemma scan_best_spec (rest : list string) :
  forall (seen : list string) (best : string) (best_val : pyval) (xb : xreal),
    key best = Ok best_val -> exact best_val = Ok xb -> best ∈ seen ->
    (forall c, c ∈ seen -> not_better xb c) ->
    (forall c, c ∈ rest -> has_number c) ->
    exists top vt xt,
      scan_best better key best best_val rest = Ok top /\
      top ∈ seen ++ rest /\ key top = Ok vt /\ exact vt = Ok xt /\
      forall c, c ∈ seen ++ rest -> not_better xt c.
Proof.
  induction rest as [| x rest IH]; intros seen best best_val xb Hkey Hex Hin Hseen Hrest.
  - exists best, best_val, xb. rewrite app_nil_r. auto.
  - destruct (Hrest x) as (v & xv & Hv & Hxv); [left |].
    cbn [scan_best]. rewrite Hv. cbn [mbind result_bind].
    assert (Hb : better v best_val = Ok (rel xv xb)).
    { unfold better. rewrite Hxv, Hex. reflexivity. }
    rewrite Hb. cbn [mbind result_bind].
    assert (Hrest' : forall c, c ∈ rest -> has_number c).
    { intros c Hc. apply Hrest. right. exact Hc. }
    destruct (rel xv xb) eqn:Hrel.
    + destruct (IH (seen ++ [x]) x v xv Hv Hxv) as (top & vt & xt & Hs & Ht & Hk & He & Hall);
        [apply elem_of_app; right; left | | exact Hrest' |].
      { intros c Hc. apply elem_of_app in Hc as [Hc | Hc].
        - destruct (Hseen c Hc) as (vc & xc & Hvc & Hxc & Hnb).
          exists vc, xc. split; [exact Hvc |]. split; [exact Hxc |].
          destruct (rel xc xv) eqn:Hcv; [| reflexivity].
          rewrite (rel_trans _ _ _ Hcv Hrel) in Hnb. discriminate.
        - apply list_elem_of_singleton in Hc as ->.
          exists v, xv. auto. }
      rewrite <- app_assoc in Ht, Hall. exists top, vt, xt. auto.
    + destruct (IH (seen ++ [x]) best best_val xb Hkey Hex) as (top & vt & xt & Hs & Ht & Hk & He & Hall);
        [apply elem_of_app; left; exact Hin | | exact Hrest' |].
      { intros c Hc. apply elem_of_app in Hc as [Hc | Hc]; [auto |].
        apply list_elem_of_singleton in Hc as ->. exists v, xv. auto. }
      rewrite <- app_assoc in Ht, Hall. exists top, vt, xt. auto.
Qed.

(** [max] and [min] with a key: on a non-empty list whose keys are all
    numbers, the car selected is one of the list and no car is better. *)
Lemma select_best_spec (cars : list string) :
  cars <> [] ->
  (forall c, c ∈ cars -> has_number c) ->
  exists top vt xt,
    select_best better key cars = Ok top /\
    top ∈ cars /\ key top = Ok vt /\ exact vt = Ok xt /\
    forall c, c ∈ cars -> not_better xt c.
Proof.
  intros Hne Hnum. destruct cars as [| x rest]; [contradiction |].
  destruct (Hnum x) as (v & xv & Hv & Hxv); [left |].
  cbn [select_best]. rewrite Hv. cbn [mbind result_bind].
  destruct (scan_best_spec rest [x] x v xv Hv Hxv) as (top & vt & xt & H);
    [left | | | exists top, vt, xt; exact H].
  - intros c Hc. apply list_elem_of_singleton in Hc as ->.
    exists v, xv. auto.
  - intros c Hc. apply Hnum. right. exact Hc.
Qed.

End Extremum.

Lemma mapR_Ok_elem {A B} (f : A -> result B) l ys x :
  mapR f l = Ok ys -> x ∈ l -> is_Ok (f x).
Proof.
  intros H Hx. apply mapR_Ok_Forall2 in H.
  apply list_elem_of_lookup in Hx as [i Hi].
  destruct (Forall2_lookup_l _ _ _ _ _ H Hi) as (y & _ & Hy).
  rewrite Hy. exact I.
Qed.

Lemma cell_or_zero_number values kpi car :
  (exists row, values !! car = Some row /\ row !! kpi <> Some PyNone) ->
  exists v x, cell_or_zero values kpi car = Ok v /\ exact v = Ok x.
Proof.
  intros (row & Hrow & Hn). unfold cell_or_zero. rewrite Hrow.
  destruct (row !! kpi) as [[| z | f] |]; [congruence | eauto ..].
Qed.

(** The direct lookup of a line succeeds exactly on an entry. *)
Lemma cell_has_entry values car kpi :
  (has_entry values car kpi -> is_Ok (cell values car kpi)) /\
  (~ has_entry values car kpi -> cell values car kpi = Raise KeyError).
Proof.
  unfold has_entry, cell. destruct (values !! car) as [row |] eqn:Hrow.
  - destruct (row !! kpi) as [v |] eqn:Hv.
    + split; [intros _; exact I |]. intros H. exfalso. apply H. eauto.
    + split; [| reflexivity]. intros (row' & v & [= <-] & Hv'). congruence.
  - split; [| reflexivity]. intros (row' & v & [=] & _).
Qed.

Lemma cell_or_zero_entry values car kpi :
  has_entry values car kpi -> cell values car kpi = cell_or_zero values kpi car.
Proof.
  intros (row & v & Hrow & Hv). unfold cell, cell_or_zero. rewrite Hrow, Hv. reflexivity.
Qed.

(** C10. In the Key Insights, for a KPI among the first three and a
    non-empty list of cars with rows, the car of "Top Performers" is one
    of the list and no car has a greater value, a car without the KPI
    counting for 0; the car of "Areas for Improvement" likewise with no
    car of a smaller value. The value shown is read without a default: the
    line is rendered exactly when the selected car has an entry for the
    KPI, and raises [KeyError] otherwise. *)
Theorem key_insight_lookup (values_data : gmap string (gmap string pyval))
    (cars kpis : list string) (kpi : string) :
  cars <> [] ->
  kpi ∈ take 3 kpis ->
  (forall car, car ∈ cars ->
     exists row, values_data !! car = Some row /\ row !! kpi <> Some PyNone) ->
  (exists top vt xt,
     top_car values_data cars kpi = Ok top /\ top ∈ cars /\
     cell_or_zero values_data kpi top = Ok vt /\ exact vt = Ok xt /\
     (forall c, c ∈ cars ->
        exists v x, cell_or_zero values_data kpi c = Ok v /\ exact v = Ok x /\
                    xgt x xt = false) /\
     (is_Ok (top_line values_data cars kpi) <-> has_entry values_data top kpi) /\
     (has_entry values_data top kpi -> top_line values_data cars kpi = Ok (top, vt)) /\
     (~ has_entry values_data top kpi ->
        top_line values_data cars kpi = Raise KeyError)) /\
  (exists bottom vb xb,
     bottom_car values_data cars kpi = Ok bottom /\ bottom ∈ cars /\
     cell_or_zero values_data kpi bottom = Ok vb /\ exact vb = Ok xb /\
     (forall c, c ∈ cars ->
        exists v x, cell_or_zero values_data kpi c = Ok v /\ exact v = Ok x /\
                    xlt x xb = false) /\
     (is_Ok (bottom_line values_data cars kpi) <-> has_entry values_data bottom kpi) /\
     (has_entry values_data bottom kpi ->
        bottom_line values_data cars kpi = Ok (bottom, vb)) /\
     (~ has_entry values_data bottom kpi ->
        bottom_line values_data cars kpi = Raise KeyError)) /\
  (is_Ok (key_insights values_data cars kpis) ->
   is_Ok (top_line values_data cars kpi) /\ is_Ok (bottom_line values_data cars kpi)).
Proof.
  intros Hne Hk Hrows.
  assert (Hnum : forall c, c ∈ cars ->
            exists v x, cell_or_zero values_data kpi c = Ok v /\ exact v = Ok x).
  { intros c Hc. apply cell_or_zero_number, Hrows, Hc. }
  assert (Hline : forall (select : result string) (line : result (string * pyval))
                         (car : string) (v : pyval),
            line = (car ← select; v ← cell values_data car kpi; Ok (car, v)) ->
            select = Ok car -> cell_or_zero values_data kpi car = Ok v ->
            (is_Ok line <-> has_entry values_data car kpi) /\
            (has_entry values_data car kpi -> line = Ok (car, v)) /\
            (~ has_entry values_data car kpi -> line = Raise KeyError)).
  { intros select line car v -> -> Hv. cbn [mbind result_bind].
    destruct (cell_has_entry values_data car kpi) as [Hyes Hno].
    assert (Hy : has_entry values_data car kpi ->
                 (v ← cell values_data car kpi; Ok (car, v)) = Ok (car, v)).
    { intros He. rewrite (cell_or_zero_entry _ _ _ He), Hv. reflexivity. }
    assert (Hn : ~ has_entry values_data car kpi ->
                 (v ← cell values_data car kpi; Ok (car, v)) = Raise KeyError).
    { intros He. rewrite (Hno He). reflexivity. }
    split; [| split; assumption].
    split.
    - intros Hok. destruct (cell values_data car kpi) as [w |] eqn:Hc;
        [| contradiction].
      unfold cell in Hc. unfold has_entry.
      destruct (values_data !! car) as [row |]; [| discriminate].
      destruct (row !! kpi) as [w' |] eqn:Hw; [eauto | discriminate].
    - intros He. rewrite (Hy He). exact I. }
  split; [| split].
  - destruct (select_best_spec xgt xgt_irrefl xgt_trans
                (cell_or_zero values_data kpi) cars Hne Hnum)
      as (top & vt & xt & Hsel & Hin & Hkey & Hex & Hall).
    exists top, vt, xt.
    split; [exact Hsel |]. split; [exact Hin |]. split; [exact Hkey |].
    split; [exact Hex |]. split; [exact Hall |].
    apply (Hline (top_car values_data cars kpi)); [reflexivity | exact Hsel | exact Hkey].
  - destruct (select_best_spec xlt xlt_irrefl xlt_trans
                (cell_or_zero values_data kpi) cars Hne Hnum)
      as (bottom & vb & xb & Hsel & Hin & Hkey & Hex & Hall).
    exists bottom, vb, xb.
    split; [exact Hsel |]. split; [exact Hin |]. split; [exact Hkey |].
    split; [exact Hex |]. split; [exact Hall |].
    apply (Hline (bottom_car values_data cars kpi)); [reflexivity | exact Hsel | exact Hkey].
  - unfold key_insights. intros Hok.
    destruct (mapR (top_line values_data cars) (take 3 kpis)) as [tops |] eqn:Ht;
      [| contradiction].
    cbn [mbind result_bind] in Hok.
    destruct (mapR (bottom_line values_data cars) (take 3 kpis)) as [bottoms |] eqn:Hb;
      [| contradiction].
    split; eapply mapR_Ok_elem; eauto.
Qed.

Lemma key_insight_lookup_witness :
  exists top vt xt,
    top_car gap_values two_cars "Range (miles)" = Ok top /\ top ∈ two_cars /\
    cell_or_zero gap_values "Range (miles)" top = Ok vt /\ exact vt = Ok xt /\
    (forall c, c ∈ two_cars ->
       exists v x, cell_or_zero gap_values "Range (miles)" c = Ok v /\ exact v = Ok x /\
                   xgt x xt = false) /\
    (is_Ok (top_line gap_values two_cars "Range (miles)")
     <-> has_entry gap_values top "Range (miles)") /\
    (has_entry gap_values top "Range (miles)" ->
       top_line gap_values two_cars "Range (miles)" = Ok (top, vt)) /\
    (~ has_entry gap_values top "Range (miles)" ->
       top_line gap_values two_cars "Range (miles)" = Raise KeyError).
Proof.
  apply (key_insight_lookup gap_values two_cars two_kpis "Range (miles)").
  - discriminate.
  - right. left.
  - intros car Hcar.
    apply elem_of_cons in Hcar as [-> | Hcar];
      [exists camry_gap; split; [reflexivity | vm_compute; discriminate] |].
    apply elem_of_cons in Hcar as [-> | Hcar];
      [exists tesla_full; split; [reflexivity | vm_compute; discriminate] |].
    inversion Hcar.
Defined.

(** The line of "Areas for Improvement" for the range fails on this data:
    the car without a range counts for 0, is the minimum, and has no value
    to show. *)
Example bottom_line_raises :
  bottom_car gap_values two_cars "Range (miles)" = Ok "Toyota Camry LE" /\
  bottom_line gap_values two_cars "Range (miles)" = Raise KeyError /\
  key_insights gap_values two_cars two_kpis = Raise KeyError.
Proof. repeat split; reflexivity. Qed.

(** * Further properties *)

Import Fill Report View Samples.

(** ** Querying the API and reading the answer *)

(** The value extracted does not depend on white space around the content. *)
Lemma extract_value_strip (content : string) :
  extract_value (strip content) = extract_value content.
Proof.
  unfold extract_value. rewrite !numeric_residue_strip. reflexivity.
Qed.

Lemma has_choices_without fields :
  jget "choices" fields = None \/ jget "choices" fields = Some (JArr []) ->
  has_choices (Some (JObj fields)) = Ok false.
Proof.
  intros Hch. unfold has_choices. destruct (truthy (JObj fields)); [| reflexivity].
  cbn [negb contains mbind result_bind getitem].
  destruct Hch as [-> | ->]; reflexivity.
Qed.

(** X1. A call that fails gives the cell 0: a status other than 200, a
    body that is not JSON, a body without choices or with an empty list
    of them. *)
Theorem extract_content_failed_call (post : string -> http_reply) (prompt : string) :
  status_code (post prompt) <> 200 \/
  body (post prompt) = None \/
  (exists fields,
     body (post prompt) = Some (JObj fields) /\
     (jget "choices" fields = None \/ jget "choices" fields = Some (JArr []))) ->
  extract_content (query_x_api post prompt) = Ok (PyInt 0).
Proof.
  unfold query_x_api. intros [Hs | [Hb | (fields & Hb & Hch)]].
  - apply Z.eqb_neq in Hs. rewrite Hs. reflexivity.
  - rewrite Hb. destruct (_ =? _); reflexivity.
  - rewrite Hb. destruct (_ =? _); [| reflexivity].
    unfold extract_content. rewrite (has_choices_without fields Hch). reflexivity.
Qed.

Lemma extract_content_failed_call_witness :
  extract_content
    (query_x_api (fun _ => {| status_code := 429; body := Some (cars_response ["7"]) |})
                 "Provide the Horsepower")
  = Ok (PyInt 0).
Proof.
  apply (extract_content_failed_call
           (fun _ => {| status_code := 429; body := Some (cars_response ["7"]) |})).
  left. cbn. discriminate.
Defined.

(** X2. On a reply with choices, the cell is what [extract_value] makes
    of the content of the first choice, a number in every case, the
    stripping beforehand changing nothing; when the first choice has no
    message, or the message no content, the exception is not caught and
    no 0 stands in. *)
Theorem extract_content_of_reply (r : json) :
  has_choices (Some r) = Ok true ->
  (forall text, content_of r = Ok (JStr text) ->
     extract_content (Some r) = extract_value text /\
     exists v, extract_content (Some r) = Ok v /\ v <> PyNone) /\
  (forall e, content_of r = Raise e -> extract_content (Some r) = Raise e) /\
  (forall fields first rest,
     r = JObj fields -> jget "choices" fields = Some (JArr (JObj first :: rest)) ->
     jget "message" first = None ->
     extract_content (Some r) = Raise KeyError).
Proof.
  intros Hc.
  assert (Hfail : forall e, content_of r = Raise e -> extract_content (Some r) = Raise e).
  { intros e He. unfold extract_content. rewrite Hc. cbn [mbind result_bind].
    rewrite He. reflexivity. }
  split; [| split; [exact Hfail |]].
  - intros text Ht.
    assert (Heq : extract_content (Some r) = extract_value text).
    { unfold extract_content. rewrite Hc. cbn [mbind result_bind].
      rewrite Ht. cbn [mbind result_bind]. apply extract_value_strip. }
    split; [exact Heq |]. rewrite Heq. apply extract_value_total.
  - intros fields first rest -> Hch Hm. apply Hfail.
    unfold content_of. cbn [getitem]. rewrite Hch. cbn [mbind result_bind getitem0 getitem].
    rewrite Hm. reflexivity.
Qed.

Lemma extract_content_of_reply_witness :
  extract_content (Some (cars_response ["  About 35,000 dollars "])) = Ok (PyInt 35) /\
  extract_content (Some (JObj [("choices", JArr [JObj [("index", JInt 0)]])]))
  = Raise KeyError.
Proof.
  split.
  - destruct (proj1 (extract_content_of_reply
                       (cars_response ["  About 35,000 dollars "]) eq_refl)
                "  About 35,000 dollars " eq_refl) as [-> _].
    reflexivity.
  - apply (proj2 (proj2 (extract_content_of_reply
                           (JObj [("choices", JArr [JObj [("index", JInt 0)]])]) eq_refl))
             [("choices", JArr [JObj [("index", JInt 0)]])] [("index", JInt 0)] []);
      reflexivity.
Defined.

Lemma extract_content_number (response : option json) (v : pyval) :
  extract_content response = Ok v -> v <> PyNone.
Proof.
  unfold extract_content.
  destruct (has_choices response) as [[] | e]; cbn [mbind result_bind];
    [| intros [= <-]; discriminate | discriminate].
  destruct response as [r |]; [| intros [= <-]; discriminate].
  destruct (content_of r) as [[] | e]; cbn [mbind result_bind]; try discriminate.
  destruct (extract_value_total (strip s)) as (w & Hw & Hn).
  rewrite Hw. intros [= <-]. exact Hn.
Qed.

(** ** Step 2 *)

(** The loop over the KPIs of a car sets the cell of each, and only
    those. *)
Lemma fill_row_spec api car (kpi_list : list string) :
  forall (st st' : filling) (row : gmap string pyval),
    data st !! car = Some row ->
    fill_row api car kpi_list st = Ok st' ->
    exists row',
      data st' = <[car := row']> (data st) /\
      (forall k, k ∈ kpi_list -> exists v, row' !! k = Some v /\ v <> PyNone) /\
      (forall k, k ∉ kpi_list -> row' !! k = row !! k) /\
      calls st' = (calls st + length kpi_list)%nat /\
      prompts st' = prompts st ++ (kpi_prompt car <$> kpi_list).
Proof.
  induction kpi_list as [| kpi rest IH]; intros st st' row Hrow.
  - intros [= <-]. exists row. split; [symmetry; apply insert_id, Hrow |].
    split; [intros k Hk; inversion Hk |]. split; [reflexivity |].
    split; [cbn; lia | rewrite app_nil_r; reflexivity].
  - cbn [fill_row].
    destruct (extract_content _) as [value | e] eqn:Hval; cbn [mbind result_bind];
      [| discriminate].
    rewrite Hrow. intros Hfill.
    apply (IH _ _ (<[kpi := value]> row)) in Hfill;
      [| cbn [data]; apply lookup_insert_eq].
    destruct Hfill as (row' & Hdata & Hin & Hout & Hcalls & Hprompts).
    cbn [data calls prompts] in *.
    exists row'. split; [rewrite Hdata; apply insert_insert_eq |].
    split; [| split; [| split]].
    + intros k Hk. destruct (decide (k ∈ rest)) as [Hr | Hr]; [apply Hin, Hr |].
      apply elem_of_cons in Hk as [-> | Hk]; [| contradiction].
      exists value. rewrite (Hout kpi Hr), lookup_insert_eq.
      split; [reflexivity |]. eapply extract_content_number, Hval.
    + intros k Hk. apply not_elem_of_cons in Hk as [Hne Hr].
      rewrite (Hout k Hr). apply lookup_insert_ne. congruence.
    + rewrite Hcalls. cbn [length]. lia.
    + rewrite Hprompts, fmap_cons, <- app_assoc. reflexivity.
Qed.

Lemma fill_row_total api car (kpi_list : list string) :
  (forall n p, is_Ok (extract_content (api n p))) ->
  forall (st : filling), is_Some (data st !! car) -> is_Ok (fill_row api car kpi_list st).
Proof.
  intros Hapi. induction kpi_list as [| kpi rest IH]; intros st [row Hrow]; [exact I |].
  cbn [fill_row]. specialize (Hapi (calls st) (kpi_prompt car kpi)).
  destruct (extract_content _) as [value |]; [| contradiction].
  cbn [mbind result_bind]. rewrite Hrow. apply IH. cbn [data].
  rewrite lookup_insert_eq. eauto.
Qed.

(** The loop over the cars: a full row for each car of the list, the
    other rows untouched. *)
Lemma fill_spec api (kpi_list car_list : list string) :
  forall st st' : filling,
    fill api car_list kpi_list st = Ok st' ->
    (forall car, car ∉ car_list -> data st' !! car = data st !! car) /\
    (forall car, car ∈ car_list ->
       exists row, data st' !! car = Some row /\
         (forall k, k ∈ kpi_list <-> is_Some (row !! k)) /\
         (forall k v, row !! k = Some v -> v <> PyNone)) /\
    calls st' = (calls st + length car_list * length kpi_list)%nat /\
    prompts st' = prompts st ++ all_prompts car_list kpi_list.
Proof.
  induction car_list as [| car rest IH]; intros st st'.
  - intros [= <-]. split; [reflexivity |]. split; [intros c Hc; inversion Hc |].
    split; [cbn; lia | unfold all_prompts; cbn; rewrite app_nil_r; reflexivity].
  - cbn [fill].
    destruct (fill_row api car kpi_list _) as [st1 |] eqn:Hrow1; cbn [mbind result_bind];
      [| discriminate].
    intros Hfill.
    apply (fill_row_spec _ _ _ _ _ ∅) in Hrow1; [| cbn [data]; apply lookup_insert_eq].
    destruct Hrow1 as (row' & Hdata & Hin & Hout & Hcalls & Hprompts).
    cbn [data calls prompts] in *. rewrite insert_insert_eq in Hdata.
    destruct (IH _ _ Hfill) as (Hother & Hcars & Hcalls' & Hprompts').
    assert (Hcar : exists row, data st1 !! car = Some row /\
               (forall k, k ∈ kpi_list <-> is_Some (row !! k)) /\
               (forall k v, row !! k = Some v -> v <> PyNone)).
    { exists row'. rewrite Hdata, lookup_insert_eq. split; [reflexivity |]. split.
      - intros k. split.
        + intros Hk. destruct (Hin k Hk) as (v & -> & _). eauto.
        + intros Hs. destruct (decide (k ∈ kpi_list)) as [Hk | Hk]; [exact Hk |].
          rewrite (Hout k Hk), lookup_empty in Hs. destruct Hs; discriminate.
      - intros k v Hv. destruct (decide (k ∈ kpi_list)) as [Hk | Hk].
        + destruct (Hin k Hk) as (w & Hw & Hn). congruence.
        + rewrite (Hout k Hk), lookup_empty in Hv. discriminate. }
    split; [| split; [| split]].
    + intros c Hc. apply not_elem_of_cons in Hc as [Hne Hr].
      rewrite (Hother c Hr), Hdata. apply lookup_insert_ne. congruence.
    + intros c Hc. destruct (decide (c ∈ rest)) as [Hr | Hr]; [apply Hcars, Hr |].
      apply elem_of_cons in Hc as [-> | Hc]; [| contradiction].
      rewrite (Hother car Hr). exact Hcar.
    + rewrite Hcalls', Hcalls. cbn [length]. lia.
    + rewrite Hprompts', Hprompts. unfold all_prompts. cbn.
      rewrite <- app_assoc. reflexivity.
Qed.

Lemma fill_total api (kpi_list car_list : list string) :
  (forall n p, is_Ok (extract_content (api n p))) ->
  forall st : filling, is_Ok (fill api car_list kpi_list st).
Proof.
  intros Hapi. induction car_list as [| car rest IH]; intros st; [exact I |].
  cbn [fill].
  pose proof (fill_row_total api car kpi_list Hapi
                {| data := <[car := ∅]> (data st); calls := calls st;
                   prompts := prompts st |}) as Hrow.
  destruct (fill_row api car kpi_list _) as [st1 |].
  - cbn [mbind result_bind]. apply IH.
  - apply Hrow. cbn [data]. rewrite lookup_insert_eq. eauto.
Qed.

(** X3. Step 2 goes through whenever every answer can be read. When it
    does, the matrix has a row for the cars of the list and no other, each
    row a cell for the KPIs of the list and no other, and every cell holds
    a number; one call was made per car and KPI, with the prompts of the
    pairs in the order of the two loops. *)
Theorem step2_filled (api : nat -> string -> option json)
    (car_list kpi_list : list string) :
  ((forall n p, is_Ok (extract_content (api n p))) ->
   is_Ok (step2 api car_list kpi_list)) /\
  (forall st, step2 api car_list kpi_list = Ok st ->
     (forall car, car ∈ car_list <-> is_Some (data st !! car)) /\
     (forall car row, data st !! car = Some row ->
        (forall kpi, kpi ∈ kpi_list <-> is_Some (row !! kpi)) /\
        (forall kpi v, row !! kpi = Some v -> v <> PyNone)) /\
     calls st = (length car_list * length kpi_list)%nat /\
     prompts st = all_prompts car_list kpi_list).
Proof.
  split; [intros Hapi; apply fill_total, Hapi |].
  intros st Hst. apply fill_spec in Hst as (Hother & Hcars & Hcalls & Hprompts).
  cbn [data calls prompts] in *.
  assert (Hdom : forall car, car ∈ car_list <-> is_Some (data st !! car)).
  { intros car. split.
    - intros Hc. destruct (Hcars car Hc) as (row & -> & _). eauto.
    - intros Hs. destruct (decide (car ∈ car_list)) as [Hc | Hc]; [exact Hc |].
      rewrite (Hother car Hc), lookup_empty in Hs. destruct Hs; discriminate. }
  split; [exact Hdom |]. split; [| split; [exact Hcalls | exact Hprompts]].
  intros car row Hrow.
  destruct (Hcars car) as (row' & Hrow' & Hk & Hv); [apply Hdom; eauto |].
  assert (row' = row) as -> by congruence. auto.
Qed.


Lemma step2_filled_witness :
  is_Ok (step2 flaky_api two_cars two_kpis) /\
  (forall st, step2 flaky_api two_cars two_kpis = Ok st ->
     (forall car, car ∈ two_cars <-> is_Some (data st !! car)) /\
     (forall car row, data st !! car = Some row ->
        (forall kpi, kpi ∈ two_kpis <-> is_Some (row !! kpi)) /\
        (forall kpi v, row !! kpi = Some v -> v <> PyNone)) /\
     calls st = (length two_cars * length two_kpis)%nat /\
     prompts st = all_prompts two_cars two_kpis).
Proof.
  split.
  - apply (proj1 (step2_filled flaky_api two_cars two_kpis)).
    intros n p. unfold flaky_api. destruct (Nat.even n); exact I.
  - apply (proj2 (step2_filled flaky_api two_cars two_kpis)).
Defined.

(** ** Steps 2 and 3 together, and the exporter after them *)

Lemma cell_raises_KeyError d car kpi e : cell d car kpi = Raise e -> e = KeyError.
Proof.
  unfold cell. destruct (d !! car) as [row |]; [| congruence].
  destruct (row !! kpi); congruence.
Qed.

Lemma present_values_KeyError d kpi (car_list : list string) car :
  car ∈ car_list -> cell d car kpi = Raise KeyError ->
  present_values d kpi car_list = Raise KeyError.
Proof.
  intros Hin Hcar. induction car_list as [| c rest IH]; [inversion Hin |].
  cbn [present_values].
  destruct (cell d c kpi) as [v | e] eqn:Hc; cbn [mbind result_bind].
  - apply elem_of_cons in Hin as [-> | Hin]; [congruence |].
    rewrite (IH Hin). destruct (decide (v = PyNone)); reflexivity.
  - apply cell_raises_KeyError in Hc. congruence.
Qed.

(** With a car named ["Average"] in the list, the first round of the
    loop of step 3 already fails. *)
Lemma average_loop_reserved_name (car_list : list string) kpi rest
    (d : gmap string (gmap string pyval)) :
  "Average" ∈ car_list ->
  average_loop car_list (kpi :: rest) (<["Average" := ∅]> d) = Raise KeyError.
Proof.
  intros Hin. cbn [average_loop]. unfold average_kpi, average_value.
  rewrite (present_values_KeyError _ kpi car_list "Average" Hin); [reflexivity |].
  unfold cell. rewrite lookup_insert_eq, lookup_empty. reflexivity.
Qed.

(** X4. A car named ["Average"] makes step 3 fail with [KeyError] as
    soon as there is a KPI, whatever the matrix: its row is replaced by
    the empty row of the averages before it is read. *)
Theorem step3_reserved_name (car_list kpi_list : list string)
    (d : gmap string (gmap string pyval)) :
  "Average" ∈ car_list -> kpi_list <> [] ->
  step3 car_list kpi_list d = Raise KeyError.
Proof.
  intros Hin Hk. destruct kpi_list as [| kpi rest]; [contradiction |].
  unfold step3. apply average_loop_reserved_name, Hin.
Qed.

Lemma step3_reserved_name_witness :
  step3 ["Toyota Camry LE"; "Average"] two_kpis
        (<["Average" := camry_row]> example_matrix)
  = Raise KeyError.
Proof.
  apply (step3_reserved_name ["Toyota Camry LE"; "Average"] two_kpis).
  - right. left.
  - discriminate.
Defined.

(** The loop of step 3 leaves the rows of the cars alone. *)
Lemma average_loop_rows (car_list kpi_list : list string) :
  forall d d' : gmap string (gmap string pyval),
    average_loop car_list kpi_list d = Ok d' ->
    forall car, car <> "Average" -> d' !! car = d !! car.
Proof.
  induction kpi_list as [| kpi rest IH]; intros d d'; cbn [average_loop].
  - intros [= <-]. reflexivity.
  - unfold average_kpi.
    destruct (average_value car_list d kpi) as [avg |]; cbn [mbind result_bind];
      [| discriminate].
    destruct (d !! "Average") as [row |]; cbn [mbind result_bind]; [| discriminate].
    intros Hloop car Hne. rewrite (IH _ _ Hloop car Hne).
    apply lookup_insert_ne. congruence.
Qed.

(** Step 3 on a matrix where every cell of the lists holds a value. *)
Lemma step3_all_present (car_list kpi_list : list string)
    (d : gmap string (gmap string pyval)) :
  "Average" ∉ car_list -> car_list <> [] ->
  (forall car kpi, car ∈ car_list -> kpi ∈ kpi_list ->
     exists v, cell d car kpi = Ok v /\ v <> PyNone) ->
  (forall kpi, kpi ∈ kpi_list ->
     length (column d kpi car_list) = length car_list /\
     Forall (fun v => v <> PyNone) (column d kpi car_list) /\
     average_value car_list d kpi = statistics_mean (column d kpi car_list)) /\
  (Forall (fun kpi => is_Ok (statistics_mean (column d kpi car_list))) kpi_list ->
   exists row',
     step3 car_list kpi_list d = Ok (<["Average" := row']> d) /\
     forall kpi, kpi ∈ kpi_list ->
       exists avg, statistics_mean (column d kpi car_list) = Ok avg /\
                   row' !! kpi = Some avg).
Proof.
  intros Hav Hne Hcells.
  assert (Hcol : forall kpi, kpi ∈ kpi_list ->
            length (column d kpi car_list) = length car_list /\
            Forall (fun v => v <> PyNone) (column d kpi car_list) /\
            average_value car_list d kpi = statistics_mean (column d kpi car_list)).
  { intros kpi Hk.
    assert (Hm : mapR (fun car => cell d car kpi) car_list = Ok (column d kpi car_list)).
    { apply cells_column, Forall_forall. intros car Hc.
      destruct (Hcells car kpi Hc Hk) as (v & -> & _). exact I. }
    pose proof Hm as Hf. apply mapR_Ok_Forall2 in Hf.
    assert (Hlen : length (column d kpi car_list) = length car_list).
    { symmetry. eapply Forall2_length, Hf. }
    assert (Hall : Forall (fun v => v <> PyNone) (column d kpi car_list)).
    { apply Forall_forall. intros v Hv.
      apply list_elem_of_lookup in Hv as [i Hi].
      destruct (Forall2_lookup_r _ _ _ _ _ Hf Hi) as (car & Hcar & Hcv).
      destruct (Hcells car kpi) as (w & Hw & Hn);
        [eapply list_elem_of_lookup_2, Hcar | exact Hk |]. congruence. }
    split; [exact Hlen |]. split; [exact Hall |].
    unfold average_value. rewrite (present_values_filter _ _ _ _ Hm).
    cbn [mbind result_bind]. fold (present (column d kpi car_list)).
    rewrite (filter_all_present _ Hall).
    destruct (decide (column d kpi car_list = [])) as [Hnil | _]; [| reflexivity].
    rewrite Hnil in Hlen. destruct car_list; [contradiction | discriminate]. }
  split; [exact Hcol |].
  intros Hmean. unfold step3.
  destruct (average_loop_spec car_list kpi_list Hav d (<["Average" := ∅]> d) ∅)
    as (row' & Hloop & Hrow').
  - intros car Hc. apply lookup_insert_ne. intros Heq. subst car. contradiction.
  - apply lookup_insert_eq.
  - apply Forall_forall. intros kpi Hk. rewrite Forall_forall in Hmean.
    rewrite (proj2 (proj2 (Hcol kpi Hk))). apply Hmean, Hk.
  - exists row'. rewrite Hloop, insert_insert_eq. split; [reflexivity |].
    intros kpi Hk. destruct (proj1 (Hrow' kpi) Hk) as (avg & Havg & Hlook).
    exists avg. rewrite <- (proj2 (proj2 (Hcol kpi Hk))). auto.
Qed.

Lemma step2_cells api (car_list kpi_list : list string) (st : filling) :
  step2 api car_list kpi_list = Ok st ->
  forall car kpi, car ∈ car_list -> kpi ∈ kpi_list ->
    exists v, cell (data st) car kpi = Ok v /\ v <> PyNone.
Proof.
  intros Hst car kpi Hc Hk.
  apply fill_spec in Hst as (_ & Hcars & _).
  destruct (Hcars car Hc) as (row & Hrow & Hkeys & Hnum).
  destruct (proj1 (Hkeys kpi) Hk) as [v Hv].
  exists v. unfold cell. rewrite Hrow, Hv. split; [reflexivity |]. eapply Hnum, Hv.
Qed.

(** X5. After a step 2 that went through, step 3 averages every KPI over
    all the cars of the list: no value is skipped as absent and no average
    is the 0 of an empty column. With no car named ["Average"], a car at
    least, and the means defined, the two steps end with the rows of the
    cars as step 2 left them and, under ["Average"], the arithmetic mean of
    the N values of each KPI. *)
Theorem step2_3_means (api : nat -> string -> option json)
    (car_list kpi_list : list string) (st : filling) :
  step2 api car_list kpi_list = Ok st ->
  "Average" ∉ car_list -> car_list <> [] ->
  Forall (fun kpi => is_Ok (statistics_mean (column (data st) kpi car_list))) kpi_list ->
  exists d',
    step2_3 api car_list kpi_list = Ok d' /\
    (forall car, car <> "Average" -> d' !! car = data st !! car) /\
    forall kpi, kpi ∈ kpi_list ->
      length (column (data st) kpi car_list) = length car_list /\
      Forall (fun v => v <> PyNone) (column (data st) kpi car_list) /\
      exists avg,
        cell d' "Average" kpi = Ok avg /\
        statistics_mean (column (data st) kpi car_list) = Ok avg /\
        forall qs, mapR exact (column (data st) kpi car_list) = Ok (XFin <$> qs) ->
          is_mean_of avg qs.
Proof.
  intros Hst Hav Hne Hmean.
  destruct (step3_all_present car_list kpi_list (data st) Hav Hne
              (step2_cells api car_list kpi_list st Hst)) as [Hcol Hstep].
  destruct (Hstep Hmean) as (row' & Hs3 & Hrow').
  exists (<["Average" := row']> (data st)). split; [| split].
  - unfold step2_3. rewrite Hst. exact Hs3.
  - intros car Hc. apply lookup_insert_ne. congruence.
  - intros kpi Hk. destruct (Hcol kpi Hk) as (Hlen & Hall & _).
    split; [exact Hlen |]. split; [exact Hall |].
    destruct (Hrow' kpi Hk) as (avg & Havg & Hlook).
    exists avg. split; [| split; [exact Havg |]].
    + unfold cell. rewrite lookup_insert_eq, Hlook. reflexivity.
    + intros qs Hqs. eapply statistics_mean_is_mean; eauto.
Qed.


Lemma step2_3_means_witness :
  exists d',
    step2_3 flaky_api two_cars two_kpis = Ok d' /\
    forall kpi, kpi ∈ two_kpis -> exists avg, cell d' "Average" kpi = Ok avg.
Proof.
  pose (st := match step2 flaky_api two_cars two_kpis with
              | Ok st => st
              | Raise _ => {| data := ∅; calls := 0; prompts := [] |}
              end).
  assert (Hst : step2 flaky_api two_cars two_kpis = Ok st)
    by (vm_compute; reflexivity).
  destruct (step2_3_means flaky_api two_cars two_kpis st Hst) as (d' & Hd & _ & Hk).
  - apply (bool_decide_unpack _). vm_compute. exact I.
  - discriminate.
  - constructor; [vm_compute; exact I |].
    constructor; [vm_compute; exact I | constructor].
  - exists d'. split; [exact Hd |]. intros kpi Hin.
    destruct (Hk kpi Hin) as (_ & _ & avg & Hc & _). eauto.
Defined.

Lemma warnings_for_full (row : gmap string pyval) car (kpis : list string) :
  (forall k, k ∈ kpis -> is_Some (row !! k)) -> warnings_for row car kpis = [].
Proof.
  intros H. unfold warnings_for.
  replace (filter (fun kpi => row !! kpi = None) kpis) with (@nil string); [reflexivity |].
  symmetry. induction kpis as [| k rest IH]; [reflexivity |].
  rewrite filter_cons. destruct (decide (row !! k = None)) as [Hn | _].
  - destruct (H k) as [v Hv]; [left | congruence].
  - apply IH. intros k' Hk'. apply H. right. exact Hk'.
Qed.

(** With a full row for every car the exporter's loop logs nothing. *)
Lemma check_cars_full (values : gmap string (gmap string pyval)) (kpis cars : list string) :
  (forall car, car ∈ cars ->
     exists row, values !! car = Some row /\ forall k, k ∈ kpis -> is_Some (row !! k)) ->
  check_cars values (JStr <$> kpis) (JStr <$> cars) = Ok ([], true).
Proof.
  induction cars as [| car rest IH]; intros H; [reflexivity |].
  rewrite fmap_cons. cbn [check_cars key_lookup mbind result_bind].
  destruct (H car) as (row & Hrow & Hfull); [left |].
  rewrite Hrow, check_kpis_strings, (warnings_for_full row car kpis Hfull).
  rewrite IH; [reflexivity |]. intros c Hc. apply H. right. exact Hc.
Qed.

(** A catalog that step 1 loads is an object with the KPI list and a car
    list of length 20. *)
Lemma load_catalog_Ok fs kpi_list car_list :
  load_catalog fs = Ok (kpi_list, car_list) ->
  exists fields,
    fs !! input_filename = Some (Doc (JObj fields)) /\
    jget "top_5_KPIs" fields = Some kpi_list /\
    selected_car_list fields = Some car_list /\
    len car_list = Ok 20%nat.
Proof.
  intros H.
  destruct (fs !! input_filename) as [[| | | d] |] eqn:Hf;
    try (unfold load_catalog, json_load in H; rewrite Hf in H; discriminate).
  destruct d as [| | | | | | fields];
    try (unfold load_catalog, json_load in H; rewrite Hf in H; discriminate).
  rewrite (load_catalog_object fs fields Hf) in H.
  exists fields. split; [reflexivity |].
  destruct (jget "top_5_KPIs" fields) as [k |]; [| discriminate].
  destruct (selected_car_list fields) as [c |]; [| discriminate].
  destruct (len c) as [n |] eqn:Hl; cbn [mbind result_bind] in H; [| discriminate].
  destruct (Nat.eqb n 20) eqn:Hn; cbn [negb] in H; [| discriminate].
  apply Nat.eqb_eq in Hn. injection H as -> ->. subst n. auto.
Qed.

(** The catalog file of a run of step 1 that goes on. *)
Lemma step1_catalog api draws fs kpi_list car_list :
  out (step1 api draws fs) = Continue kpi_list car_list ->
  exists fields,
    files (step1 api draws fs) !! input_filename = Some (Doc (JObj fields)) /\
    jget "top_5_KPIs" fields = Some kpi_list /\
    selected_car_list fields = Some car_list /\
    len car_list = Ok 20%nat.
Proof.
  unfold step1. destruct (load_catalog fs) as [[k c] | e] eqn:Hload.
  - cbn [out files]. intros [= <- <-]. apply load_catalog_Ok, Hload.
  - destruct (decide (e ∈ [FileNotFoundError; JSONDecodeError; KeyError]));
      [| discriminate].
    destruct (regenerate_cases api draws fs)
      as [(k & c & _ & Hc & ->) | (o & Ho & ->)]; cbn [out files].
    + intros [= <- <-].
      exists [("top_cars_US_2024", str_list c); ("top_5_KPIs", str_list k)].
      split; [apply lookup_insert_eq |]. split; [reflexivity |].
      split; [reflexivity |]. cbn [str_list len]. rewrite length_fmap, Hc. reflexivity.
    + intros Heq. exfalso. eapply Ho, Heq.
Qed.

Lemma average_loop_keeps_Average (car_list kpi_list : list string) :
  forall d1 d2 : gmap string (gmap string pyval),
    average_loop car_list kpi_list d1 = Ok d2 ->
    is_Some (d1 !! "Average") -> is_Some (d2 !! "Average").
Proof.
  induction kpi_list as [| kpi rest IH]; intros d1 d2; cbn [average_loop].
  - intros [= <-]. auto.
  - unfold average_kpi.
    destruct (average_value car_list d1 kpi); cbn [mbind result_bind];
      [| discriminate].
    destruct (d1 !! "Average"); cbn [mbind result_bind]; [| discriminate].
    intros Hl _. eapply IH; [exact Hl |]. rewrite lookup_insert_eq. eauto.
Qed.

(** X6. After a run of the collector that goes through (step 1 goes on
    with two lists of names, steps 2 and 3 succeed), the exporter, given
    the catalog file as step 1 left it and the matrix of steps 2 and 3:
    accepts them without a single warning when the catalog has its cars
    under ["top_cars_US_2024"] and a KPI at least; refuses them, [main]
    returning 1, when the catalog, which step 1 loads and does not write
    again, has its cars under the former key only, or has no KPI. *)
Theorem collector_then_exporter (api1 : string -> option json) (draws : list nat)
    (fs : gmap string file_content) (api2 : nat -> string -> option json)
    (car_list kpi_list : list string) (d' : gmap string (gmap string pyval)) :
  out (step1 api1 draws fs) = Continue (str_list kpi_list) (str_list car_list) ->
  step2_3 api2 car_list kpi_list = Ok d' ->
  exists kpi_data,
    files (step1 api1 draws fs) !! input_filename = Some (Doc (JObj kpi_data)) /\
    jget "top_5_KPIs" kpi_data = Some (str_list kpi_list) /\
    selected_car_list kpi_data = Some (str_list car_list) /\
    length car_list = 20%nat /\
    (jget "top_cars_US_2024" kpi_data = None ->
     validate_json_data kpi_data d' = Ok ([(ERROR, MissingRequiredKeys)], false) /\
     main (Some kpi_data) (Some d')
     = Ok ([(ERROR, MissingRequiredKeys); (ERROR, ValidationFailed)], Return 1)) /\
    (is_Some (jget "top_cars_US_2024" kpi_data) -> kpi_list = [] ->
     validate_json_data kpi_data d' = Ok ([(ERROR, KpiListEmptyOrNotList)], false) /\
     main (Some kpi_data) (Some d')
     = Ok ([(ERROR, KpiListEmptyOrNotList); (ERROR, ValidationFailed)], Return 1)) /\
    (is_Some (jget "top_cars_US_2024" kpi_data) -> kpi_list <> [] ->
     validate_json_data kpi_data d' = Ok ([(INFO, ValidationPassed)], true) /\
     main (Some kpi_data) (Some d')
     = Ok ([(INFO, ValidationPassed)], ReachesStep3 kpi_data d')).
Proof.
  intros Hout Hrun.
  destruct (step1_catalog api1 draws fs _ _ Hout) as (kpi_data & Hfile & Hk & Hsel & Hlen).
  cbn [str_list len] in Hlen. rewrite length_fmap in Hlen. injection Hlen as Hlen.
  exists kpi_data. split; [exact Hfile |]. split; [exact Hk |].
  split; [exact Hsel |]. split; [exact Hlen |].
  assert (Hc : car_list <> []) by (intros ->; discriminate).
  assert (Htruthy : truthy (JObj kpi_data) = true)
    by (eapply jget_Some_truthy, Hk).
  unfold step2_3 in Hrun.
  destruct (step2 api2 car_list kpi_list) as [st |] eqn:Hst; [| discriminate].
  cbn [mbind result_bind] in Hrun.
  assert (Hnonempty : bool_decide (d' = ∅) = false).
  { apply bool_decide_eq_false. intros ->. unfold step3 in Hrun.
    apply average_loop_keeps_Average in Hrun as [row Hrow];
      [| rewrite lookup_insert_eq; eauto].
    rewrite lookup_empty in Hrow. discriminate. }
  assert (Hmain : forall records,
            validate_json_data kpi_data d' = Ok (records, false) ->
            main (Some kpi_data) (Some d')
            = Ok (records ++ [(ERROR, ValidationFailed)], Return 1)).
  { intros records Hv. unfold main. rewrite Htruthy, Hnonempty. cbn [negb orb].
    rewrite Hv. reflexivity. }
  split; [| split].
  - intros Hnone.
    assert (Hv : validate_json_data kpi_data d' = Ok ([(ERROR, MissingRequiredKeys)], false)).
    { unfold validate_json_data. rewrite Hk, Hnone. reflexivity. }
    split; [exact Hv |]. apply (Hmain _ Hv).
  - intros [c Hcars] ->.
    assert (Hv : validate_json_data kpi_data d'
                 = Ok ([(ERROR, KpiListEmptyOrNotList)], false)).
    { unfold validate_json_data. rewrite Hk, Hcars. reflexivity. }
    split; [exact Hv |]. apply (Hmain _ Hv).
  - intros [c Hcars] Hkne.
    assert (c = str_list car_list) as ->.
    { unfold selected_car_list in Hsel. rewrite Hcars in Hsel. congruence. }
    assert (Hav : "Average" ∉ car_list).
    { intros Hin. destruct kpi_list as [| kpi rest]; [contradiction |].
      unfold step3 in Hrun. rewrite (average_loop_reserved_name _ _ _ _ Hin) in Hrun.
      discriminate. }
    assert (Hrows : forall car, car ∈ car_list ->
              exists row, d' !! car = Some row /\
                          forall k, k ∈ kpi_list -> is_Some (row !! k)).
    { intros car Hin. unfold step3 in Hrun.
      rewrite (average_loop_rows _ _ _ _ Hrun car) by (intros ->; contradiction).
      rewrite lookup_insert_ne by (intros <-; contradiction).
      apply fill_spec in Hst as (_ & Hcars' & _).
      destruct (Hcars' car Hin) as (row & Hrow & Hkeys & _).
      exists row. split; [exact Hrow |]. intros k Hin'. apply Hkeys, Hin'. }
    assert (Hv : validate_json_data kpi_data d' = Ok ([(INFO, ValidationPassed)], true)).
    { unfold validate_json_data. rewrite Hk, Hcars. unfold str_list.
      destruct kpi_list as [| k kpis']; [contradiction |].
      destruct car_list as [| c cars']; [contradiction |].
      pose proof (check_cars_full d' (k :: kpis') (c :: cars') Hrows) as Hcheck.
      rewrite !fmap_cons in Hcheck. rewrite !fmap_cons. cbv beta iota.
      rewrite Hcheck. reflexivity. }
    split; [exact Hv |].
    unfold main. rewrite Htruthy, Hnonempty. cbn [negb orb]. rewrite Hv. reflexivity.
Qed.

Lemma collector_then_exporter_witness :
  exists d' kpi_data,
    step2_3 flaky_api twenty_cars five_kpis = Ok d' /\
    good_files !! input_filename = Some (Doc (JObj kpi_data)) /\
    validate_json_data kpi_data d' = Ok ([(INFO, ValidationPassed)], true).
Proof.
  assert (Hok : is_Ok (step2_3 flaky_api twenty_cars five_kpis))
    by (vm_compute; exact I).
  destruct (step2_3 flaky_api twenty_cars five_kpis) as [d' |] eqn:Hrun;
    [| contradiction].
  destruct (collector_then_exporter (fun _ => None) [] good_files flaky_api
              twenty_cars five_kpis d') as (kpi_data & Hfile & _ & _ & _ & _ & _ & Hpass).
  - reflexivity.
  - exact Hrun.
  - assert (Hs : files (step1 (fun _ => None) [] good_files) = good_files)
      by reflexivity.
    rewrite Hs in Hfile.
    exists d', kpi_data. split; [reflexivity |]. split; [exact Hfile |].
    apply Hpass; [| discriminate].
    assert (Hg : good_files !! input_filename
                 = Some (Doc (catalog five_kpis twenty_cars))) by reflexivity.
    rewrite Hg in Hfile. injection Hfile as <-. eexists. reflexivity.
Defined.

(** ** The exporter's table *)

Lemma dict_set_fresh {V} (k : string) (v : V) (d : list (string * V)) :
  k ∉ d.*1 -> dict_set k v d = d ++ [(k, v)].
Proof.
  induction d as [| [k' v'] rest IH]; intros Hk; [reflexivity |].
  cbn [dict_set]. rewrite fmap_cons in Hk. apply not_elem_of_cons in Hk as [Hne Hr].
  destruct (decide (k' = k)) as [-> | _]; [contradiction |].
  cbn. rewrite IH by exact Hr. reflexivity.
Qed.

Lemma dict_set_Forall {V} (P : string * V -> Prop) k v d :
  P (k, v) -> Forall P d -> Forall P (dict_set k v d).
Proof.
  intros Hkv. induction 1 as [| [k' v'] rest Hx Hrest IH]; cbn [dict_set].
  - repeat constructor. exact Hkv.
  - destruct (decide (k' = k)); constructor; auto.
Qed.

Lemma add_columns_spec cars values averages (kpis : list string) :
  (forall kpi, kpi ∈ kpis ->
     is_Ok (kpi_values values kpi cars) /\ is_Some (averages !! kpi)) ->
  forall t : list (string * list cellv),
    Forall (fun col => length col.2 = S (length cars)) t ->
    exists t',
      add_columns cars kpis values averages t = Ok t' /\
      Forall (fun col => length col.2 = S (length cars)) t' /\
      (NoDup kpis -> (forall kpi, kpi ∈ kpis -> kpi ∉ t.*1) ->
       exists cols, t' = t ++ cols /\
                    Forall2 (column_of cars values averages) kpis cols).
Proof.
  induction kpis as [| kpi rest IH]; intros Hk t Ht.
  - exists t. split; [reflexivity |]. split; [exact Ht |].
    intros _ _. exists []. rewrite app_nil_r. split; [reflexivity | constructor].
  - destruct (Hk kpi) as [Hv [avg Havg]]; [left |].
    apply is_Ok_inv in Hv as [vs Hvs].
    assert (Hcol : kpi_column cars kpi values averages = Ok (CVal <$> (vs ++ [avg]))).
    { unfold kpi_column. rewrite Hvs. cbn [mbind result_bind]. rewrite Havg. reflexivity. }
    cbn [add_columns]. rewrite Hcol. cbn [mbind result_bind].
    assert (Hlen : length (CVal <$> (vs ++ [avg])) = S (length cars)).
    { rewrite length_fmap, length_app, (kpi_values_length _ _ _ _ Hvs). cbn. lia. }
    destruct (IH (fun k Hin => Hk k (list_elem_of_further _ _ _ Hin))
                 (dict_set kpi (CVal <$> (vs ++ [avg])) t))
      as (t' & Hadd & Hrect & Hnames).
    { apply dict_set_Forall; [exact Hlen | exact Ht]. }
    exists t'. split; [exact Hadd |]. split; [exact Hrect |].
    intros Hnd Hfresh. apply NoDup_cons in Hnd as [Hnotin Hnd].
    rewrite dict_set_fresh in Hnames by (apply Hfresh; left).
    destruct (Hnames Hnd) as (cols & -> & Hcols).
    { intros k Hin. rewrite fmap_app. intros Hmem.
      apply elem_of_app in Hmem as [Hmem | Hmem].
      - apply (Hfresh k); [right; exact Hin | exact Hmem].
      - cbn in Hmem. apply list_elem_of_singleton in Hmem. subst k. contradiction. }
    exists ((kpi, CVal <$> (vs ++ [avg])) :: cols).
    rewrite <- app_assoc. split; [reflexivity |].
    constructor; [| exact Hcols].
    split; [reflexivity |]. exists vs, avg. auto.
Qed.

Lemma DataFrame_rectangular (t : list (string * list cellv)) (n : nat) :
  t <> [] -> Forall (fun col => length col.2 = n) t ->
  DataFrame t = Ok {| frame_columns := t.*1; frame_rows := n |}.
Proof.
  intros Hne H. destruct t as [| [name first] rest]; [contradiction |].
  apply Forall_cons in H as [Hf Hr]. cbn [DataFrame snd] in *.
  replace (forallb _ rest) with true; [rewrite Hf; reflexivity |].
  symmetry. apply forallb_forall. intros col Hin.
  rewrite Forall_forall in Hr. apply Nat.eqb_eq.
  rewrite (Hr col) by (apply list_elem_of_In; exact Hin). symmetry. exact Hf.
Qed.

Lemma add_columns_nonempty cars values averages (kpis : list string) :
  forall t t' : list (string * list cellv),
    t <> [] -> add_columns cars kpis values averages t = Ok t' -> t' <> [].
Proof.
  induction kpis as [| kpi rest IH]; intros t t' Hne; cbn [add_columns].
  - intros [= <-]. exact Hne.
  - destruct (kpi_column cars kpi values averages) as [col |];
      cbn [mbind result_bind]; [| discriminate].
    apply IH. destruct t as [| [k v] t0]; [contradiction |].
    cbn [dict_set]. destruct (decide (k = kpi)); discriminate.
Qed.

(** X7. With the averages that [calculate_averages] returned on the
    same arguments, [create_dataframe] never fails: the dict it hands to
    pandas is rectangular, every column counting one cell per car and one
    more, so the frame has that many rows and the columns of the dict.
    When the KPIs are all different and none is named ["Car"], the dict
    is the column of the car names, closed by ["Average"], followed by one
    column per KPI in order: the values of the cars, 0 for a KPI a row
    lacks, closed by the average that was computed from those very
    values. *)
Theorem create_dataframe_table (cars kpis : list string)
    (values : gmap string (gmap string pyval)) (averages : gmap string pyval) :
  calculate_averages cars kpis values = Ok averages ->
  exists t df,
    table_data cars kpis values averages = Ok t /\
    create_dataframe cars kpis values averages = Ok df /\
    report_table cars kpis values = Ok df /\
    Forall (fun col => length col.2 = S (length cars)) t /\
    frame_rows df = S (length cars) /\
    frame_columns df = t.*1 /\
    (NoDup kpis -> "Car" ∉ kpis ->
     frame_columns df = "Car" :: kpis /\
     exists cols,
       t = ("Car", CStr <$> (cars ++ ["Average"])) :: cols /\
       Forall2 (fun kpi col =>
                  col.1 = kpi /\
                  exists vs avg,
                    kpi_values values kpi cars = Ok vs /\
                    average_of vs = Ok avg /\
                    col.2 = CVal <$> (vs ++ [avg]))
               kpis cols).
Proof.
  intros Hav.
  pose proof (calculate_averages_keys cars kpis values averages Hav) as Hkeys.
  destruct (add_columns_spec cars values averages kpis) with
    (t := [("Car", CStr <$> (cars ++ ["Average"]))]) as (t & Hadd & Hrect & Hnames).
  { intros kpi Hk. destruct (Hkeys kpi Hk) as (vs & avg & -> & _ & ->).
    split; [exact I | eauto]. }
  { repeat constructor. cbn. rewrite length_fmap, length_app. cbn. lia. }
  assert (Hne : t <> []).
  { eapply add_columns_nonempty; [| exact Hadd]. discriminate. }
  assert (Hdf : create_dataframe cars kpis values averages
                = Ok {| frame_columns := t.*1; frame_rows := S (length cars) |}).
  { unfold create_dataframe, table_data. rewrite Hadd. cbn [mbind result_bind].
    apply DataFrame_rectangular; assumption. }
  exists t, {| frame_columns := t.*1; frame_rows := S (length cars) |}.
  split; [exact Hadd |]. split; [exact Hdf |].
  split; [unfold report_table; rewrite Hav; exact Hdf |].
  split; [exact Hrect |]. split; [reflexivity |]. split; [reflexivity |].
  intros Hnd Hcar. destruct (Hnames Hnd) as (cols & -> & Hcols).
  { intros kpi Hk Hin. cbn in Hin. apply list_elem_of_singleton in Hin.
    subst kpi. contradiction. }
  assert (Hall : Forall2 (fun kpi col =>
                  col.1 = kpi /\
                  exists vs avg,
                    kpi_values values kpi cars = Ok vs /\
                    average_of vs = Ok avg /\
                    col.2 = CVal <$> (vs ++ [avg])) kpis cols).
  { apply Forall2_same_length_lookup in Hcols as [Hlen Hcols].
    apply Forall2_same_length_lookup. split; [exact Hlen |].
    intros i kpi col Hi Hci.
    destruct (Hcols i kpi col Hi Hci) as [Hname (vs & avg & Hvs & Havg & Hcol)].
    split; [exact Hname |]. exists vs, avg. split; [exact Hvs |]. split; [| exact Hcol].
    destruct (Hkeys kpi) as (vs' & avg' & Hvs' & Hmean & Havg');
      [eapply list_elem_of_lookup_2, Hi |].
    congruence. }
  split; [| exists cols; split; [reflexivity | exact Hall]].
  cbn [frame_columns]. change ("Car" :: cols.*1 = "Car" :: kpis). f_equal.
  clear -Hall. induction Hall as [| kpi col kpis cols [Hc _] _ IH]; [reflexivity |].
  cbn [fmap list_fmap]. rewrite Hc, IH. reflexivity.
Qed.

Lemma create_dataframe_table_witness :
  exists df,
    report_table two_cars two_kpis gap_values = Ok df /\
    frame_rows df = 3%nat /\
    frame_columns df = ["Car"; "Horsepower"; "Range (miles)"].
Proof.
  assert (Hok : is_Ok (calculate_averages two_cars two_kpis gap_values))
    by (vm_compute; exact I).
  destruct (calculate_averages two_cars two_kpis gap_values) as [averages |] eqn:Hav;
    [| contradiction].
  destruct (create_dataframe_table two_cars two_kpis gap_values averages Hav)
    as (t & df & _ & _ & Hdf & _ & Hrows & _ & Hcols).
  exists df. split; [exact Hdf |]. split; [exact Hrows |].
  apply Hcols; apply (bool_decide_unpack _); vm_compute; exact I.
Defined.

(** ** The averages on an empty list of cars and on a missing row *)

Lemma kpi_values_missing values kpi (cars : list string) car :
  car ∈ cars -> values !! car = None ->
  kpi_values values kpi cars = Raise KeyError.
Proof.
  unfold kpi_values. intros Hin Hnone.
  induction cars as [| c rest IH]; [inversion Hin |].
  cbn [mapR].
  destruct (cell_or_zero values kpi c) as [v | e] eqn:Hc; cbn [mbind result_bind].
  - apply elem_of_cons in Hin as [-> | Hin].
    + unfold cell_or_zero in Hc. rewrite Hnone in Hc. discriminate.
    + rewrite (IH Hin). reflexivity.
  - unfold cell_or_zero in Hc. destruct (values !! c); congruence.
Qed.

(** X8. On an empty list of cars [calculate_averages] does not divide:
    every KPI gets the int 0, whatever the matrix. With a KPI to average
    and a car that has no row it raises [KeyError]; so does
    [create_dataframe]. *)
Theorem calculate_averages_edges (kpis : list string)
    (values : gmap string (gmap string pyval)) :
  (exists averages,
     calculate_averages [] kpis values = Ok averages /\
     forall kpi, averages !! kpi = if decide (kpi ∈ kpis) then Some (PyInt 0) else None) /\
  (forall cars car averages,
     kpis <> [] -> car ∈ cars -> values !! car = None ->
     calculate_averages cars kpis values = Raise KeyError /\
     create_dataframe cars kpis values averages = Raise KeyError).
Proof.
  split.
  - pose proof (averages_loop_spec [] kpis values (fun _ => Ok (PyInt 0))
                  (fun _ => eq_refl) ∅) as [Htot _].
    destruct Htot as (averages & Hloop & Hav).
    { apply Forall_forall. intros kpi _. exact I. }
    exists averages. split; [exact Hloop |].
    intros kpi. destruct (decide (kpi ∈ kpis)) as [Hk | Hk].
    + destruct (proj1 (Hav kpi) Hk) as (r & [= <-] & Hr). exact Hr.
    + rewrite (proj2 (Hav kpi) Hk). apply lookup_empty.
  - intros cars car averages Hk Hin Hnone.
    destruct kpis as [| kpi rest]; [contradiction |].
    pose proof (kpi_values_missing values kpi cars car Hin Hnone) as Hv.
    split.
    + unfold calculate_averages. cbn [averages_loop]. rewrite Hv. reflexivity.
    + unfold create_dataframe, table_data. cbn [add_columns]. unfold kpi_column.
      rewrite Hv. reflexivity.
Qed.

Lemma calculate_averages_edges_witness :
  calculate_averages two_cars two_kpis tesla_only = Raise KeyError.
Proof.
  apply (proj2 (calculate_averages_edges two_kpis tesla_only)
           two_cars "Toyota Camry LE" ∅).
  - discriminate.
  - left.
  - reflexivity.
Defined.

(** ** The validation of a malformed catalog *)

(** X9. The validation refuses, with one error in the log, a catalog
    that lacks one of the two keys, then one whose KPI list is not a list
    or is empty, then one whose car list is not a list or is empty, in
    this order; and whenever the validation refuses, [main] returns 1. *)
Theorem validate_rejects_catalog (kpi_data : list (string * json))
    (values : gmap string (gmap string pyval)) :
  (jget "top_5_KPIs" kpi_data = None \/ jget "top_cars_US_2024" kpi_data = None ->
   validate_json_data kpi_data values = Ok ([(ERROR, MissingRequiredKeys)], false)) /\
  (forall kpis cars,
     jget "top_5_KPIs" kpi_data = Some kpis ->
     jget "top_cars_US_2024" kpi_data = Some cars ->
     (is_list kpis = false \/ kpis = JArr [] ->
      validate_json_data kpi_data values = Ok ([(ERROR, KpiListEmptyOrNotList)], false)) /\
     (forall k ks, kpis = JArr (k :: ks) ->
        is_list cars = false \/ cars = JArr [] ->
        validate_json_data kpi_data values
        = Ok ([(ERROR, CarListEmptyOrNotList)], false))) /\
  (forall records,
     validate_json_data kpi_data values = Ok (records, false) ->
     exists records',
       main (Some kpi_data) (Some values) = Ok (records', Return 1)).
Proof.
  split; [| split].
  - unfold validate_json_data. intros [-> | Hc]; [reflexivity |].
    rewrite Hc. destruct (jget "top_5_KPIs" kpi_data); reflexivity.
  - intros kpis cars Hk Hc. unfold validate_json_data. rewrite Hk, Hc. split.
    + intros [Hl | ->]; [| reflexivity]. destruct kpis; try reflexivity. discriminate.
    + intros k ks -> [Hl | ->]; [| reflexivity]. destruct cars; try reflexivity.
      discriminate.
  - intros records Hv. unfold main.
    destruct (negb (truthy (JObj kpi_data)) || bool_decide (values = ∅));
      [eexists; reflexivity |].
    rewrite Hv. eexists. reflexivity.
Qed.

Lemma validate_rejects_catalog_witness :
  validate_json_data [("top_5_KPIs", str_list two_kpis); ("top_cars_US_2024", JArr [])]
                     gap_values
  = Ok ([(ERROR, CarListEmptyOrNotList)], false).
Proof.
  apply (proj2 (proj1 (proj2 (validate_rejects_catalog
                  [("top_5_KPIs", str_list two_kpis); ("top_cars_US_2024", JArr [])]
                  gap_values))
                  (str_list two_kpis) (JArr []) eq_refl eq_refl)
           (JStr "Horsepower") [JStr "Range (miles)"] eq_refl).
  right. reflexivity.
Defined.

(** ** Sheet names *)

Lemma substring_prefix_length (n : nat) (s : string) :
  (String.length (String.substring 0 n s) <= n)%nat.
Proof.
  revert s. induction n as [| n IH]; intros s; destruct s as [| c r]; cbn; try lia.
  specialize (IH r). lia.
Qed.

Lemma substring_prefix_short (n : nat) (s : string) :
  (String.length s <= n)%nat -> String.substring 0 n s = s.
Proof.
  revert s. induction n as [| n IH]; intros s; destruct s as [| c r]; cbn;
    try reflexivity; try lia.
  intros H. rewrite IH by lia. reflexivity.
Qed.

Lemma substring_prefix_Forall (P : ascii -> Prop) (n : nat) (s : string) :
  Forall P (list_ascii_of_string s) ->
  Forall P (list_ascii_of_string (String.substring 0 n s)).
Proof.
  revert s. induction n as [| n IH]; intros s H; destruct s as [| c r]; cbn;
    try constructor.
  - inversion H; assumption.
  - apply IH. inversion H; assumption.
Qed.

Lemma replace_char_no_space (s : string) : no_space (replace_char " " "_" s).
Proof.
  unfold no_space. induction s as [| c r IH]; cbn; constructor; [| exact IH].
  destruct (Ascii.eqb c " ") eqn:Hc; [discriminate |].
  intros ->. rewrite Ascii.eqb_refl in Hc. discriminate.
Qed.

Lemma replace_char_id (s : string) : no_space s -> replace_char " " "_" s = s.
Proof.
  unfold no_space. induction s as [| c r IH]; cbn; [reflexivity |].
  intros H. inversion H as [| ? ? Hc Hr]; subst.
  rewrite (IH Hr). destruct (Ascii.eqb c " ") eqn:Heq; [| reflexivity].
  apply Ascii.eqb_eq in Heq. contradiction.
Qed.

Lemma replace_char_app (a b : ascii) (s t : string) :
  replace_char a b (String.append s t)
  = String.append (replace_char a b s) (replace_char a b t).
Proof.
  induction s as [| c r IH]; [reflexivity |].
  change (String.append (String c r) t) with (String c (String.append r t)).
  cbn [replace_char]. rewrite IH. reflexivity.
Qed.

Lemma replace_char_length (a b : ascii) (s : string) :
  String.length (replace_char a b s) = String.length s.
Proof.
  induction s as [| c r IH]; cbn; [reflexivity |]. rewrite IH. reflexivity.
Qed.

Lemma substring_prefix_app (n : nat) (s t : string) :
  (n <= String.length s)%nat ->
  String.substring 0 n (String.append s t) = String.substring 0 n s.
Proof.
  revert s. induction n as [| n IH]; intros s H; destruct s as [| c r];
    cbn [String.length] in H; try lia.
  - destruct t; reflexivity.
  - reflexivity.
  - change (String.append (String c r) t) with (String c (String.append r t)).
    cbn [String.substring]. rewrite IH by lia. reflexivity.
Qed.

(** X10. The name of the sheet of a KPI has 31 characters at most and
    no space, so it is never ["Car KPIs"], the name of the data sheet. A
    KPI of 31 characters at most without a space names its own sheet.
    Different KPIs can share a sheet: a KPI and the same with underscores
    for its spaces do, and so do a KPI of 31 characters or more and any
    longer KPI that starts with it. *)
Theorem sheet_name_properties (kpi : string) :
  (String.length (sheet_name kpi) <= 31)%nat /\
  no_space (sheet_name kpi) /\
  sheet_name kpi <> MAIN_SHEET_NAME /\
  ((String.length kpi <= 31)%nat -> no_space kpi -> sheet_name kpi = kpi) /\
  sheet_name (replace_char " " "_" kpi) = sheet_name kpi /\
  (forall more, (31 <= String.length kpi)%nat ->
     sheet_name (String.append kpi more) = sheet_name kpi).
Proof.
  assert (Hlen : (String.length (sheet_name kpi) <= 31)%nat)
    by apply substring_prefix_length.
  assert (Hns : no_space (sheet_name kpi))
    by apply substring_prefix_Forall, replace_char_no_space.
  split; [exact Hlen |]. split; [exact Hns |]. split; [| split; [| split]].
  - intros Heq. rewrite Heq in Hns. unfold no_space, MAIN_SHEET_NAME in Hns.
    cbn in Hns. repeat (apply Forall_cons in Hns as [? Hns]). congruence.
  - intros Hl Hs. unfold sheet_name.
    rewrite (replace_char_id kpi Hs). apply substring_prefix_short, Hl.
  - unfold sheet_name.
    rewrite (replace_char_id (replace_char " " "_" kpi)); [reflexivity |].
    apply replace_char_no_space.
  - intros more Hl. unfold sheet_name. rewrite replace_char_app.
    apply substring_prefix_app. rewrite replace_char_length. exact Hl.
Qed.

Lemma sheet_name_properties_witness :
  sheet_name "Horsepower" = "Horsepower" /\
  sheet_name "Cost Over Ownership, five years and more"
  = sheet_name "Cost Over Ownership, five years".
Proof.
  split.
  - apply (proj1 (proj2 (proj2 (proj2 (sheet_name_properties "Horsepower"))))).
    + cbn. lia.
    + repeat constructor; discriminate.
  - apply (proj2 (proj2 (proj2 (proj2 (proj2
             (sheet_name_properties "Cost Over Ownership, five years")))))
             " and more").
    cbn. lia.
Defined.

(** ** The layout of the dashboard sheet *)

Lemma div2_mod2 (i : Z) : i = 2 * (i / 2) + i mod 2 /\ 0 <= i mod 2 < 2.
Proof.
  split; [apply Z.div_mod; lia | apply Z.mod_pos_bound; lia].
Qed.

(** X11. On the dashboard sheet the small charts of different KPIs are
    anchored at different cells, in column 1 or 17, from row 4 down; the
    summary line lies at least 14 rows under every anchor, and the links
    follow it, one row each. Without any KPI the summary is on row 6. *)
Theorem dashboard_layout (n i j : Z) :
  0 <= i < n -> 0 <= j < n ->
  (col_pos i = 1 \/ col_pos i = 17) /\
  4 <= row_pos i /\
  row_pos i + 14 <= summary_row n /\
  ((col_pos i, row_pos i) = (col_pos j, row_pos j) -> i = j) /\
  summary_row n < link_row n + 1 + i /\
  (link_row n + 1 + i = link_row n + 1 + j -> i = j) /\
  summary_row 0 = 6.
Proof.
  intros Hi Hj.
  unfold col_pos, row_pos, summary_row, link_row, summary_row,
    charts_per_row, chart_height, chart_width.
  destruct (div2_mod2 i) as [Hdi Hmi]. destruct (div2_mod2 j) as [Hdj Hmj].
  destruct (div2_mod2 (n - 1)) as [Hdn Hmn].
  split; [| split; [| split; [| split; [| split; [| split]]]]].
  - assert (i mod 2 = 0 \/ i mod 2 = 1) as [-> | ->] by lia; [left | right];
      reflexivity.
  - lia.
  - lia.
  - intros [= Hc Hr]. lia.
  - lia.
  - lia.
  - reflexivity.
Qed.

Lemma dashboard_layout_witness :
  (col_pos 4 = 1 \/ col_pos 4 = 17) /\
  4 <= row_pos 4 /\
  row_pos 4 + 14 <= summary_row 5 /\
  ((col_pos 4, row_pos 4) = (col_pos 2, row_pos 2) -> 4 = 2) /\
  summary_row 5 < link_row 5 + 1 + 4 /\
  (link_row 5 + 1 + 4 = link_row 5 + 1 + 2 -> 4 = 2) /\
  summary_row 0 = 6.
Proof. apply (dashboard_layout 5 4 2); lia. Defined.

(** ** Which cells the charts read *)

Lemma find_kpi_col_lookup (header : list string) (kpi : string) :
  NoDup header ->
  forall (k : nat) (col : Z),
    header !! k = Some kpi -> find_kpi_col header kpi col = Some (col + Z.of_nat k).
Proof.
  induction 1 as [| h rest Hnotin Hnd IH]; intros k col Hk; [discriminate |].
  cbn [find_kpi_col]. destruct k as [| k]; cbn in Hk.
  - injection Hk as ->. destruct (decide (kpi = kpi)); [| contradiction].
    f_equal. lia.
  - destruct (decide (h = kpi)) as [-> | _].
    + exfalso. apply Hnotin. eapply list_elem_of_lookup_2, Hk.
    + rewrite (IH k (col + 1) Hk). f_equal. lia.
Qed.

(** X12. With KPIs all different, none named ["Car"], on a data sheet
    whose header is ["Car"] and the KPIs, the chart that
    [create_excel_charts] builds for the KPI at index [k] and the small
    chart that [create_dashboard] builds for it both read column [k + 2],
    the column of that KPI, from row 2 down, with the names of column 1;
    the first, as [main] asks for it, goes to the last row of the data
    sheet, one row further than the small chart. Both take their colour
    from the list of colours. *)
Theorem charts_read_kpi_column (kpis : list string) (ws_max_row : Z)
    (k : nat) (kpi : string) :
  NoDup kpis -> "Car" ∉ kpis -> kpis !! k = Some kpi ->
  exists heading detail mini,
    detail_charts ws_max_row true kpis !! k = Some (heading, detail) /\
    mini_charts ("Car" :: kpis) ws_max_row kpis !! k
    = Some (Some (col_pos (Z.of_nat k), row_pos (Z.of_nat k), mini)) /\
    chart_values detail
    = {| min_col := Z.of_nat k + 2; min_row := 2; max_row := ws_max_row |} /\
    chart_values mini
    = {| min_col := Z.of_nat k + 2; min_row := 2; max_row := ws_max_row - 1 |} /\
    categories detail = {| min_col := 1; min_row := 2; max_row := ws_max_row |} /\
    categories mini = {| min_col := 1; min_row := 2; max_row := ws_max_row - 1 |} /\
    In (fill_color detail) CHART_COLORS /\ In (fill_color mini) CHART_COLORS.
Proof.
  intros Hnd Hcar Hk.
  assert (Hcol : find_kpi_col ("Car" :: kpis) kpi 1 = Some (Z.of_nat k + 2)).
  { rewrite (find_kpi_col_lookup ("Car" :: kpis) kpi) with (k := S k).
    - f_equal. lia.
    - constructor; assumption.
    - exact Hk. }
  assert (Hcolor : forall i, In (chart_color i) CHART_COLORS).
  { intros i. unfold chart_color. apply nth_In.
    pose proof (Z.mod_pos_bound i (Z.of_nat (length CHART_COLORS))) as Hb.
    cbn in *. lia. }
  unfold detail_charts, mini_charts.
  rewrite !list_lookup_imap, Hk. cbn [fmap option_fmap option_map].
  unfold mini_chart. rewrite Hcol. unfold detail_chart.
  do 3 eexists. repeat split; try reflexivity; apply Hcolor.
Qed.

Lemma charts_read_kpi_column_witness :
  exists heading detail mini,
    detail_charts 4 true two_kpis !! 1%nat = Some (heading, detail) /\
    mini_charts ("Car" :: two_kpis) 4 two_kpis !! 1%nat
    = Some (Some (col_pos 1, row_pos 1, mini)) /\
    chart_values detail = {| min_col := 3; min_row := 2; max_row := 4 |} /\
    chart_values mini = {| min_col := 3; min_row := 2; max_row := 3 |} /\
    categories detail = {| min_col := 1; min_row := 2; max_row := 4 |} /\
    categories mini = {| min_col := 1; min_row := 2; max_row := 3 |} /\
    In (fill_color detail) CHART_COLORS /\ In (fill_color mini) CHART_COLORS.
Proof.
  apply (charts_read_kpi_column two_kpis 4 1 "Range (miles)").
  - apply (bool_decide_unpack _). vm_compute. exact I.
  - apply (bool_decide_unpack _). vm_compute. exact I.
  - reflexivity.
Defined.

(** ** What [extract_value] reads of a content *)

(** X13. [extract_value] reads nothing of a content but its digits and
    decimal points, in order: two contents with the same ones give the
    same value. So a sign, a thousands separator, a unit or the letter of
    an exponent are dropped without a trace, and a content that starts
    with a minus sign gives what it gives without it. *)
Theorem extract_value_residue (a b : string) :
  numeric_residue a = numeric_residue b ->
  extract_value a = extract_value b /\
  extract_value (String "-" a) = extract_value b.
Proof.
  intros H.
  assert (Hres : forall s t, numeric_residue s = numeric_residue t ->
                             extract_value s = extract_value t).
  { intros s t Hst. unfold extract_value. rewrite !numeric_residue_strip, Hst.
    reflexivity. }
  split; [apply Hres, H |]. apply Hres. rewrite <- H. reflexivity.
Qed.

Lemma extract_value_residue_witness :
  extract_value "about -1.5e3 USD" = extract_value "1.53" /\
  extract_value "-about -1.5e3 USD" = extract_value "1.53".
Proof.
  apply (extract_value_residue "about -1.5e3 USD" "1.53"). reflexivity.
Defined.

(** ** After the validation *)

(** The exceptions of the arithmetic of the averages. *)
Lemma as_float_exn v e :
  as_float v = Raise e -> e = TypeError \/ e = OverflowError.
Proof.
  destruct v as [| z | f]; cbn [as_float]; [intros [= <-]; auto | | discriminate].
  unfold float_of_int. destruct (is_finite _); [discriminate |]. intros [= <-]. auto.
Qed.

Lemma py_add_exn a b e :
  py_add a b = Raise e -> e = TypeError \/ e = OverflowError.
Proof.
  unfold py_add. intros H.
  assert (Hgen : (x ← as_float a; y ← as_float b; Ok (PyFloat (Fadd x y))) = Raise e ->
                 e = TypeError \/ e = OverflowError).
  { destruct (as_float a) as [x | e1] eqn:Ha; cbn [mbind result_bind].
    - destruct (as_float b) as [y | e2] eqn:Hb; cbn [mbind result_bind];
        [discriminate |]. intros [= <-]. eapply as_float_exn, Hb.
    - intros [= <-]. eapply as_float_exn, Ha. }
  destruct a as [| x | x], b as [| y | y];
    try (injection H as <-; left; reflexivity); try discriminate;
    apply Hgen, H.
Qed.

Lemma sum_from_exn l : forall acc e,
  sum_from acc l = Raise e -> e = TypeError \/ e = OverflowError.
Proof.
  induction l as [| v l IH]; intros acc e; cbn [sum_from]; [discriminate |].
  destruct (py_add acc v) as [acc' | e1] eqn:Hadd; cbn [mbind result_bind].
  - apply IH.
  - intros [= <-]. eapply py_add_exn, Hadd.
Qed.

Lemma py_truediv_exn a b e :
  py_truediv a b = Raise e ->
  e = TypeError \/ e = OverflowError \/ e = ZeroDivisionError.
Proof.
  unfold py_truediv. intros H.
  assert (Hgen : (x ← as_float a; y ← as_float b; PyFloat <$> float_truediv x y) = Raise e ->
                 e = TypeError \/ e = OverflowError \/ e = ZeroDivisionError).
  { destruct (as_float a) as [x | e1] eqn:Ha; cbn [mbind result_bind].
    - destruct (as_float b) as [y | e2] eqn:Hb; cbn [mbind result_bind].
      + unfold float_truediv. destruct (float_is_zero y); cbn [fmap result_fmap];
          [intros [= <-]; auto | discriminate].
      + intros [= <-]. destruct (as_float_exn _ _ Hb); auto.
    - intros [= <-]. destruct (as_float_exn _ _ Ha); auto. }
  destruct a as [| x | x], b as [| y | y]; try (apply Hgen, H).
  unfold int_truediv in H. destruct y, x; cbn [fmap result_fmap] in H;
    try discriminate; try (injection H as <-; auto);
    match type of H with
    | context [is_finite ?f] => destruct (is_finite f); cbn in H;
                                [discriminate | injection H as <-; auto]
    end.
Qed.

Lemma average_of_exn vs e :
  average_of vs = Raise e ->
  e = TypeError \/ e = OverflowError \/ e = ZeroDivisionError.
Proof.
  unfold average_of. destruct (decide (vs = [])); [discriminate |].
  destruct (py_sum vs) as [total | e1] eqn:Hs; cbn [mbind result_bind].
  - destruct (py_truediv total _) as [avg | e2] eqn:Hd; cbn [mbind result_bind].
    + destruct avg; cbn [py_round2]; [intros [= <-]; auto | discriminate ..].
    + intros [= <-]. eapply py_truediv_exn, Hd.
  - intros [= <-]. destruct (sum_from_exn _ _ _ Hs); auto.
Qed.

Lemma kpi_values_present values kpi (cars : list string) :
  (forall car, car ∈ cars -> is_Some (values !! car)) ->
  is_Ok (kpi_values values kpi cars).
Proof.
  unfold kpi_values. induction cars as [| c rest IH]; intros H; [exact I |].
  cbn [mapR]. destruct (H c) as [row Hrow]; [left |].
  rewrite (cell_or_zero_row values kpi c row Hrow). cbn [mbind result_bind].
  assert (Hrest : is_Ok (mapR (cell_or_zero values kpi) rest)).
  { apply IH. intros car Hc. apply H. right. exact Hc. }
  apply is_Ok_inv in Hrest as [ys Hys]. rewrite Hys. exact I.
Qed.

Lemma averages_loop_exn cars kpis values :
  (forall car, car ∈ cars -> is_Some (values !! car)) ->
  forall acc e,
    averages_loop cars kpis values acc = Raise e ->
    e = TypeError \/ e = OverflowError \/ e = ZeroDivisionError.
Proof.
  intros Hrows. induction kpis as [| kpi rest IH]; intros acc e; cbn [averages_loop];
    [discriminate |].
  pose proof (kpi_values_present values kpi cars Hrows) as Hv.
  destruct (kpi_values values kpi cars) as [vs |]; [| contradiction].
  cbn [mbind result_bind].
  destruct (average_of vs) as [avg | e1] eqn:Ha; cbn [mbind result_bind].
  - apply IH.
  - intros [= <-]. eapply average_of_exn, Ha.
Qed.

(** Once the averages are there the table is. *)
Lemma create_dataframe_total cars kpis values averages :
  calculate_averages cars kpis values = Ok averages ->
  is_Ok (create_dataframe cars kpis values averages).
Proof.
  intros Hav.
  pose proof (calculate_averages_keys cars kpis values averages Hav) as Hkeys.
  destruct (add_columns_spec cars values averages kpis) with
    (t := [("Car", CStr <$> (cars ++ ["Average"]))]) as (df & Hadd & Hrect & _).
  { intros kpi Hk. destruct (Hkeys kpi Hk) as (vs & avg & -> & _ & ->).
    split; [exact I | eauto]. }
  { repeat constructor. cbn. rewrite length_fmap, length_app. cbn. lia. }
  unfold create_dataframe, table_data. rewrite Hadd. cbn [mbind result_bind].
  rewrite (DataFrame_rectangular df _) with (2 := Hrect); [exact I |].
  eapply add_columns_nonempty; [| exact Hadd]. discriminate.
Qed.

Lemma validated_rows (kpi_data : list (string * json))
    (values : gmap string (gmap string pyval)) (cars kpis : list string) records :
  jget "top_5_KPIs" kpi_data = Some (str_list kpis) ->
  jget "top_cars_US_2024" kpi_data = Some (str_list cars) ->
  validate_json_data kpi_data values = Ok (records, true) ->
  kpis <> [] /\ cars <> [] /\ forall car, car ∈ cars -> is_Some (values !! car).
Proof.
  intros Hk Hc. unfold validate_json_data. rewrite Hk, Hc. unfold str_list.
  destruct kpis as [| k ks]; [discriminate |].
  destruct cars as [| c cs]; [discriminate |].
  rewrite !fmap_cons. cbv beta iota. rewrite <- !fmap_cons. intros Hv.
  split; [discriminate |]. split; [discriminate |].
  intros car Hin. destruct (values !! car) as [row |] eqn:Hrow; [eauto |].
  exfalso.
  destruct (check_cars_missing values (k :: ks) (c :: cs) car Hin Hrow)
    as (recs & car' & Hch & _).
  rewrite Hch in Hv. cbn [mbind result_bind] in Hv. discriminate.
Qed.

(** X14. Once the validation has passed on a catalog of two lists of
    names, steps 4 and 5 of [main], which no [try] covers, cannot fail on
    a lookup: the values of every KPI are read for all the cars, and the
    averages and the table fail, if at all, on the arithmetic of an
    average, with [TypeError] (a cell that holds [None]), [OverflowError]
    or [ZeroDivisionError], never with [KeyError] or [ValueError]. *)
Theorem validated_report (kpi_data : list (string * json))
    (values : gmap string (gmap string pyval)) (cars kpis : list string)
    (records : list (level * message)) :
  jget "top_5_KPIs" kpi_data = Some (str_list kpis) ->
  jget "top_cars_US_2024" kpi_data = Some (str_list cars) ->
  validate_json_data kpi_data values = Ok (records, true) ->
  main (Some kpi_data) (Some values) = Ok (records, ReachesStep3 kpi_data values) /\
  (forall kpi, is_Ok (kpi_values values kpi cars)) /\
  (forall e, report_table cars kpis values = Raise e ->
     calculate_averages cars kpis values = Raise e /\
     (e = TypeError \/ e = OverflowError \/ e = ZeroDivisionError)).
Proof.
  intros Hk Hc Hv.
  destruct (validated_rows kpi_data values cars kpis records Hk Hc Hv)
    as (Hkne & Hcne & Hrows).
  split; [| split].
  - unfold main.
    assert (Ht : truthy (JObj kpi_data) = true).
    { destruct kpi_data; [discriminate | reflexivity]. }
    rewrite Ht. cbn [negb orb].
    destruct (bool_decide (values = ∅)) eqn:He.
    + apply bool_decide_eq_true in He. subst values.
      destruct cars as [| c cs]; [contradiction |].
      destruct (Hrows c) as [row Hrow]; [left |].
      rewrite lookup_empty in Hrow. discriminate.
    + rewrite Hv. reflexivity.
  - intros kpi. apply kpi_values_present, Hrows.
  - intros e. unfold report_table.
    destruct (calculate_averages cars kpis values) as [averages | e1] eqn:Hav;
      cbn [mbind result_bind].
    + intros Hdf. pose proof (create_dataframe_total _ _ _ _ Hav) as Hok.
      rewrite Hdf in Hok. contradiction.
    + intros [= <-]. split; [reflexivity |].
      eapply averages_loop_exn; [exact Hrows | exact Hav].
Qed.

Lemma validated_report_witness :
  main (Some two_catalog) (Some gap_values)
  = Ok ([(WARNING, MissingKpiForCar (JStr "Range (miles)") (JStr "Toyota Camry LE"));
         (INFO, ValidationPassed)], ReachesStep3 two_catalog gap_values) /\
  forall kpi, is_Ok (kpi_values gap_values kpi two_cars).
Proof.
  destruct (validated_report two_catalog gap_values two_cars two_kpis
              [(WARNING, MissingKpiForCar (JStr "Range (miles)") (JStr "Toyota Camry LE"));
               (INFO, ValidationPassed)])
    as (Hmain & Hvals & _); [reflexivity | reflexivity | | auto].
  vm_compute. reflexivity.
Defined.

(** ** The names of the cars of a response *)

Lemma lstrip_head (s : string) :
  lstrip s = "" \/ exists c r, lstrip s = String c r /\ is_space c = false.
Proof.
  induction s as [| c r IH]; [left; reflexivity |].
  cbn [lstrip]. destruct (is_space c) eqn:Hc; [exact IH |]. right. eauto.
Qed.

Lemma rstrip_idempotent (s : string) : rstrip (rstrip s) = rstrip s.
Proof.
  induction s as [| c r IH]; [reflexivity |].
  cbn [rstrip]. destruct (rstrip r) as [| c' r'] eqn:Hr.
  - destruct (is_space c) eqn:Hc; [reflexivity |]. cbn [rstrip]. rewrite Hc. reflexivity.
  - change (rstrip (String c (String c' r')))
      with (match rstrip (String c' r') with
            | "" => if is_space c then "" else String c ""
            | r'' => String c r''
            end).
    rewrite IH. reflexivity.
Qed.

Lemma strip_idempotent (s : string) : strip (strip s) = strip s.
Proof.
  unfold strip. destruct (lstrip_head s) as [-> | (c & r & -> & Hc)]; [reflexivity |].
  assert (Hhead : exists r', rstrip (String c r) = String c r').
  { cbn [rstrip]. destruct (rstrip r); [rewrite Hc |]; eauto. }
  destruct Hhead as [r' Hr']. rewrite Hr' at 1. cbn [lstrip]. rewrite Hc, <- Hr'.
  apply rstrip_idempotent.
Qed.

Lemma lstrip_Forall (P : ascii -> Prop) (s : string) :
  Forall P (list_ascii_of_string s) -> Forall P (list_ascii_of_string (lstrip s)).
Proof.
  induction s as [| c r IH]; intros H; [exact H |].
  cbn [lstrip]. destruct (is_space c); [| exact H].
  apply IH. inversion H; assumption.
Qed.

Lemma rstrip_Forall (P : ascii -> Prop) (s : string) :
  Forall P (list_ascii_of_string s) -> Forall P (list_ascii_of_string (rstrip s)).
Proof.
  induction s as [| c r IH]; intros H; [exact H |].
  inversion H as [| ? ? Hc Hr]; subst. specialize (IH Hr).
  cbn [rstrip]. destruct (rstrip r) as [| c' r'].
  - destruct (is_space c); repeat constructor; exact Hc.
  - constructor; assumption.
Qed.

Lemma split_lines_no_newline (s : string) :
  Forall (fun line => Forall (fun c => code c <> 10%N) (list_ascii_of_string line))
         (split_lines s).
Proof.
  induction s as [| c r IH]; [repeat constructor |].
  cbn [split_lines]. destruct (code c =? 10)%N eqn:Hc.
  - constructor; [constructor | exact IH].
  - apply N.eqb_neq in Hc. destruct (split_lines r) as [| h t].
    + repeat constructor. exact Hc.
    + inversion IH; subst. constructor; [constructor |]; assumption.
Qed.

(** X15. The car names read from a response are clean: none is empty,
    none starts or ends with white space (stripping a name again changes
    nothing) and none holds a line feed. Nothing is checked beyond that:
    a name may come twice. *)
Theorem cars_of_response_names (r : json) (car_list : list string) :
  cars_of_response r = Ok car_list ->
  Forall (fun car =>
            car <> "" /\ strip car = car /\
            Forall (fun c => code c <> 10%N) (list_ascii_of_string car))
         car_list.
Proof.
  unfold cars_of_response. intros H.
  destruct (getitem r "choices") as [choices |]; cbn [mbind result_bind] in H;
    [| discriminate].
  destruct (getitem0 choices) as [first |]; cbn [mbind result_bind] in H;
    [| discriminate].
  destruct (getitem first "message") as [message |]; cbn [mbind result_bind] in H;
    [| discriminate].
  destruct (getitem message "content") as [content |]; cbn [mbind result_bind] in H;
    [| discriminate].
  destruct content as [| | | | text | |]; try discriminate.
  injection H as <-. apply Forall_forall. intros car Hin.
  apply list_elem_of_fmap in Hin as (line & -> & Hline).
  apply list_elem_of_filter in Hline as [Hne Hline].
  split; [exact Hne |]. split; [apply strip_idempotent |].
  unfold strip. apply rstrip_Forall, lstrip_Forall.
  pose proof (split_lines_no_newline (strip text)) as Hall.
  rewrite Forall_forall in Hall. apply Hall, Hline.
Qed.

Lemma cars_of_response_names_witness :
  Forall (fun car =>
            car <> "" /\ strip car = car /\
            Forall (fun c => code c <> 10%N) (list_ascii_of_string car))
         ["Toyota Camry LE"; "Tesla Model 3 Long Range"; "Toyota Camry LE"].
Proof.
  apply (cars_of_response_names
           (cars_response ["  Toyota Camry LE "; ""; "Tesla Model 3 Long Range";
                           "   "; "Toyota Camry LE"])).
  vm_compute. reflexivity.
Defined.

(** ** The dashboard: what it loads *)

Lemma historical_load (fs : gmap string file_content) :
  try_except (Some <$> json_load fs historical_data_file) [FileNotFoundError] (Ok None)
  = match fs !! historical_data_file with
    | None => Ok None
    | Some (Doc h) => Ok (Some h)
    | Some Unreadable => Raise PermissionError
    | Some NotText => Raise UnicodeDecodeError
    | Some NotJSON => Raise JSONDecodeError
    end.
Proof.
  unfold json_load. destruct (fs !! historical_data_file) as [[| | | h] |]; reflexivity.
Qed.

(** X16. The dashboard goes past the guard of [main] exactly when the
    catalog and the values are JSON documents that are not empty (nor
    false in another way) and the historical file, which may be missing,
    is a JSON document when it is there: a historical file that cannot be
    read or is not JSON makes the whole load fail, although the data it
    holds is optional. When the two files load, [load_data] returns their
    documents with the history, if there is one; without the historical
    file the trend section draws nothing and raises nothing. *)
Theorem load_data_guard (fs : gmap string file_content) :
  (main_goes_on fs = true <->
   exists k v,
     fs !! kpi_data_file = Some (Doc k) /\ truthy k = true /\
     fs !! kpi_values_file = Some (Doc v) /\ truthy v = true /\
     (fs !! historical_data_file = None \/
      exists h, fs !! historical_data_file = Some (Doc h))) /\
  (forall k v,
     fs !! kpi_data_file = Some (Doc k) -> fs !! kpi_values_file = Some (Doc v) ->
     load_data fs
     = match fs !! historical_data_file with
       | None => (k, v, None, None)
       | Some (Doc h) => (k, v, Some h, None)
       | Some Unreadable => (JObj [], JObj [], None, Some PermissionError)
       | Some NotText => (JObj [], JObj [], None, Some UnicodeDecodeError)
       | Some NotJSON => (JObj [], JObj [], None, Some JSONDecodeError)
       end) /\
  (fs !! historical_data_file = None ->
   forall cars kpi, create_trend_analysis (load_data fs).1.2 cars kpi = Ok None).
Proof.
  unfold main_goes_on, load_data, load_files. rewrite historical_load.
  unfold json_load.
  split; [| split].
  - split.
    + destruct (fs !! kpi_data_file) as [[| | | k] |]; cbn [mbind result_bind];
        try discriminate.
      destruct (fs !! kpi_values_file) as [[| | | v] |]; cbn [mbind result_bind];
        try discriminate.
      destruct (fs !! historical_data_file) as [[| | | h] |];
        cbn [mbind result_bind]; try discriminate.
      * intros H. exists k, v.
        destruct (truthy k), (truthy v); try discriminate.
        repeat split; try reflexivity. right. exists h. reflexivity.
      * intros H. exists k, v.
        destruct (truthy k), (truthy v); try discriminate.
        repeat split; try reflexivity. left. reflexivity.
    + intros (k & v & -> & Hk & -> & Hv & Hh). cbn [mbind result_bind].
      destruct Hh as [-> | [h ->]]; cbn [mbind result_bind];
        rewrite Hk, Hv; reflexivity.
  - intros k v -> ->. cbn [mbind result_bind].
    destruct (fs !! historical_data_file) as [[| | | h] |]; reflexivity.
  - intros -> cars kpi.
    destruct (fs !! kpi_data_file) as [[| | | k] |]; cbn [mbind result_bind];
      try reflexivity.
    destruct (fs !! kpi_values_file) as [[| | | v] |]; reflexivity.
Qed.

Lemma load_data_guard_witness :
  main_goes_on (<[historical_data_file := NotJSON]> dashboard_files) = false /\
  main_goes_on dashboard_files = true.
Proof.
  split.
  - apply not_true_is_false. intros H.
    apply (proj1 (proj1 (load_data_guard _))) in H
      as (k & v & _ & _ & _ & _ & Hh).
    destruct Hh as [Hh | [h Hh]]; rewrite lookup_insert_eq in Hh; discriminate.
  - apply (proj2 (proj1 (load_data_guard dashboard_files))).
    exists (JObj two_catalog), camry_values.
    repeat split; try reflexivity. left. reflexivity.
Defined.

(** ** The dashboard: the cars a chart and a metric take *)

Lemma comparison_rows_present values (cars : list string) kpi :
  (forall car, car ∈ cars -> is_Some (values !! car)) ->
  comparison_rows values cars kpi
  = Ok (omap (fun car => row ← values !! car; v ← row !! kpi; Some (car, v)) cars).
Proof.
  induction cars as [| c rest IH]; intros H; [reflexivity |].
  cbn [comparison_rows omap list_omap]. destruct (H c) as [row Hrow]; [left |].
  rewrite Hrow. cbn [mbind option_bind].
  rewrite IH by (intros car Hc; apply H; right; exact Hc).
  destruct (row !! kpi) as [v |]; reflexivity.
Qed.

Lemma comparison_rows_missing values (cars : list string) kpi car :
  car ∈ cars -> values !! car = None ->
  comparison_rows values cars kpi = Raise KeyError.
Proof.
  intros Hin Hnone. induction cars as [| c rest IH]; [inversion Hin |].
  cbn [comparison_rows]. destruct (values !! c) as [row |] eqn:Hc.
  - apply elem_of_cons in Hin as [-> | Hin]; [congruence |].
    rewrite (IH Hin). destruct (row !! kpi); reflexivity.
  - reflexivity.
Qed.

(** X17. The comparison chart and the metric of a KPI take the same
    cars: those of the list that have the KPI, in the order of the list,
    each with its own value. The metric shows nothing exactly when no car
    has the KPI; both fail with [KeyError] as soon as a car of the list
    has no row at all. *)
Theorem comparison_and_metric_cars (values : gmap string (gmap string pyval))
    (cars : list string) (kpi : string) :
  ((forall car, car ∈ cars -> is_Some (values !! car)) ->
   exists rows,
     comparison_rows values cars kpi = Ok rows /\
     present_cells values cars kpi = Ok (rows.*2) /\
     rows = omap (fun car => row ← values !! car; v ← row !! kpi; Some (car, v)) cars /\
     (forall car v, (car, v) ∈ rows <-> car ∈ cars /\ cell values car kpi = Ok v) /\
     (metric values cars kpi = Ok None <->
      forall car, car ∈ cars -> ~ has_entry values car kpi)) /\
  (forall car, car ∈ cars -> values !! car = None ->
     comparison_rows values cars kpi = Raise KeyError /\
     metric values cars kpi = Raise KeyError).
Proof.
  split.
  - intros Hrows. pose proof (comparison_rows_present values cars kpi Hrows) as Hc.
    set (rows := omap (fun car => row ← values !! car; v ← row !! kpi; Some (car, v))
                      cars) in *.
    assert (Hmem : forall car v,
              (car, v) ∈ rows <-> car ∈ cars /\ cell values car kpi = Ok v).
    { intros car v. unfold rows. rewrite list_elem_of_omap. unfold cell. split.
      - intros (c & Hin & Hsome).
        destruct (values !! c) as [row |] eqn:Hrow; [| discriminate].
        cbn [mbind option_bind] in Hsome.
        destruct (row !! kpi) as [w |] eqn:Hw; [| discriminate].
        injection Hsome as <- <-. split; [exact Hin |].
        rewrite Hrow, Hw. reflexivity.
      - intros [Hin Hcell]. exists car. split; [exact Hin |].
        destruct (values !! car) as [row |]; [| discriminate].
        cbn [mbind option_bind].
        destruct (row !! kpi) as [w |]; [| discriminate].
        injection Hcell as ->. reflexivity. }
    exists rows. split; [exact Hc |]. split; [| split; [reflexivity |]; split; [exact Hmem |]].
    { unfold present_cells. rewrite Hc. reflexivity. }
    unfold metric, present_cells. rewrite Hc. cbn [mbind result_bind].
    destruct (decide (rows.*2 = [])) as [He | Hne].
    + split; [intros _ | reflexivity].
      intros car Hin (row & v & Hrow & Hv).
      apply fmap_nil_inv in He.
      assert (Hel : (car, v) ∈ rows).
      { apply Hmem. split; [exact Hin |]. unfold cell. rewrite Hrow, Hv. reflexivity. }
      rewrite He in Hel. inversion Hel.
    + split.
      * intros H. exfalso.
        destruct (py_sum _) as [total |]; cbn [mbind result_bind] in H;
          [| discriminate].
        destruct (py_truediv _ _) as [avg |]; cbn [mbind result_bind] in H;
          [| discriminate].
        destruct (py_max _) as [best |]; cbn [mbind result_bind] in H;
          [| discriminate].
        destruct (py_sub _ _); discriminate.
      * intros Hno. exfalso.
        destruct rows as [| [car v] rest] eqn:Hr; [apply Hne; reflexivity |].
        destruct (proj1 (Hmem car v)) as [Hin Hcell]; [left |].
        rewrite (proj2 (cell_has_entry values car kpi) (Hno car Hin)) in Hcell.
        discriminate.
  - intros car Hin Hnone.
    pose proof (comparison_rows_missing values cars kpi car Hin Hnone) as Hc.
    split; [exact Hc |]. unfold metric, present_cells. rewrite Hc. reflexivity.
Qed.

Lemma comparison_and_metric_cars_witness :
  comparison_rows gap_values two_cars "Range (miles)"
  = Ok [("Tesla Model 3 Long Range", PyInt 341)] /\
  comparison_rows tesla_only two_cars "Range (miles)" = Raise KeyError.
Proof.
  split.
  - destruct (proj1 (comparison_and_metric_cars gap_values two_cars "Range (miles)"))
      as (rows & Hc & _ & Hrows & _).
    + intros car Hin. apply (bool_decide_unpack _).
      revert car Hin. apply Forall_forall. repeat constructor.
    + rewrite Hc, Hrows. vm_compute. reflexivity.
  - apply (proj2 (comparison_and_metric_cars tesla_only two_cars "Range (miles)")
             "Toyota Camry LE"); [left | reflexivity].
Defined.

(** ** The average of the dashboard and the average of the report *)

Lemma present_cells_full values (cars : list string) kpi :
  (forall car, car ∈ cars -> has_entry values car kpi) ->
  present_cells values cars kpi = kpi_values values kpi cars.
Proof.
  unfold present_cells, kpi_values.
  induction cars as [| c rest IH]; intros H; [reflexivity |].
  destruct (H c) as (row & v & Hrow & Hv); [left |].
  cbn [comparison_rows mapR]. rewrite Hrow, Hv.
  rewrite (cell_or_zero_row values kpi c row Hrow), Hv. cbn [mbind result_bind default].
  rewrite <- IH by (intros car Hc; apply H; right; exact Hc).
  destruct (comparison_rows values rest kpi); reflexivity.
Qed.

(** X18. When every car of the list has the KPI, the average that the
    metric of the dashboard shows and the average of the report are one
    computation up to the rounding of the report: [calculate_averages]
    keeps, for the KPI, the metric's average rounded to two decimals. (A
    car without the KPI is left out by the metric and counts as 0 in the
    report.) *)
Theorem metric_and_report_average (values : gmap string (gmap string pyval))
    (cars kpis : list string) (kpi : string) (avg delta : pyval)
    (averages : gmap string pyval) :
  (forall car, car ∈ cars -> has_entry values car kpi) ->
  metric values cars kpi = Ok (Some (avg, delta)) ->
  kpi ∈ kpis ->
  calculate_averages cars kpis values = Ok averages ->
  exists vs rounded,
    present_cells values cars kpi = Ok vs /\
    kpi_values values kpi cars = Ok vs /\
    length vs = length cars /\
    py_round2 avg = Ok rounded /\
    averages !! kpi = Some rounded.
Proof.
  intros Hall Hm Hk Hav.
  destruct (calculate_averages_keys cars kpis values averages Hav kpi Hk)
    as (vs & rounded & Hvs & Hmean & Hlook).
  pose proof (present_cells_full values cars kpi Hall) as Hp.
  rewrite Hvs in Hp.
  exists vs, rounded. split; [exact Hp |]. split; [exact Hvs |].
  split; [eapply kpi_values_length, Hvs |]. split; [| exact Hlook].
  unfold metric in Hm. rewrite Hp in Hm. cbn [mbind result_bind] in Hm.
  unfold average_of in Hmean.
  destruct (decide (vs = [])); [discriminate |].
  destruct (py_sum vs) as [total |]; cbn [mbind result_bind] in Hm, Hmean;
    [| discriminate].
  destruct (py_truediv total _) as [a |]; cbn [mbind result_bind] in Hm, Hmean;
    [| discriminate].
  destruct (py_max vs) as [best |]; cbn [mbind result_bind] in Hm; [| discriminate].
  destruct (py_sub best a) as [d |]; cbn [mbind result_bind] in Hm; [| discriminate].
  injection Hm as <- <-. exact Hmean.
Qed.

Lemma metric_and_report_average_witness :
  exists avg delta rounded averages,
    metric gap_values two_cars "Horsepower" = Ok (Some (avg, delta)) /\
    calculate_averages two_cars two_kpis gap_values = Ok averages /\
    py_round2 avg = Ok rounded /\
    averages !! "Horsepower" = Some rounded.
Proof.
  assert (Hok : is_Ok (calculate_averages two_cars two_kpis gap_values))
    by (vm_compute; exact I).
  destruct (calculate_averages two_cars two_kpis gap_values) as [averages |] eqn:Hav;
    [| contradiction].
  pose (m := metric gap_values two_cars "Horsepower").
  assert (Hm : exists avg delta, m = Ok (Some (avg, delta)))
    by (vm_compute; eauto).
  destruct Hm as (avg & delta & Hm). unfold m in Hm.
  destruct (metric_and_report_average gap_values two_cars two_kpis "Horsepower"
              avg delta averages) as (vs & rounded & _ & _ & _ & Hr & Hl).
  - intros car Hin. unfold two_cars in Hin.
    apply elem_of_cons in Hin as [-> | Hin];
      [| apply list_elem_of_singleton in Hin as ->];
      do 2 eexists; split; reflexivity.
  - exact Hm.
  - left.
  - exact Hav.
  - exists avg, delta, rounded, averages. split; [exact Hm |]. auto.
Defined.
